(** * The visual matching engine of [backend/ai_service.py]

    A shallow embedding of the keypoint extractor, the local similarity
    scorer, the embedding comparator and the match orchestrator
    ([AIService.analyze_image]), followed by the properties the
    specification states about them.

    The numeric code is written once, over the interface [Arith] of the
    operations the Python source uses, and read at two instances: the real
    numbers ([Exact.RArith], the arithmetic the formulas denote) and IEEE
    binary64 ([Binary64.F64], the arithmetic Python evaluates).  The
    embeddings are [float32] tensors in the code; what is proved for every
    instance of [Arith] holds of that arithmetic as well.  OpenCV, FLANN,
    PyTorch and the CLIP model are not part of the repository: their
    entry points are parameters of the functions that call them.

    The corpus builder ([compute_clip_embeddings.py]) and the web API that
    calls the orchestrator ([main.py]) follow, embedded the same way. *)

From Stdlib Require Import ZArith String Ascii List Bool Arith Lia Lra.
From Stdlib Require Import Reals Floats Permutation Sorted DecimalString.
Import ListNotations.

Set Implicit Arguments.
Set Warnings "-inexact-float".

(** ** Python values, exceptions and dictionaries *)

(** The exceptions the modelled code can meet. *)
Inductive exn : Type :=
| KeyError (key : string)
| IndexError
| AttributeError
| RuntimeError
| CvError.

(** The outcome of a Python expression: a value, or a raised exception. *)
Inductive result (A : Type) : Type :=
| Ok (a : A)
| Raise (e : exn).

Arguments Ok {A} a.
Arguments Raise {A} e.

Definition bind {A B : Type} (c : result A) (k : A -> result B) : result B :=
  match c with
  | Ok a => k a
  | Raise e => Raise e
  end.

Notation "x <- c ;; k" := (bind c (fun x => k))
  (at level 61, c at next level, right associativity).
Notation "' p <- c ;; k" := (bind c (fun x => let p := x in k))
  (at level 61, p pattern, c at next level, right associativity).

(** A [dict] with string keys, as an association list in insertion order. *)
Definition pydict (V : Type) : Type := list (string * V).

Fixpoint lookup {V : Type} (key : string) (d : pydict V) : option V :=
  match d with
  | [] => None
  | (k, v) :: d' => if String.eqb k key then Some v else lookup key d'
  end.

(** [d[key]]: raises [KeyError] when the key is absent. *)
Definition getitem {V : Type} (key : string) (d : pydict V) : result V :=
  match lookup key d with
  | Some v => Ok v
  | None => Raise (KeyError key)
  end.

(** [l[i]] on a list: raises [IndexError] past the end. *)
Definition index {A : Type} (l : list A) (i : nat) : result A :=
  match nth_error l i with
  | Some a => Ok a
  | None => Raise IndexError
  end.

(** ** Arithmetic *)

(** The operations on Python floats that the source uses. *)
Class Arith : Type := {
  num : Type;
  of_Z : Z -> num;
  add : num -> num -> num;
  sub : num -> num -> num;
  mul : num -> num -> num;
  div : num -> num -> num;
  sqrt : num -> num;
  exp : num -> num;
  ltb : num -> num -> bool;
  leb : num -> num -> bool
}.

Section Numbers.
Context {A : Arith}.

Definition of_nat (n : nat) : num := of_Z (Z.of_nat n).

(** The decimal literal [m / 10^d] ([decimal 15 2] is [0.15]).  Both
    integers are represented exactly, so the quotient is rounded once, to
    the float the literal denotes. *)
Definition decimal (m : Z) (d : nat) : num :=
  div (of_Z m) (of_Z (10 ^ Z.of_nat d)).

Definition geb (x y : num) : bool := leb y x.

(** [max(x, y)] on two floats. *)
Definition fmax (x y : num) : num := if ltb x y then y else x.
End Numbers.

(** Multiplication commutes: the one law of arithmetic that the symmetry of
    the embedding comparator rests on.  It holds of the reals and of IEEE
    floats alike. *)
Class MulComm (A : Arith) : Prop :=
  mul_comm : forall x y : num, mul x y = mul y x.

(** *** Exact arithmetic: the real numbers *)
Module Exact.
Definition Rltb (x y : R) : bool := if Rlt_dec x y then true else false.
Definition Rleb (x y : R) : bool := if Rle_dec x y then true else false.
Definition Reqb (x y : R) : bool := if Req_dec_T x y then true else false.

#[export] Instance RArith : Arith := {|
  num := R;
  of_Z := IZR;
  add := Rplus;
  sub := Rminus;
  mul := Rmult;
  div := Rdiv;
  sqrt := R_sqrt.sqrt;
  exp := Rtrigo_def.exp;
  ltb := Rltb;
  leb := Rleb
|}.
End Exact.

(** *** IEEE binary64: the arithmetic Python evaluates *)
Module Binary64.
Local Open Scope float_scope.

(** The integer a float holds, when it holds one. *)
Definition float_to_Z (x : float) : Z :=
  match Prim2SF x with
  | S754_finite s m e =>
      let v := Z.shiftl (Z.pos m) e in if s then (- v)%Z else v
  | _ => 0%Z
  end.

(** [int -> float], rounded to nearest. *)
Definition float_of_Z (z : Z) : float :=
  match z with
  | Z0 => 0
  | Zpos _ => of_uint63 (Uint63.of_Z z)
  | Zneg _ => - of_uint63 (Uint63.of_Z (- z))
  end.

(** Round to the nearest integer, for magnitudes below [2^51]. *)
Definition rint (x : float) : float := (x + 0x1.8p52) - 0x1.8p52.

Fixpoint exp_series (n : nat) (k r acc : float) : float :=
  match n with
  | O => acc
  | S n' => exp_series n' (k - 1) r (1 + r * acc / k)
  end.

(** [numpy.exp] on a binary64 argument.  numpy is not part of the
    repository; this is the usual scheme of such a routine: overflow to
    [inf] above [0x1.62e42fefa39efp9], underflow to [0] below
    [-0x1.74910d52d3051p9], otherwise [x = k ln 2 + r] with
    [|r| <= ln 2 / 2] and the Taylor polynomial of degree 16 in [r],
    scaled by [2^k].  It agrees with the library to about one unit in
    the last place. *)
Definition np_exp (x : float) : float :=
  if is_nan x then nan
  else if 0x1.62e42fefa39efp9 <? x then infinity
  else if x <? -0x1.74910d52d3051p9 then 0
  else
    let k := rint (x * 0x1.71547652b82fep0) in
    let r := (x - k * 0x1.62e42fee00000p-1) - k * 0x1.a39ef35793c76p-33 in
    Z.ldexp (exp_series 16 16 r 1) (float_to_Z k).

(** The digits of [n], at least [width] of them. *)
Definition digits (width : nat) (n : Z) : string :=
  let d := NilZero.string_of_uint (N.to_uint (Z.to_N n)) in
  (string_of_list_ascii (repeat "0"%char (width - String.length d)) ++ d)%string.

(** [round(|x| * 1000)], to nearest and to even on a tie, for a finite
    [x = m * 2^e]. *)
Definition thousandths (m : positive) (e : Z) : Z :=
  let n := (Z.pos m * 1000)%Z in
  if (0 <=? e)%Z then Z.shiftl n e
  else
    let unit := Z.shiftl 1 (- e) in
    let q := (n / unit)%Z in
    let r := (n mod unit)%Z in
    match (2 * r ?= unit)%Z with
    | Lt => q
    | Gt => (q + 1)%Z
    | Eq => if Z.even q then q else (q + 1)%Z
    end.

(** [f"{x:.3f}"]. *)
Definition format_3f (x : float) : string :=
  match Prim2SF x with
  | S754_nan => "nan"
  | S754_infinity s => if s then "-inf" else "inf"
  | S754_zero s => if s then "-0.000" else "0.000"
  | S754_finite s m e =>
      let t := thousandths m e in
      ((if s then "-" else "") ++ digits 1 (t / 1000) ++ "." ++
       digits 3 (t mod 1000))%string
  end.

#[export] Instance F64 : Arith := {|
  num := float;
  of_Z := float_of_Z;
  add := PrimFloat.add;
  sub := PrimFloat.sub;
  mul := PrimFloat.mul;
  div := PrimFloat.div;
  sqrt := PrimFloat.sqrt;
  exp := np_exp;
  ltb := PrimFloat.ltb;
  leb := PrimFloat.leb
|}.
End Binary64.

(** ** Sorting

    [list.sort(key=..., reverse=True)]: a stable sort by descending key, so
    that elements with equal keys keep the order they had. *)
Section Sorting.
Context {A : Arith} {T : Type} (key : T -> num).

Fixpoint insert_desc (x : T) (l : list T) : list T :=
  match l with
  | [] => [x]
  | y :: l' =>
      if ltb (key x) (key y) then y :: insert_desc x l' else x :: y :: l'
  end.

Definition sort_reverse (l : list T) : list T :=
  fold_right insert_desc [] l.
End Sorting.

(** What a list sorted by descending key looks like, over the reals. *)
Section SortedReals.
Context {T : Type} (key : T -> R).

(** [a] may stand before [b]. *)
Definition desc (a b : T) : Prop := (key b <= key a)%R.

(** The elements whose key is [c], in the order of the list. *)
Definition with_key (c : R) (l : list T) : list T :=
  filter (fun t => Exact.Reqb (key t) c) l.
End SortedReals.

(** ** Data model *)
Section Model.
Context {A : Arith}.

Definition image_bytes : Type := list Byte.byte.

(** [cv2.KeyPoint]. *)
Record KeyPoint : Type := {
  pt : num * num;
  size : num;
  angle : num;
  response : num;
  octave : Z;
  class_id : Z
}.

(** A descriptor matrix: one row per keypoint. *)
Definition descriptor : Type := list num.
Definition descriptors : Type := list descriptor.

(** [cv2.DMatch]. *)
Record DMatch : Type := {
  queryIdx : Z;
  trainIdx : Z;
  distance : num
}.

(** A CLIP embedding: the row of a tensor of shape [[1, n]]. *)
Definition tensor : Type := list num.

(** The values kept in the JSON metadata and in the diagnostic details. *)
Inductive pyval : Type :=
| PyInt (z : Z)
| PyFloat (x : num)
| PyStr (s : string).

(** One reported match. *)
Record Match : Type := {
  material_number : pyval;
  confidence_score : num;
  match_reason : string;
  details : pydict pyval
}.

(** The corpus store held by the service: [None] when it is not loaded. *)
Record AIService : Type := {
  stored_features : option (list (pydict tensor));
  mapping : option (list (pydict pyval))
}.
End Model.

Arguments KeyPoint {A}.
Arguments DMatch {A}.
Arguments Match {A}.
Arguments AIService {A}.
Arguments pyval {A}.

(** ** Keypoint extractor *)
Section KeypointExtractor.
Context {A : Arith}.

(** The decoded pixel grid, and the OpenCV calls of the extractor:
    [np.frombuffer] with [cv2.imdecode] ([None] for bytes that are not an
    image), the four preprocessing steps, [sift.detectAndCompute] and
    [sift_filtered.compute].  Each may raise. *)
Variable image : Type.
Variable imdecode : image_bytes -> result (option image).
Variable preprocess : image -> result image.
Variable detectAndCompute :
  image -> result (list KeyPoint * option descriptors).
Variable compute :
  image -> list KeyPoint -> result (list KeyPoint * option descriptors).

(** Lines 128-149: keep the 1000 strongest keypoints and recompute their
    descriptors. *)
Definition filter_strongest (gray : image) (keypoints : list KeyPoint)
  : result (list KeyPoint * option descriptors) :=
  let keypoints_with_responses :=
    map (fun kp => (kp, response kp)) keypoints in
  let keypoints_with_responses := sort_reverse snd keypoints_with_responses in
  let filtered_keypoints :=
    map fst (firstn 1000 keypoints_with_responses) in
  ' (_, filtered_descriptors) <- compute gray filtered_keypoints ;;
  Ok (filtered_keypoints, filtered_descriptors).

(** [descriptors.shape] in the closing message: an attribute of [None]
    does not exist. *)
Definition shape (d : option descriptors) : result nat :=
  match d with
  | Some rows => Ok (length rows)
  | None => Raise AttributeError
  end.

(** The body of the [try] block. *)
Definition extract (bytes : image_bytes)
  : result (option (list KeyPoint) * option descriptors) :=
  img <- imdecode bytes ;;
  match img with
  | None => Ok (None, None)
  | Some img =>
      gray <- preprocess img ;;
      ' (keypoints, descs) <- detectAndCompute gray ;;
      match descs with
      | None => Ok (None, None)
      | Some _ =>
          if length keypoints <? 10 then Ok (None, None)
          else
            ' (keypoints, descs) <-
              (if 1000 <? length keypoints
               then filter_strongest gray keypoints
               else Ok (keypoints, descs)) ;;
            _ <- shape descs ;;
            Ok (Some keypoints, descs)
      end
  end.

Definition get_image_features_from_bytes (bytes : image_bytes)
  : option (list KeyPoint) * option descriptors :=
  match extract bytes with
  | Ok r => r
  | Raise _ => (None, None)
  end.
End KeypointExtractor.

(** What the extractor relies on OpenCV's SIFT for: one descriptor row
    per keypoint, for the keypoints [detectAndCompute] returns and for the
    keypoints [compute] is given. *)
Definition one_row_per_keypoint {A : Arith} {image : Type}
    (detectAndCompute : image -> result (list KeyPoint * option descriptors))
    (compute : image -> list KeyPoint ->
               result (list KeyPoint * option descriptors)) : Prop :=
  (forall gray kps rows,
      detectAndCompute gray = Ok (kps, Some rows) ->
      length rows = length kps) /\
  (forall gray kps kps' rows,
      compute gray kps = Ok (kps', Some rows) ->
      length rows = length kps).

(** ** Descriptor matcher and local similarity scorer *)
Section LocalSimilarity.
Context {A : Arith}.

(** [flann.knnMatch(query, stored, k)]: for each query descriptor its
    nearest stored descriptors, best first; may raise. *)
Variable knnMatch :
  descriptors -> descriptors -> nat -> result (list (list DMatch)).

(** Lowe's ratio test over the pairs the matcher returned. *)
Definition ratio_test (ratio : num) (matches : list (list DMatch))
  : list DMatch :=
  flat_map
    (fun match_pair =>
       match match_pair with
       | [m; n] =>
           if ltb (distance m) (mul ratio (distance n)) then [m] else []
       | _ => []
       end)
    matches.

(** [1 / (1 + np.exp(-8 * (x - 0.15)))]. *)
Definition sigmoid_score (x : num) : num :=
  div (of_Z 1)
      (add (of_Z 1) (exp (mul (of_Z (-8)) (sub x (decimal 15 2))))).

Definition compute_image_similarity
    (query_keypoints : list KeyPoint) (query_descriptors : option descriptors)
    (stored_keypoints : list KeyPoint)
    (stored_descriptors : option descriptors) : num :=
  match query_descriptors, stored_descriptors with
  | Some qd, Some sd =>
      match
        (matches <- knnMatch qd sd 2 ;;
         let good_matches := ratio_test (decimal 8 1) matches in
         let min_keypoints :=
           Nat.min (length query_keypoints) (length stored_keypoints) in
         if min_keypoints =? 0 then Ok (of_Z 0)
         else
           let match_ratio :=
             div (of_nat (length good_matches)) (of_nat min_keypoints) in
           Ok (sigmoid_score match_ratio))
      with
      | Ok similarity => similarity
      | Raise _ => of_Z 0
      end
  | _, _ => of_Z 0
  end.

Definition compute_image_similarity_detailed
    (query_keypoints : list KeyPoint) (query_descriptors : option descriptors)
    (stored_keypoints : list KeyPoint)
    (stored_descriptors : option descriptors) : num * pydict pyval :=
  match query_descriptors, stored_descriptors with
  | Some qd, Some sd =>
      match
        (matches <- knnMatch qd sd 2 ;;
         let good_matches := ratio_test (decimal 7 1) matches in
         let min_keypoints :=
           Nat.min (length query_keypoints) (length stored_keypoints) in
         if min_keypoints =? 0 then Ok (of_Z 0, [])
         else
           let match_ratio :=
             div (of_nat (length good_matches)) (of_nat min_keypoints) in
           let smaller_keypoints :=
             Nat.min (length query_keypoints) (length stored_keypoints) in
           let larger_keypoints :=
             Nat.max (length query_keypoints) (length stored_keypoints) in
           let similarity :=
             if 0 <? smaller_keypoints then
               let absolute_score :=
                 div (of_nat (length good_matches))
                     (of_nat smaller_keypoints) in
               let relative_score :=
                 div (of_nat (length good_matches))
                     (of_nat larger_keypoints) in
               let similarity :=
                 add (mul (decimal 7 1) absolute_score)
                     (mul (decimal 3 1) relative_score) in
               sigmoid_score similarity
             else of_Z 0 in
           Ok (similarity,
               [ ("total_matches"%string,
                   PyInt (Z.of_nat (length matches)));
                 ("good_matches"%string,
                   PyInt (Z.of_nat (length good_matches)));
                 ("match_ratio"%string, PyFloat match_ratio);
                 ("query_keypoints"%string,
                   PyInt (Z.of_nat (length query_keypoints)));
                 ("stored_keypoints"%string,
                   PyInt (Z.of_nat (length stored_keypoints)));
                 ("min_keypoints"%string, PyInt (Z.of_nat min_keypoints));
                 ("absolute_score"%string,
                   if 0 <? smaller_keypoints
                   then PyFloat (div (of_nat (length good_matches))
                                     (of_nat smaller_keypoints))
                   else PyInt 0);
                 ("relative_score"%string,
                   if 0 <? larger_keypoints
                   then PyFloat (div (of_nat (length good_matches))
                                     (of_nat larger_keypoints))
                   else PyInt 0) ]))
      with
      | Ok r => r
      | Raise _ => (of_Z 0, [])
      end
  | _, _ => (of_Z 0, [])
  end.
End LocalSimilarity.

(** ** Embedding comparator *)
Section EmbeddingComparator.
Context {A : Arith}.

(** The sum of the products of the entries. *)
Fixpoint dot (x y : tensor) : num :=
  match x, y with
  | a :: x', b :: y' => add (mul a b) (dot x' y')
  | _, _ => of_Z 0
  end.

Definition norm (x : tensor) : num := sqrt (dot x x).

(** The two rows brought to a common width, as PyTorch broadcasts them:
    rows of equal width are taken as they are, a row of width 1 is
    repeated to the width of the other, and rows of other widths cannot
    be broadcast, which raises. *)
Definition broadcast_tensors (x1 x2 : tensor) : result (tensor * tensor) :=
  if length x1 =? length x2 then Ok (x1, x2)
  else
    match x1, x2 with
    | [a], _ => Ok (repeat a (length x2), x2)
    | _, [b] => Ok (x1, repeat b (length x1))
    | _, _ => Raise RuntimeError
    end.

(** [F.cosine_similarity(x1, x2, dim=1)] on two rows, as PyTorch 2 has
    it: the rows are broadcast, then the documented formula
    [x1.x2 / (max(|x1|, eps) * max(|x2|, eps))] with [eps = 1e-8] is
    applied.  The code evaluates it on [float32] tensors and widens the
    result with [.item()]; here it is evaluated in the arithmetic of the
    instance. *)
Definition cosine_similarity (x1 x2 : tensor) : result num :=
  ' (x1, x2) <- broadcast_tensors x1 x2 ;;
  Ok (div (dot x1 x2)
          (mul (fmax (norm x1) (decimal 1 8))
               (fmax (norm x2) (decimal 1 8)))).

Definition compute_clip_similarity
    (query_features stored_features : option tensor) : num :=
  match query_features, stored_features with
  | Some q, Some s =>
      match
        (similarity <- cosine_similarity q s ;;
         let similarity := div (add similarity (of_Z 1)) (of_Z 2) in
         Ok similarity)
      with
      | Ok similarity => similarity
      | Raise _ => of_Z 0
      end
  | _, _ => of_Z 0
  end.

Definition compute_clip_similarity_detailed
    (query_features stored_features : option tensor)
  : num * pydict pyval :=
  match query_features, stored_features with
  | Some q, Some s =>
      match
        (similarity <- cosine_similarity q s ;;
         let similarity_score := div (add similarity (of_Z 1)) (of_Z 2) in
         let details :=
           [ ("cosine_similarity"%string, PyFloat similarity);
             ("normalized_similarity"%string, PyFloat similarity_score);
             ("feature_dimensions"%string, PyInt (Z.of_nat (length q))) ] in
         Ok (similarity_score, details))
      with
      | Ok r => r
      | Raise _ => (of_Z 0, [])
      end
  | _, _ => (of_Z 0, [])
  end.
End EmbeddingComparator.

(** ** Corpus store and match orchestrator: [AIService] *)
Section Service.
Context {A : Arith}.

(** [get_clip_features_from_bytes]: the CLIP image encoder behind a
    [try] that turns every failure into [None]. *)
Variable get_clip_features_from_bytes : image_bytes -> option tensor.

(** The format specification [:.3f]. *)
Variable format_3f : num -> string.

(** [np.load] of the archive, then [json.load] of the metadata; any
    failure leaves both fields [None]. *)
Definition _load_features
    (np_load : result (list (pydict tensor)))
    (json_load : result (list (pydict pyval))) : AIService :=
  match (features_data <- np_load ;;
         m <- json_load ;;
         Ok (features_data, m))
  with
  | Ok (features_data, m) =>
      {| stored_features := Some features_data; mapping := Some m |}
  | Raise _ => {| stored_features := None; mapping := None |}
  end.

Definition is_model_available (self : AIService) : bool :=
  match stored_features self, mapping self with
  | Some _, Some _ => true
  | _, _ => false
  end.

Definition _fallback_analysis (self : AIService) (ai_response : string)
    (spare_parts_data : list (pydict pyval)) : result (list Match) :=
  Ok [].

(** Lines 416-431: the loop over the stored images.  The two lists
    [similarities] and [similarity_details] grow together and are kept
    here as one list of pairs. *)
Fixpoint scan (mapping : list (pydict pyval)) (query_features : tensor)
    (i : nat) (stored : list (pydict tensor))
  : result (list (num * pydict pyval)) :=
  match stored with
  | [] => Ok []
  | stored_feature :: rest =>
      stored_features <- getitem "clip_features" stored_feature ;;
      part_info <- index mapping i ;;
      _ <- getitem "material_number" part_info ;;
      let (similarity, details) :=
        compute_clip_similarity_detailed
          (Some query_features) (Some stored_features) in
      _ <- getitem "cosine_similarity" details ;;
      rest' <- scan mapping query_features (S i) rest ;;
      Ok ((similarity, details) :: rest')
  end.

(** Lines 438-447: the matches at or above the threshold. *)
Fixpoint collect (mapping : list (pydict pyval)) (idx : nat)
    (similarities : list (num * pydict pyval)) : result (list Match) :=
  match similarities with
  | [] => Ok []
  | (sim_score, sim_details) :: rest =>
      if geb sim_score (decimal 9 1) then
        part_info <- index mapping idx ;;
        material <- getitem "material_number" part_info ;;
        rest' <- collect mapping (S idx) rest ;;
        Ok ({| material_number := material;
               confidence_score := sim_score;
               match_reason :=
                 ("CLIP semantic matching: " ++ format_3f sim_score)%string;
               details := sim_details |} :: rest')
      else collect mapping (S idx) rest
  end.

Definition analyze_image (self : AIService) (image_data : image_bytes)
    (spare_parts_data : list (pydict pyval)) : result (list Match) :=
  match stored_features self, mapping self with
  | Some features, Some mapping =>
      match get_clip_features_from_bytes image_data with
      | None => _fallback_analysis self "" spare_parts_data
      | Some query_features =>
          similarities <- scan mapping query_features 0 features ;;
          valid_matches <- collect mapping 0 similarities ;;
          let valid_matches := sort_reverse confidence_score valid_matches in
          let matches :=
            match valid_matches with
            | best_match :: _ => [best_match]
            | [] => []
            end in
          match matches with
          | [] => Ok []
          | _ => Ok matches
          end
      end
  | _, _ => _fallback_analysis self "" spare_parts_data
  end.
End Service.

(** A corpus every entry of which can be compared with the embedding [q]:
    entry [k] holds an embedding of the width of [q], and the metadata has
    a [material_number] at position [k]. *)
Definition comparable {A : Arith} (features : list (pydict tensor))
    (mp : list (pydict pyval)) (q : tensor) : Prop :=
  forall k sf,
    nth_error features k = Some sf ->
    exists s part v,
      lookup "clip_features" sf = Some s /\
      length s = length q /\
      nth_error mp k = Some part /\
      lookup "material_number" part = Some v.

(** ** The formulas of the specification

    Section 4.3 of the specification, in its own words, to compare the code
    with. *)
Section SpecFormulas.
Context {A : Arith}.

(** [blended = 0.7 * absolute + 0.3 * relative]. *)
Definition spec_blended (good smaller larger : nat) : num :=
  add (mul (decimal 7 1) (div (of_nat good) (of_nat smaller)))
      (mul (decimal 3 1) (div (of_nat good) (of_nat larger))).

(** [sigmoid(steepness * (x - midpoint))]. *)
Definition spec_sigmoid (steepness midpoint x : num) : num :=
  div (of_Z 1)
      (add (of_Z 1)
           (exp (sub (of_Z 0) (mul steepness (sub x midpoint))))).
End SpecFormulas.

(** ** Keypoint serialization *)
Section Serialization.
Context {A : Arith}.

(** What a serialized keypoint holds under a key: a point (the pair
    [kp.pt]), a float or an integer.  A [cv2.KeyPoint] keeps its
    coordinates, size, angle and response in C [float]s and its octave and
    class in C [int]s, so these are the numbers that [serialize_keypoints]
    writes.  The dicts of this model hold such numbers only: a number that
    a C [float] or [int] cannot hold (0.1, say, which [cv2.KeyPoint] rounds
    to 0.10000000149011612, or an integer past the range of [int], which
    it refuses) is not among the inputs described here. *)
Inductive kpval : Type :=
| KvPoint (x y : num)
| KvFloat (x : num)
| KvInt (z : Z).

(** The outcome of rebuilding keypoints: the keypoints, [KeyError] for a
    key that a dict lacks, or the error raised for a value of the wrong
    kind ([TypeError] from the subscript of a [pt] that is no pair, or
    the argument check of [cv2.KeyPoint]). *)
Inductive rebuilt (T : Type) : Type :=
| Rebuilt (v : T)
| MissingKey (key : string)
| WrongKind.

Arguments Rebuilt {T} v.
Arguments MissingKey {T} key.
Arguments WrongKind {T}.

Definition and_then {T U : Type} (c : rebuilt T) (k : T -> rebuilt U)
  : rebuilt U :=
  match c with
  | Rebuilt v => k v
  | MissingKey key => MissingKey key
  | WrongKind => WrongKind
  end.

Definition serialize_keypoint (kp : KeyPoint) : pydict kpval :=
  [ ("pt"%string, KvPoint (fst (pt kp)) (snd (pt kp)));
    ("size"%string, KvFloat (size kp));
    ("angle"%string, KvFloat (angle kp));
    ("response"%string, KvFloat (response kp));
    ("octave"%string, KvInt (octave kp));
    ("class_id"%string, KvInt (class_id kp)) ].

Definition serialize_keypoints (keypoints : list KeyPoint)
  : list (pydict kpval) :=
  map serialize_keypoint keypoints.

(** [kp_dict[key]]. *)
Definition field (key : string) (kp_dict : pydict kpval) : rebuilt kpval :=
  match lookup key kp_dict with
  | Some v => Rebuilt v
  | None => MissingKey key
  end.

(** [v[0]] and [v[1]]: only a point can be subscripted. *)
Definition coordinates (v : kpval) : rebuilt (num * num) :=
  match v with
  | KvPoint x y => Rebuilt (x, y)
  | _ => WrongKind
  end.

(** A float argument of [cv2.KeyPoint]: a float, or an integer converted. *)
Definition float_argument (v : kpval) : rebuilt num :=
  match v with
  | KvFloat x => Rebuilt x
  | KvInt z => Rebuilt (of_Z z)
  | KvPoint _ _ => WrongKind
  end.

(** An integer argument of [cv2.KeyPoint]. *)
Definition int_argument (v : kpval) : rebuilt Z :=
  match v with
  | KvInt z => Rebuilt z
  | _ => WrongKind
  end.

(** One turn of the loop: the seven argument expressions are evaluated in
    order, then [cv2.KeyPoint] checks what it was given. *)
Definition deserialize_keypoint (kp_dict : pydict kpval) : rebuilt KeyPoint :=
  and_then (field "pt" kp_dict) (fun p =>
  and_then (coordinates p) (fun xy =>
  and_then (field "size" kp_dict) (fun s =>
  and_then (field "angle" kp_dict) (fun a =>
  and_then (field "response" kp_dict) (fun r =>
  and_then (field "octave" kp_dict) (fun o =>
  and_then (field "class_id" kp_dict) (fun c =>
  and_then (float_argument s) (fun size_ =>
  and_then (float_argument a) (fun angle_ =>
  and_then (float_argument r) (fun response_ =>
  and_then (int_argument o) (fun octave_ =>
  and_then (int_argument c) (fun class_id_ =>
  Rebuilt {| pt := xy; size := size_; angle := angle_;
             response := response_; octave := octave_;
             class_id := class_id_ |})))))))))))).

Fixpoint deserialize_keypoints (serialized_keypoints : list (pydict kpval))
  : rebuilt (list KeyPoint) :=
  match serialized_keypoints with
  | [] => Rebuilt []
  | kp_dict :: rest =>
      and_then (deserialize_keypoint kp_dict) (fun kp =>
      and_then (deserialize_keypoints rest) (fun keypoints =>
      Rebuilt (kp :: keypoints)))
  end.

(** The six keys of a serialized keypoint. *)
Definition keypoint_keys : list string :=
  [ "pt"; "size"; "angle"; "response"; "octave"; "class_id" ]%string.

End Serialization.

Arguments kpval {A}.
Arguments Rebuilt {T} v.
Arguments MissingKey {T} key%_string.
Arguments WrongKind {T}.

(** ** Corpus builder: [compute_clip_embeddings.py] *)
Section CorpusBuilder.
Context {A : Arith}.

(** Lines 58-67: opening the image at a path below the image directory and
    encoding it with CLIP, normalized; may raise. *)
Variable encode : string -> result tensor.

(** [os.path.splitext(os.path.basename(rel_path))[0]]. *)
Variable stem : string -> string.

Definition features_dict (image_features : tensor) : pydict tensor :=
  [ ("clip_features"%string, image_features) ].

(** The metadata of the image just appended to [features_list]. *)
Definition mapping_entry (features_list : list (pydict tensor))
    (rel_path : string) : pydict pyval :=
  let material_number := stem rel_path in
  [ ("part_id"%string, PyInt (Z.of_nat (length features_list)));
    ("material_number"%string, PyStr material_number);
    ("description"%string, PyStr ("Part " ++ material_number));
    ("image_path"%string, PyStr ("images/" ++ rel_path));
    ("feature_index"%string,
      PyInt (Z.of_nat (length features_list) - 1)) ].

(** Lines 53-88: the loop over the image files, with the two lists it
    appends to; a file whose encoding raises is skipped. *)
Fixpoint process_images (image_files : list string)
    (features_list : list (pydict tensor)) (mapping : list (pydict pyval))
  : list (pydict tensor) * list (pydict pyval) :=
  match image_files with
  | [] => (features_list, mapping)
  | rel_path :: rest =>
      match encode rel_path with
      | Ok image_features =>
          let features_list :=
            features_list ++ [features_dict image_features] in
          let mapping := mapping ++ [mapping_entry features_list rel_path] in
          process_images rest features_list mapping
      | Raise _ => process_images rest features_list mapping
      end
  end.

(** What the builder saves with [np.save] and [json.dump], or [None] when
    it returns before saving: the model did not load, the image directory
    does not exist ([images_root] is [None]; otherwise it is the list of
    the relative paths of the files named [.png], [.jpg] or [.jpeg] that
    [os.walk] found), no image file was found, or none could be encoded. *)
Definition compute_clip_embeddings (from_pretrained : result unit)
    (images_root : option (list string))
  : option (list (pydict tensor) * list (pydict pyval)) :=
  match from_pretrained with
  | Raise _ => None
  | Ok _ =>
      match images_root with
      | None => None
      | Some [] => None
      | Some image_files =>
          let (features_list, mapping) := process_images image_files [] [] in
          match features_list with
          | [] => None
          | _ => Some (features_list, mapping)
          end
      end
  end.

(** The files that could be encoded, in order, with their embeddings. *)
Definition encoded (image_files : list string) : list (string * tensor) :=
  flat_map
    (fun rel_path =>
       match encode rel_path with
       | Ok image_features => [(rel_path, image_features)]
       | Raise _ => []
       end)
    image_files.
End CorpusBuilder.

(** ** The web API: [main.py] and [models.py] *)

(** A row of the table [spare_parts]. *)
Module SparePart.
Record t : Type := {
  id : Z;
  material_number : string;
  description : string;
  category : option string;
  manufacturer : option string;
  specifications : option string;
  image_path : option string;
  created_at : option string;
  updated_at : option string
}.
End SparePart.

Module SparePartResponse.
Record t : Type := {
  id : Z;
  material_number : string;
  description : string;
  category : option string;
  manufacturer : option string;
  specifications : option string;
  image_path : option string;
  created_at : string
}.
End SparePartResponse.

Module SearchResult.
Record t {A : Arith} : Type := {
  spare_part : SparePartResponse.t;
  confidence_score : num;
  match_reason : string
}.
End SearchResult.

Module ImageUploadResponse.
Record t {A : Arith} : Type := {
  message : string;
  search_results : list SearchResult.t
}.
End ImageUploadResponse.

(** What can go wrong inside the [try] of [upload_image]: the analysis
    raises, or pydantic rejects a row. *)
Inductive failure : Type :=
| Analysis (e : exn)
| ValidationError.

Inductive tried (T : Type) : Type :=
| Returned (v : T)
| Failed (e : failure).

Arguments Returned {T} v.
Arguments Failed {T} e.

Definition and_also {T U : Type} (c : tried T) (k : T -> tried U)
  : tried U :=
  match c with
  | Returned v => k v
  | Failed e => Failed e
  end.

(** An exception that no handler of the endpoint catches: one of the
    kinds above, or the [OSError] ([FileNotFoundError] and the like) of an
    [open] that failed. *)
Inductive escaped : Type :=
| Escaped (e : exn)
| OSError.

(** What a request ends in: a response body, an [HTTPException], or an
    exception that no handler of the endpoint catches. *)
Inductive outcome (T : Type) : Type :=
| Response (body : T)
| HTTPException (status_code : Z) (detail : string)
| Uncaught (e : escaped).

Arguments Response {T} body.
Arguments HTTPException {T} status_code detail%_string.
Arguments Uncaught {T} e.

(** [SparePartResponse.model_validate(spare_part)]: the attributes are
    copied; [created_at] is required. *)
Definition model_validate (spare_part : SparePart.t)
  : tried SparePartResponse.t :=
  match SparePart.created_at spare_part with
  | Some created_at =>
      Returned
        {| SparePartResponse.id := SparePart.id spare_part;
           SparePartResponse.material_number :=
             SparePart.material_number spare_part;
           SparePartResponse.description := SparePart.description spare_part;
           SparePartResponse.category := SparePart.category spare_part;
           SparePartResponse.manufacturer :=
             SparePart.manufacturer spare_part;
           SparePartResponse.specifications :=
             SparePart.specifications spare_part;
           SparePartResponse.image_path := SparePart.image_path spare_part;
           SparePartResponse.created_at := created_at |}
  | None => Failed ValidationError
  end.

(** The body of the health report. *)
Record Health : Type := {
  status : string;
  ai_model_available : bool;
  ai_provider : string;
  timestamp : string
}.

Section Endpoints.
Context {A : Arith}.

Variable get_clip_features_from_bytes : image_bytes -> option tensor.
Variable format_3f : num -> string.

(** The flag of the same name in [ai_service.py]. *)
Variable CLIP_AVAILABLE : bool.

(** The database session, which the endpoints below only read:
    [db.query(SparePart).all()], and
    [db.query(SparePart).filter(SparePart.material_number == v).first()]. *)
Variable query_all : list SparePart.t.
Variable query_first : pyval -> option SparePart.t.

(** Lines 121-131: the rows as dicts of six columns each. *)
Variable spare_parts_data_of : list SparePart.t -> list (pydict pyval).

(** [str(e)]. *)
Variable str : failure -> string.

(** The file system: whether [open(file_path, "wb")] succeeds.  It does
    not when the directory of the path does not exist, as for a file name
    of the client that holds a slash. *)
Variable can_write : string -> bool.

(** The two globals of the module. *)
Record App : Type := {
  ai_service : option AIService;
  ai_available : bool
}.

(** Lines 46-58; [imported] is the import of [ai_service] followed by
    [AIService()]. *)
Definition startup (imported : result AIService) : App :=
  match imported with
  | Ok service => {| ai_service := Some service; ai_available := true |}
  | Raise _ => {| ai_service := None; ai_available := false |}
  end.

Definition health_check (app : App) (now : string) : App * Health :=
  let available :=
    match ai_service app with
    | Some service => is_model_available service
    | None => ai_available app
    end in
  let provider :=
    match ai_service app with
    | Some _ =>
        if available then
          if CLIP_AVAILABLE then "CLIP Semantic Matching"%string
          else "SIFT-based Image Similarity"%string
        else "Not configured"%string
    | None => "Not configured"%string
    end in
  ({| ai_service := ai_service app; ai_available := available |},
   {| status := "healthy";
      ai_model_available := available;
      ai_provider := provider;
      timestamp := now |}).

(** The truth value of a JSON scalar. *)
Definition truthy (v : pyval) : bool :=
  match v with
  | PyInt z => negb (z =? 0)%Z
  | PyFloat x => negb (leb x (of_Z 0) && leb (of_Z 0) x)
  | PyStr s => negb (s =? "")%string
  end.

(** The three keys that [upload_image] reads from a match:
    [material_number], [confidence_score] and [match_reason]. *)
Definition ai_match : Type := (pyval * num * string)%type.

Definition read_match (m : Match) : ai_match :=
  (material_number m, confidence_score m, match_reason m).

(** Lines 138-144, from position [i] on; [part['material_number']] is the
    column of the row. *)
Fixpoint fallback_matches (i : nat) (spare_parts : list SparePart.t)
  : list ai_match :=
  match spare_parts with
  | [] => []
  | part :: rest =>
      (PyStr (SparePart.material_number part),
       sub (decimal 3 1) (mul (of_nat i) (decimal 1 1)),
       "AI service not available - please verify manually"%string)
      :: fallback_matches (S i) rest
  end.

(** Lines 147-162. *)
Fixpoint convert (ai_matches : list ai_match)
  : tried (list SearchResult.t) :=
  match ai_matches with
  | [] => Returned []
  | (material_number, confidence_score, match_reason) :: rest =>
      if truthy material_number then
        match query_first material_number with
        | Some spare_part =>
            and_also (model_validate spare_part) (fun response =>
            and_also (convert rest) (fun search_results =>
            Returned
              ({| SearchResult.spare_part := response;
                  SearchResult.confidence_score := confidence_score;
                  SearchResult.match_reason := match_reason |}
               :: search_results)))
        | None => convert rest
        end
      else convert rest
  end.

(** Lines 119-165: the body of the [try], after the image was read. *)
Definition find_matches (app : App) (image_data : image_bytes)
  : tried (list SearchResult.t) :=
  let spare_parts := query_all in
  let spare_parts_data := spare_parts_data_of spare_parts in
  and_also
    (match ai_service app, ai_available app with
     | Some service, true =>
         match analyze_image get_clip_features_from_bytes format_3f
                 service image_data spare_parts_data with
         | Ok ai_matches => Returned (map read_match ai_matches)
         | Raise e => Failed (Analysis e)
         end
     | _, _ => Returned (fallback_matches 0 (firstn 3 spare_parts))
     end)
    (fun ai_matches =>
  and_also (convert ai_matches) (fun search_results =>
  Returned (sort_reverse SearchResult.confidence_score search_results))).

(** [os.remove(file_path)]. *)
Definition remove (file_path : string) (uploads : pydict image_bytes)
  : pydict image_bytes :=
  filter (fun file => negb (fst file =? file_path)%string) uploads.

(** The path below the upload directory that a request is stored at. *)
Definition upload_path (now filename : string) : string :=
  ("uploads/" ++ now ++ "_" ++ filename)%string.

(** The endpoint, on the upload directory [uploads] (path to content):
    the outcome and the directory afterwards.  [now] is the time of the
    request, formatted.  The file is opened for writing before the [try],
    so a failure there leaves the endpoint uncaught; what is read back
    from a file that was written is what was written to it. *)
Definition upload_image (app : App) (uploads : pydict image_bytes)
    (content_type : option string) (filename : string)
    (content : image_bytes) (now : string)
  : outcome ImageUploadResponse.t * pydict image_bytes :=
  match content_type with
  | None => (Uncaught (Escaped AttributeError), uploads)
  | Some content_type =>
      if negb (String.prefix "image/" content_type) then
        (HTTPException 400%Z "File must be an image", uploads)
      else
        let file_path := upload_path now filename in
        if negb (can_write file_path) then (Uncaught OSError, uploads)
        else
          let uploads := (file_path, content) :: uploads in
          let image_data := content in
          match find_matches app image_data with
          | Returned search_results =>
              (Response
                 {| ImageUploadResponse.message :=
                      ("Image uploaded successfully. Found " ++
                       NilEmpty.string_of_uint
                         (Nat.to_uint (length search_results)) ++
                       " potential matches.")%string;
                    ImageUploadResponse.search_results := search_results |},
               uploads)
          | Failed e =>
              (HTTPException 500%Z ("Error processing image: " ++ str e),
               remove file_path uploads)
          end
  end.
End Endpoints.

Arguments App {A}.

(** ** Sample inputs

    Concrete corpora, queries and matcher outcomes, in binary64, on which
    the functions above are evaluated below. *)
Module Samples.
Import Binary64.

Definition fl (z : Z) : float := float_of_Z z.

Definition part (material : string) : pydict (@pyval F64) :=
  [ ("part_id"%string, PyInt 1);
    ("material_number"%string, PyStr material);
    ("description"%string, PyStr ("Part " ++ material));
    ("feature_index"%string, PyInt 0) ].

Definition entry (features : @tensor F64) : pydict (@tensor F64) :=
  [ ("clip_features"%string, features) ].

(** An encoder that returns the same embedding for every image. *)
Definition encoder (q : option (@tensor F64))
  : image_bytes -> option (@tensor F64) := fun _ => q.

Definition service (features : list (@tensor F64)) (names : list string)
  : @AIService F64 :=
  {| stored_features := Some (map entry features);
     mapping := Some (map part names) |}.

Definition unit_x : @tensor F64 := [fl 1; fl 0].
Definition narrow : @tensor F64 := [fl 1].
Definition wide : @tensor F64 := [fl 1; fl 0; fl 0].

(** Two stored embeddings, the second of a width (3) that does not
    broadcast with the width of the query (2). *)
Definition corpus_bad_width : @AIService F64 :=
  service [ unit_x; wide ] [ "SP001"; "SP002" ]%string.

(** Two stored embeddings, the second of width 1, which broadcasts. *)
Definition corpus_width_1 : @AIService F64 :=
  service [ unit_x; narrow ] [ "SP001"; "SP002" ]%string.

(** Three stored embeddings of width 2. *)
Definition corpus3 : @AIService F64 :=
  service [ [fl 0; fl 1]; [fl 1; fl 0]; [fl 3; fl 1] ]
          [ "SP001"; "SP002"; "SP003" ]%string.

(** What the orchestrator reports for the query [[1, 0]] on [corpus3]. *)
Definition match_SP002 : @Match F64 :=
  {| material_number := PyStr "SP002";
     confidence_score := 1%float;
     match_reason := "CLIP semantic matching: 1.000";
     details :=
       [ ("cosine_similarity"%string, PyFloat 1%float);
         ("normalized_similarity"%string, PyFloat 1%float);
         ("feature_dimensions"%string, PyInt 2) ] |}.

Definition row34 : @tensor F64 := [fl 3; fl 4].
Definition minus_x : @tensor F64 := [fl (-1); fl 0].

Definition keypoint (r : float) : @KeyPoint F64 :=
  {| pt := (fl 0, fl 0); size := fl 1; angle := fl 0; response := r;
     octave := 0%Z; class_id := (-1)%Z |}.

(** A correspondence whose best distance is half the second best: it
    passes both ratio tests. *)
Definition good_pair : list (@DMatch F64) :=
  [ {| queryIdx := 0%Z; trainIdx := 0%Z; distance := fl 1 |};
    {| queryIdx := 0%Z; trainIdx := 1%Z; distance := fl 2 |} ].

(** A matcher that returns [good] accepted correspondences. *)
Definition matcher (good : nat)
  : @descriptors F64 -> @descriptors F64 -> nat ->
    result (list (list (@DMatch F64))) :=
  fun _ _ _ => Ok (repeat good_pair good).

(** A matcher whose call fails. *)
Definition matcher_raises
  : @descriptors F64 -> @descriptors F64 -> nat ->
    result (list (list (@DMatch F64))) :=
  fun _ _ _ => Raise CvError.

Definition keypoints (n : nat) : list (@KeyPoint F64) :=
  repeat (keypoint (fl 1)) n.

(** One descriptor row per keypoint. *)
Definition rows (n : nat) : @descriptors F64 := repeat [fl 0] n.

(** A toy camera.  The decoded image is the list of the responses of the
    keypoints that the detector will find in it; no bytes, no image. *)
Definition decode (bytes : image_bytes) : result (option (list Z)) :=
  match bytes with
  | [] => Ok None
  | _ => Ok (Some (map (fun b => Z.of_N (Byte.to_N b)) bytes))
  end.

Definition prepare (img : list Z) : result (list Z) := Ok img.

Definition detect (img : list Z)
  : result (list (@KeyPoint F64) * option (@descriptors F64)) :=
  Ok (map (fun z => keypoint (fl z)) img,
      match img with
      | [] => None
      | _ => Some (map (fun z => [fl z]) img)
      end).

Definition describe (img : list Z) (kps : list (@KeyPoint F64))
  : result (list (@KeyPoint F64) * option (@descriptors F64)) :=
  Ok (kps, Some (map (fun kp => [response kp]) kps)).
End Samples.

(** The same, in exact arithmetic. *)
Module SamplesR.
Import Exact.

Definition keypoint (r : R) : @KeyPoint RArith :=
  {| pt := (0%R, 0%R); size := 1%R; angle := 0%R; response := r;
     octave := 0%Z; class_id := (-1)%Z |}.

Definition keypoints (n : nat) : list (@KeyPoint RArith) :=
  repeat (keypoint 1%R) n.

Definition good_pair : list (@DMatch RArith) :=
  [ {| queryIdx := 0%Z; trainIdx := 0%Z; distance := 1%R |};
    {| queryIdx := 0%Z; trainIdx := 1%Z; distance := 2%R |} ].

Definition matcher (good : nat)
  : @descriptors RArith -> @descriptors RArith -> nat ->
    result (list (list (@DMatch RArith))) :=
  fun _ _ _ => Ok (repeat good_pair good).

Definition matcher_raises
  : @descriptors RArith -> @descriptors RArith -> nat ->
    result (list (list (@DMatch RArith))) :=
  fun _ _ _ => Raise CvError.

Definition rows (n : nat) : @descriptors RArith := repeat [0%R] n.

Definition unit_x : @tensor RArith := [1%R; 0%R].

(** A toy camera.  The decoded image is the number of keypoints that the
    detector will find in it, all of response 1; no bytes, no image. *)
Definition decode (bytes : image_bytes) : result (option nat) :=
  match bytes with
  | [] => Ok None
  | _ => Ok (Some (length bytes))
  end.

Definition prepare (img : nat) : result nat := Ok img.

Definition detect (img : nat)
  : result (list (@KeyPoint RArith) * option (@descriptors RArith)) :=
  Ok (keypoints img,
      match img with
      | O => None
      | _ => Some (rows img)
      end).

Definition describe (img : nat) (kps : list (@KeyPoint RArith))
  : result (list (@KeyPoint RArith) * option (@descriptors RArith)) :=
  Ok (kps, Some (rows (length kps))).
End SamplesR.

(** Further sample inputs: serialized keypoints, corpora that cannot be
    read, an image directory for the builder, and a table of spare parts
    for the web API. *)
Module Cases.
Import Binary64.

(** A serialized keypoint with its keys in another order and one key
    more than the six. *)
Definition kp_dict : pydict (@kpval F64) :=
  [ ("label"%string, KvInt 7);
    ("class_id"%string, KvInt (-1));
    ("octave"%string, KvInt 0);
    ("response"%string, KvFloat (Samples.fl 1));
    ("angle"%string, KvFloat (Samples.fl 0));
    ("size"%string, KvFloat (Samples.fl 3));
    ("pt"%string, KvPoint (Samples.fl 1) (Samples.fl 2)) ].

Definition kp : @KeyPoint F64 :=
  {| pt := (Samples.fl 1, Samples.fl 2); size := Samples.fl 3;
     angle := Samples.fl 0; response := Samples.fl 1;
     octave := 0%Z; class_id := (-1)%Z |}.

Definition kp_dict_without_size : pydict (@kpval F64) :=
  [ ("pt"%string, KvPoint (Samples.fl 1) (Samples.fl 2));
    ("angle"%string, KvFloat (Samples.fl 0));
    ("response"%string, KvFloat (Samples.fl 1));
    ("octave"%string, KvInt 0);
    ("class_id"%string, KvInt (-1)) ].

(** An archive whose entry holds descriptors and no CLIP embedding. *)
Definition corpus_of_descriptors : @AIService F64 :=
  {| stored_features := Some [ [ ("descriptors"%string, Samples.unit_x) ] ];
     mapping := Some [ Samples.part "SP001" ] |}.

(** Two stored embeddings and metadata for one. *)
Definition corpus_short_mapping : @AIService F64 :=
  Samples.service [ Samples.unit_x; Samples.unit_x ] [ "SP001"%string ].

(** [os.path.basename] and the root of [os.path.splitext], for POSIX
    paths. *)
Fixpoint basename_from (current path : string) : string :=
  match path with
  | EmptyString => current
  | String c rest =>
      if (c =? "/")%char then basename_from EmptyString rest
      else basename_from (current ++ String c EmptyString) rest
  end.

Fixpoint before_last_dot (name : string) : option string :=
  match name with
  | EmptyString => None
  | String c rest =>
      match before_last_dot rest with
      | Some root => Some (String c root)
      | None => if (c =? ".")%char then Some EmptyString else None
      end
  end.

Fixpoint only_dots (name : string) : bool :=
  match name with
  | EmptyString => true
  | String c rest => (c =? ".")%char && only_dots rest
  end.

Definition stem (rel_path : string) : string :=
  let name := basename_from EmptyString rel_path in
  match before_last_dot name with
  | Some root => if only_dots root then name else root
  | None => name
  end.

(** An image directory with three files, the second of which cannot be
    opened as an image. *)
Definition image_files : list string :=
  [ "1/SP001.jpg"; "notes/broken.png"; "2/SP002.jpg" ]%string.

Definition encode (rel_path : string) : result (@tensor F64) :=
  if (rel_path =? "1/SP001.jpg")%string then Ok [Samples.fl 0; Samples.fl 1]
  else if (rel_path =? "2/SP002.jpg")%string
       then Ok [Samples.fl 1; Samples.fl 0]
       else Raise RuntimeError.

(** The table of spare parts. *)
Definition row (n : Z) (material : string) : SparePart.t :=
  {| SparePart.id := n;
     SparePart.material_number := material;
     SparePart.description := ("Part " ++ material)%string;
     SparePart.category := Some "Bearings"%string;
     SparePart.manufacturer := Some "SKF"%string;
     SparePart.specifications := Some "6205-2RS"%string;
     SparePart.image_path := Some ("images/" ++ material ++ ".jpg")%string;
     SparePart.created_at := Some "2025-01-01T00:00:00"%string;
     SparePart.updated_at := None |}.

Definition table : list SparePart.t :=
  [ row 1 "SP001"; row 2 "SP002"; row 3 "SP003"; row 4 "SP004" ].

Definition first_by_material_number {A : Arith} (v : @pyval A)
  : option SparePart.t :=
  match v with
  | PyStr s =>
      find (fun part => (SparePart.material_number part =? s)%string) table
  | _ => None
  end.

(** The six columns of a row as a dict; the rows of [table] have no
    empty column. *)
Definition as_dict {A : Arith} (part : SparePart.t) : pydict (@pyval A) :=
  let text (v : option string) :=
    match v with
    | Some s => PyStr s
    | None => PyStr ""
    end in
  [ ("material_number"%string, PyStr (SparePart.material_number part));
    ("description"%string, PyStr (SparePart.description part));
    ("category"%string, text (SparePart.category part));
    ("manufacturer"%string, text (SparePart.manufacturer part));
    ("specifications"%string, text (SparePart.specifications part));
    ("image_path"%string, text (SparePart.image_path part)) ].

(** An upload directory without subdirectories: a path can be written
    when it holds no slash after the one of [uploads/]. *)
Fixpoint slashes (path : string) : nat :=
  match path with
  | EmptyString => 0
  | String c rest => (if (c =? "/")%char then 1 else 0) + slashes rest
  end.

Definition can_write (path : string) : bool := slashes path <=? 1.

Definition str (e : failure) : string :=
  match e with
  | Analysis (KeyError key) => ("'" ++ key ++ "'")%string
  | Analysis IndexError => "list index out of range"%string
  | Analysis _ => "error"%string
  | ValidationError => "1 validation error for SparePartResponse"%string
  end.

(** What the builder saves for [image_files]. *)
Definition saved_features : list (pydict (@tensor F64)) :=
  [ [ ("clip_features"%string, [Samples.fl 0; Samples.fl 1]) ];
    [ ("clip_features"%string, [Samples.fl 1; Samples.fl 0]) ] ].

Definition saved_mapping : list (pydict (@pyval F64)) :=
  [ [ ("part_id"%string, PyInt 1);
      ("material_number"%string, PyStr "SP001");
      ("description"%string, PyStr "Part SP001");
      ("image_path"%string, PyStr "images/1/SP001.jpg");
      ("feature_index"%string, PyInt 0) ];
    [ ("part_id"%string, PyInt 2);
      ("material_number"%string, PyStr "SP002");
      ("description"%string, PyStr "Part SP002");
      ("image_path"%string, PyStr "images/2/SP002.jpg");
      ("feature_index"%string, PyInt 1) ] ].

(** A request, and the application as it starts around a service. *)
Definition jpeg : option string := Some "image/jpeg"%string.
Definition now : string := "20250101_120000".
Definition stored_at : string := "uploads/20250101_120000_part.jpg".

Definition app (service : @AIService F64) : @App F64 :=
  startup (Ok service).

(** A service whose archive could not be loaded, and the application
    when the import of the service failed. *)
Definition unloaded : @AIService F64 :=
  _load_features (Raise RuntimeError) (Ok []).

Definition without_service : @App F64 := startup (Raise RuntimeError).

(** The search result for the row of [SP002] at full confidence. *)
Definition result_SP002 : @SearchResult.t F64 :=
  {| SearchResult.spare_part :=
       {| SparePartResponse.id := 2;
          SparePartResponse.material_number := "SP002";
          SparePartResponse.description := "Part SP002";
          SparePartResponse.category := Some "Bearings"%string;
          SparePartResponse.manufacturer := Some "SKF"%string;
          SparePartResponse.specifications := Some "6205-2RS"%string;
          SparePartResponse.image_path := Some "images/SP002.jpg"%string;
          SparePartResponse.created_at := "2025-01-01T00:00:00" |};
     SearchResult.confidence_score := 1%float;
     SearchResult.match_reason := "CLIP semantic matching: 1.000" |}.

Definition response_SP002 : @ImageUploadResponse.t F64 :=
  {| ImageUploadResponse.message :=
       "Image uploaded successfully. Found 1 potential matches.";
     ImageUploadResponse.search_results := [ result_SP002 ] |}.
End Cases.

(** Two stored images with the same embedding, in exact arithmetic. *)
Module CasesR.
Import Exact.

Definition part (material : string) : pydict (@pyval RArith) :=
  [ ("part_id"%string, PyInt 1);
    ("material_number"%string, PyStr material) ].

Definition entry (features : @tensor RArith) : pydict (@tensor RArith) :=
  [ ("clip_features"%string, features) ].

Definition twins : @AIService RArith :=
  {| stored_features :=
       Some [ entry SamplesR.unit_x; entry SamplesR.unit_x ];
     mapping := Some [ part "SP001"; part "SP002" ] |}.

(** The format [:.3f] at the one score of these runs, 1. *)
Definition format_3f (x : R) : string := "1.000".

Definition match_SP001 : @Match RArith :=
  {| material_number := PyStr "SP001";
     confidence_score := 1%R;
     match_reason := "CLIP semantic matching: 1.000";
     details :=
       [ ("cosine_similarity"%string, PyFloat 1%R);
         ("normalized_similarity"%string, PyFloat 1%R);
         ("feature_dimensions"%string, PyInt 2) ] |}.
End CasesR.

(** * Properties *)

Unset Implicit Arguments.

(** ** The keypoint extractor: failures *)
Section ExtractorFailures.
Context {A : Arith}.
Variable image : Type.
Variable imdecode : image_bytes -> result (option image).
Variable preprocess : image -> result image.
Variable detectAndCompute :
  image -> result (list KeyPoint * option descriptors).
Variable compute :
  image -> list KeyPoint -> result (list KeyPoint * option descriptors).

Local Abbreviation extractor :=
  (get_image_features_from_bytes imdecode preprocess detectAndCompute compute).

Lemma extractor_undecodable bytes :
  imdecode bytes = Ok None -> extractor bytes = (None, None).
Proof.
  intros H. unfold extractor, get_image_features_from_bytes, extract.
  rewrite H. reflexivity.
Qed.

Lemma extractor_insufficient bytes img gray keypoints descs :
  imdecode bytes = Ok (Some img) ->
  preprocess img = Ok gray ->
  detectAndCompute gray = Ok (keypoints, descs) ->
  descs = None \/ length keypoints < 10 ->
  extractor bytes = (None, None).
Proof.
  intros Hd Hp Hk Hfew.
  unfold extractor, get_image_features_from_bytes, extract.
  rewrite Hd. cbn [bind]. rewrite Hp. cbn [bind]. rewrite Hk. cbn [bind].
  destruct descs as [d|]; [|reflexivity].
  destruct Hfew as [Hnone|Hlt]; [discriminate|].
  apply Nat.ltb_lt in Hlt. rewrite Hlt. reflexivity.
Qed.

Lemma extractor_raise bytes e :
  extract imdecode preprocess detectAndCompute compute bytes = Raise e ->
  extractor bytes = (None, None).
Proof.
  intros H. unfold extractor, get_image_features_from_bytes.
  rewrite H. reflexivity.
Qed.

(** C9. Bytes that do not decode and an image that decodes but yields
    fewer than 10 keypoints (or no descriptors) give the same value,
    [(None, None)]: the result does not tell the two failures apart. *)
Theorem C9_decode_failure_and_few_features_look_alike
    bytes1 bytes2 img gray keypoints descs :
  imdecode bytes1 = Ok None ->
  imdecode bytes2 = Ok (Some img) ->
  preprocess img = Ok gray ->
  detectAndCompute gray = Ok (keypoints, descs) ->
  descs = None \/ length keypoints < 10 ->
  extractor bytes1 = (None, None) /\
  extractor bytes2 = (None, None) /\
  extractor bytes1 = extractor bytes2.
Proof.
  intros H1 H2 Hp Hk Hfew.
  pose proof (extractor_undecodable bytes1 H1) as E1.
  pose proof (extractor_insufficient bytes2 img gray keypoints descs
                H2 Hp Hk Hfew) as E2.
  repeat split; congruence.
Qed.
End ExtractorFailures.

(** ** The orchestrator: unavailable corpus, failed extraction, fallback *)
Section OrchestratorFailures.
Context {A : Arith}.
Variable get_clip_features_from_bytes : image_bytes -> option tensor.
Variable format_3f : num -> string.

Local Abbreviation analyze :=
  (analyze_image get_clip_features_from_bytes format_3f).

Lemma load_failure_leaves_nothing np_load json_load :
  (exists e, np_load = Raise e) \/ (exists e, json_load = Raise e) ->
  _load_features np_load json_load =
    {| stored_features := None; mapping := None |}.
Proof.
  intros [[e ->]|[e ->]]; unfold _load_features; cbn.
  - reflexivity.
  - destruct np_load; reflexivity.
Qed.

Lemma analyze_unavailable self image_data spare_parts_data :
  stored_features self = None \/ mapping self = None ->
  analyze self image_data spare_parts_data = Ok [].
Proof.
  intros H. unfold analyze, analyze_image, _fallback_analysis.
  destruct H as [-> | ->]; [reflexivity|].
  destruct (stored_features self); reflexivity.
Qed.

Lemma analyze_no_embedding self image_data spare_parts_data :
  get_clip_features_from_bytes image_data = None ->
  analyze self image_data spare_parts_data = Ok [].
Proof.
  intros H. unfold analyze, analyze_image, _fallback_analysis.
  rewrite H.
  destruct (stored_features self), (mapping self); reflexivity.
Qed.

(** C3. When the corpus store is not loaded (either field is [None],
    which is what a failed load leaves), or the CLIP extraction of the
    query returns [None], [analyze_image] returns the empty list, for
    every image and every [spare_parts_data]; it does not raise. *)
Theorem C3_unavailable_or_no_embedding_gives_empty
    self image_data spare_parts_data :
  (stored_features self = None \/ mapping self = None \/
   get_clip_features_from_bytes image_data = None) ->
  analyze self image_data spare_parts_data = Ok [] /\
  (forall np_load json_load,
      (exists e, np_load = Raise e) \/ (exists e, json_load = Raise e) ->
      is_model_available (_load_features np_load json_load) = false /\
      analyze (_load_features np_load json_load)
              image_data spare_parts_data = Ok []).
Proof.
  intros H. split.
  - destruct H as [H|[H|H]].
    + apply analyze_unavailable; auto.
    + apply analyze_unavailable; auto.
    + apply analyze_no_embedding; auto.
  - intros np_load json_load Hl.
    rewrite (load_failure_leaves_nothing np_load json_load Hl). split; [reflexivity|].
    apply analyze_unavailable. left. reflexivity.
Qed.

(** C10. The result of [analyze_image] does not depend on
    [spare_parts_data]: two calls that differ only in that argument
    return the same outcome. *)
Theorem C10_result_independent_of_spare_parts
    self image_data spare_parts_data1 spare_parts_data2 :
  analyze_image get_clip_features_from_bytes format_3f
    self image_data spare_parts_data1 =
  analyze_image get_clip_features_from_bytes format_3f
    self image_data spare_parts_data2.
Proof.
  unfold analyze_image, _fallback_analysis.
  destruct (stored_features self), (mapping self); try reflexivity.
Qed.
End OrchestratorFailures.

(** ** Stepping through the exception monad *)

(** Case analysis on the first computation of a sequence. *)
Ltac case_bind :=
  match goal with
  | |- context [bind ?c _] =>
      let E := fresh "E" in destruct c eqn:E; cbn [bind]
  end.

Lemma getitem_Ok {V : Type} (key : string) (d : pydict V) (v : V) :
  getitem key d = Ok v -> lookup key d = Some v.
Proof.
  unfold getitem. destruct (lookup key d); intros H; now inversion H.
Qed.

Lemma lookup_getitem {V : Type} (key : string) (d : pydict V) (v : V) :
  lookup key d = Some v -> getitem key d = Ok v.
Proof. unfold getitem. now intros ->. Qed.

Lemma index_Ok {T : Type} (l : list T) (i : nat) (x : T) :
  index l i = Ok x -> nth_error l i = Some x.
Proof.
  unfold index. destruct (nth_error l i); intros H; now inversion H.
Qed.

(** Rows of equal width are compared as they are. *)
Lemma cosine_similarity_same_width {A : Arith} (x y : tensor) :
  length x = length y ->
  cosine_similarity x y =
  Ok (div (dot x y)
          (mul (fmax (norm x) (decimal 1 8)) (fmax (norm y) (decimal 1 8)))).
Proof.
  intros H. unfold cosine_similarity, broadcast_tensors.
  apply Nat.eqb_eq in H. now rewrite H.
Qed.

(** ** The orchestrator: a comparison that fails *)
Section ScanFailure.
Context {A : Arith}.
Variable get_clip_features_from_bytes : image_bytes -> option tensor.
Variable format_3f : num -> string.

(** Rows that cannot be broadcast: the widths differ and neither is 1. *)
Lemma broadcast_tensors_raises (q s : tensor) :
  length q <> length s -> length q <> 1 -> length s <> 1 ->
  broadcast_tensors q s = Raise RuntimeError.
Proof.
  intros H Hq Hs. unfold broadcast_tensors.
  apply Nat.eqb_neq in H. rewrite H.
  destruct q as [|a [|a' q']], s as [|b [|b' s']]; cbn in *;
    try reflexivity; contradiction.
Qed.

(** For such rows the comparator catches the error and answers with score
    0 and no details. *)
Lemma comparator_catches_width_mismatch (q s : tensor) :
  length q <> length s -> length q <> 1 -> length s <> 1 ->
  compute_clip_similarity_detailed (Some q) (Some s) = (of_Z 0, []).
Proof.
  intros H Hq Hs. unfold compute_clip_similarity_detailed, cosine_similarity.
  now rewrite (broadcast_tensors_raises q s H Hq Hs).
Qed.

(** The loop reads [details['cosine_similarity']] of every entry, so an
    entry whose comparison failed ends the loop with an exception. *)
Lemma scan_raises_on_failed_comparison mapping (q : tensor) stored :
  forall i (sf : pydict tensor) (s : tensor),
    In sf stored ->
    lookup "clip_features" sf = Some s ->
    compute_clip_similarity_detailed (Some q) (Some s) = (of_Z 0, []) ->
    exists e, scan mapping q i stored = Raise e.
Proof.
  induction stored as [|hd rest IH]; intros i sf s Hin Hl Hfail.
  - destruct Hin.
  - cbn [scan].
    case_bind; [|eexists; reflexivity].
    case_bind; [|eexists; reflexivity].
    case_bind; [|eexists; reflexivity].
    destruct Hin as [->|Hin].
    + apply getitem_Ok in E. rewrite Hl in E. inversion E; subst.
      rewrite Hfail. eexists; reflexivity.
    + destruct (compute_clip_similarity_detailed (Some q) (Some a))
        as [sim det].
      case_bind; [|eexists; reflexivity].
      destruct (IH (S i) sf s Hin Hl Hfail) as [e ->].
      eexists; reflexivity.
Qed.

Lemma analyze_raises_on_failed_comparison
    self image_data spare_parts_data features mp
    (q : tensor) (sf : pydict tensor) (s : tensor) :
  stored_features self = Some features ->
  mapping self = Some mp ->
  get_clip_features_from_bytes image_data = Some q ->
  In sf features ->
  lookup "clip_features" sf = Some s ->
  length q <> length s -> length q <> 1 -> length s <> 1 ->
  exists e,
    analyze_image get_clip_features_from_bytes format_3f
      self image_data spare_parts_data = Raise e.
Proof.
  intros Hf Hm Hq Hin Hl Hne Hq1 Hs1. unfold analyze_image.
  rewrite Hf, Hm, Hq.
  destruct (scan_raises_on_failed_comparison mp q features 0%nat sf s
              Hin Hl (comparator_catches_width_mismatch q s Hne Hq1 Hs1))
    as [e ->].
  eexists; reflexivity.
Qed.
End ScanFailure.

(** C4, evaluated.  The query has width 2 and the second stored
    embedding width 3, which cannot be broadcast: the comparison fails and
    is scored 0 by the comparator, and the scan then raises [KeyError]
    instead of going on to the end. *)
Theorem C4_failed_comparison_aborts_the_match :
  compute_clip_similarity_detailed
    (Some Samples.unit_x) (Some Samples.wide) = (Samples.fl 0, []) /\
  analyze_image (Samples.encoder (Some Samples.unit_x)) Binary64.format_3f
    Samples.corpus_bad_width [] [] = Raise (KeyError "cosine_similarity").
Proof. split; reflexivity. Qed.

(** A stored embedding of width 1 is broadcast, not refused: its
    comparison succeeds and the scan goes on to the end. *)
Example analyze_image_broadcasts_width_1 :
  snd (compute_clip_similarity_detailed
         (Some Samples.unit_x) (Some Samples.narrow)) <> [] /\
  exists l,
    analyze_image (Samples.encoder (Some Samples.unit_x)) Binary64.format_3f
      Samples.corpus_width_1 [] [] = Ok l.
Proof. split; [discriminate|eexists; reflexivity]. Qed.

(** ** The local similarity scorer *)

(** What the two scorers compute once the matcher has answered. *)
Section ScorerValue.
Context {A : Arith}.
Variable knnMatch :
  descriptors -> descriptors -> nat -> result (list (list DMatch)).

Lemma compute_image_similarity_value
    (qk sk : list KeyPoint) (qd sd : descriptors) matches :
  knnMatch qd sd 2 = Ok matches ->
  0 < length qk -> 0 < length sk ->
  compute_image_similarity knnMatch qk (Some qd) sk (Some sd) =
  sigmoid_score
    (div (of_nat (length (ratio_test (decimal 8 1) matches)))
         (of_nat (Nat.min (length qk) (length sk)))).
Proof.
  intros Hm Hq Hs. unfold compute_image_similarity.
  rewrite Hm. cbn [bind].
  destruct (Nat.eqb_spec (Nat.min (length qk) (length sk)) 0) as [E|E];
    [lia|reflexivity].
Qed.

Lemma compute_image_similarity_detailed_value
    (qk sk : list KeyPoint) (qd sd : descriptors) matches :
  knnMatch qd sd 2 = Ok matches ->
  0 < length qk -> 0 < length sk ->
  fst (compute_image_similarity_detailed knnMatch qk (Some qd) sk (Some sd)) =
  sigmoid_score
    (add (mul (decimal 7 1)
              (div (of_nat (length (ratio_test (decimal 7 1) matches)))
                   (of_nat (Nat.min (length qk) (length sk)))))
         (mul (decimal 3 1)
              (div (of_nat (length (ratio_test (decimal 7 1) matches)))
                   (of_nat (Nat.max (length qk) (length sk)))))).
Proof.
  intros Hm Hq Hs. unfold compute_image_similarity_detailed.
  rewrite Hm. cbn [bind].
  destruct (Nat.eqb_spec (Nat.min (length qk) (length sk)) 0) as [E|E];
    [lia|].
  destruct (Nat.ltb_spec 0 (Nat.min (length qk) (length sk))) as [L|L];
    [reflexivity|lia].
Qed.

Lemma compute_image_similarity_raise
    (qk sk : list KeyPoint) (qd sd : descriptors) e :
  knnMatch qd sd 2 = Raise e ->
  compute_image_similarity knnMatch qk (Some qd) sk (Some sd) = of_Z 0.
Proof.
  intros Hm. unfold compute_image_similarity. rewrite Hm. reflexivity.
Qed.
End ScorerValue.

(** *** The sigmoid over the reals *)
Section SigmoidReals.
Import Exact.
Local Open Scope R_scope.

Lemma Rltb_true x y : x < y -> Rltb x y = true.
Proof. intros H. unfold Rltb. destruct (Rlt_dec x y); [reflexivity|easy]. Qed.

Lemma Rltb_false x y : ~ x < y -> Rltb x y = false.
Proof. intros H. unfold Rltb. destruct (Rlt_dec x y); [easy|reflexivity]. Qed.

Lemma Rleb_true x y : x <= y -> Rleb x y = true.
Proof. intros H. unfold Rleb. destruct (Rle_dec x y); [reflexivity|easy]. Qed.

Lemma Rleb_true_iff x y : Rleb x y = true <-> x <= y.
Proof.
  unfold Rleb. destruct (Rle_dec x y); split; intros; easy.
Qed.

Lemma decimal_R (m : Z) (d : nat) :
  decimal (A := RArith) m d = IZR m / IZR (10 ^ Z.of_nat d).
Proof. reflexivity. Qed.

Lemma sigmoid_score_R (x : R) :
  sigmoid_score (A := RArith) x = 1 / (1 + Rtrigo_def.exp (-8 * (x - 15 / 100))).
Proof. reflexivity. Qed.

Lemma spec_sigmoid_R (x : R) :
  spec_sigmoid (A := RArith) (of_Z 8) (decimal 15 2) x =
  sigmoid_score (A := RArith) x.
Proof.
  unfold spec_sigmoid, sigmoid_score. cbn.
  do 2 f_equal. f_equal. lra.
Qed.

Lemma sigmoid_score_bounds (x : R) :
  0 < sigmoid_score (A := RArith) x < 1.
Proof.
  rewrite sigmoid_score_R.
  pose proof (exp_pos (-8 * (x - 15 / 100))) as He.
  split.
  - apply Rdiv_lt_0_compat; lra.
  - apply Rmult_lt_reg_r with (1 + Rtrigo_def.exp (-8 * (x - 15 / 100))); [lra|].
    unfold Rdiv. rewrite Rmult_assoc, Rinv_l; lra.
Qed.

Lemma sigmoid_score_increasing (x y : R) :
  x < y -> sigmoid_score (A := RArith) x < sigmoid_score (A := RArith) y.
Proof.
  intros Hxy. rewrite !sigmoid_score_R.
  pose proof (exp_pos (-8 * (x - 15 / 100))) as Hx.
  pose proof (exp_pos (-8 * (y - 15 / 100))) as Hy.
  assert (Hexp : Rtrigo_def.exp (-8 * (y - 15 / 100)) < Rtrigo_def.exp (-8 * (x - 15 / 100)))
    by (apply exp_increasing; lra).
  unfold Rdiv. rewrite !Rmult_1_l.
  apply Rinv_lt_contravar; [|lra].
  apply Rmult_lt_0_compat; lra.
Qed.

Lemma sigmoid_score_injective (x y : R) :
  sigmoid_score (A := RArith) x = sigmoid_score (A := RArith) y -> x = y.
Proof.
  intros H.
  destruct (Rtotal_order x y) as [L|[E|G]]; [|exact E|].
  - apply sigmoid_score_increasing in L. lra.
  - apply sigmoid_score_increasing in G. lra.
Qed.

Lemma of_nat_R (n : nat) : of_nat (A := RArith) n = INR n.
Proof. unfold of_nat. cbn. symmetry. apply INR_IZR_INZ. Qed.
End SigmoidReals.

(** *** The scorers in exact arithmetic *)
Section ScorerReals.
Import Exact.
Local Open Scope R_scope.

Lemma of_nat_lt (m n : nat) :
  (m < n)%nat -> of_nat (A := RArith) m < of_nat (A := RArith) n.
Proof. intros H. rewrite !of_nat_R. now apply lt_INR. Qed.

Lemma of_nat_pos (n : nat) : (0 < n)%nat -> 0 < of_nat (A := RArith) n.
Proof. intros H. rewrite of_nat_R. now apply (lt_INR 0). Qed.

Lemma ratio_increasing (k m : nat) :
  (0 < m)%nat ->
  @div RArith (of_nat k) (of_nat m) < @div RArith (of_nat (S k)) (of_nat m).
Proof.
  intros Hm. cbn [div RArith]. unfold Rdiv.
  apply Rmult_lt_compat_r.
  - apply Rinv_0_lt_compat, of_nat_pos, Hm.
  - apply of_nat_lt. lia.
Qed.

Lemma SamplesR_ratio_test (m : Z) (n : nat) :
  2 * IZR m > IZR (10 ^ Z.of_nat 1) ->
  length (ratio_test (A := RArith) (decimal m 1)
            (repeat SamplesR.good_pair n)) = n.
Proof.
  intros Hm. induction n as [|n IH]; [reflexivity|].
  cbn [repeat ratio_test flat_map]. fold (ratio_test (A := RArith)).
  unfold SamplesR.good_pair at 1. cbn [distance ltb mul RArith].
  rewrite Rltb_true.
  - cbn [app length]. f_equal. exact IH.
  - rewrite decimal_R. change (10 ^ Z.of_nat 1)%Z with 10%Z in *.
    lra.
Qed.
End ScorerReals.

(** *** The claims about the scorer *)
Section ScorerClaims.
Import Exact.
Local Open Scope R_scope.

(** C2, as the code has it.  Once the matcher has answered for a pair with
    non-null descriptors and positive keypoint counts, the primary path
    ([compute_image_similarity], ratio 0.8) scores
    [sigmoid(8 * (good / smaller - 0.15))], with no blending; the blended
    form [sigmoid(8 * (0.7 * good / smaller + 0.3 * good / larger - 0.15))]
    is the score of [compute_image_similarity_detailed] (ratio 0.7). *)
Theorem C2_primary_path_unblended_detailed_path_blended
    (knnMatch : descriptors -> descriptors -> nat ->
                result (list (list (@DMatch RArith))))
    (qk sk : list (@KeyPoint RArith)) (qd sd : descriptors) matches :
  knnMatch qd sd 2%nat = Ok matches ->
  (0 < length qk)%nat -> (0 < length sk)%nat ->
  compute_image_similarity knnMatch qk (Some qd) sk (Some sd) =
    spec_sigmoid (of_Z 8) (decimal 15 2)
      (div (of_nat (length (ratio_test (decimal 8 1) matches)))
           (of_nat (Nat.min (length qk) (length sk)))) /\
  fst (compute_image_similarity_detailed knnMatch qk (Some qd) sk (Some sd)) =
    spec_sigmoid (of_Z 8) (decimal 15 2)
      (spec_blended (length (ratio_test (decimal 7 1) matches))
         (Nat.min (length qk) (length sk))
         (Nat.max (length qk) (length sk))).
Proof.
  intros Hm Hq Hs. split.
  - rewrite (compute_image_similarity_value knnMatch qk sk qd sd matches Hm Hq Hs).
    now rewrite spec_sigmoid_R.
  - rewrite (compute_image_similarity_detailed_value
               knnMatch qk sk qd sd matches Hm Hq Hs).
    now rewrite spec_sigmoid_R.
Qed.

(** C5, as the code has it.  For a pair with non-null descriptors and at
    least one keypoint on each side: when the matcher answers, the score,
    read in exact arithmetic, lies strictly between 0 and 1; when the
    matcher call raises, the score is 0. *)
Theorem C5_score_in_open_unit_interval_when_matcher_answers
    (knnMatch : descriptors -> descriptors -> nat ->
                result (list (list (@DMatch RArith))))
    (qk sk : list (@KeyPoint RArith)) (qd sd : descriptors) :
  (0 < length qk)%nat -> (0 < length sk)%nat ->
  (forall matches, knnMatch qd sd 2%nat = Ok matches ->
     0 < compute_image_similarity knnMatch qk (Some qd) sk (Some sd) < 1) /\
  (forall e, knnMatch qd sd 2%nat = Raise e ->
     compute_image_similarity knnMatch qk (Some qd) sk (Some sd) = 0).
Proof.
  intros Hq Hs. split.
  - intros matches Hm.
    rewrite (compute_image_similarity_value knnMatch qk sk qd sd matches Hm Hq Hs).
    apply sigmoid_score_bounds.
  - intros e Hm.
    now rewrite (compute_image_similarity_raise knnMatch qk sk qd sd e Hm).
Qed.

(** C6, as the code has it.  With the keypoint counts fixed and positive,
    one more accepted correspondence gives a strictly greater score, read
    in exact arithmetic, on the primary path and on the detailed one. *)
Theorem C6_score_strictly_increasing_in_good_matches
    (knnMatch knnMatch' : descriptors -> descriptors -> nat ->
                          result (list (list (@DMatch RArith))))
    (qk sk : list (@KeyPoint RArith)) (qd sd : descriptors) ms ms' :
  knnMatch qd sd 2%nat = Ok ms ->
  knnMatch' qd sd 2%nat = Ok ms' ->
  (0 < length qk)%nat -> (0 < length sk)%nat ->
  (length (ratio_test (decimal 8 1) ms') =
     S (length (ratio_test (decimal 8 1) ms)) ->
   compute_image_similarity knnMatch qk (Some qd) sk (Some sd) <
   compute_image_similarity knnMatch' qk (Some qd) sk (Some sd)) /\
  (length (ratio_test (decimal 7 1) ms') =
     S (length (ratio_test (decimal 7 1) ms)) ->
   fst (compute_image_similarity_detailed knnMatch qk (Some qd) sk (Some sd)) <
   fst (compute_image_similarity_detailed
          knnMatch' qk (Some qd) sk (Some sd))).
Proof.
  intros Hm Hm' Hq Hs. split; intros Hgood.
  - rewrite (compute_image_similarity_value knnMatch qk sk qd sd ms Hm Hq Hs).
    rewrite (compute_image_similarity_value knnMatch' qk sk qd sd ms' Hm' Hq Hs).
    rewrite Hgood. apply sigmoid_score_increasing, ratio_increasing. lia.
  - rewrite (compute_image_similarity_detailed_value knnMatch qk sk qd sd ms Hm Hq Hs).
    rewrite (compute_image_similarity_detailed_value
               knnMatch' qk sk qd sd ms' Hm' Hq Hs).
    rewrite Hgood. apply sigmoid_score_increasing.
    set (g := length (ratio_test (decimal 7 1) ms)).
    assert (H1 := ratio_increasing g (Nat.min (length qk) (length sk))).
    assert (H2 := ratio_increasing g (Nat.max (length qk) (length sk))).
    cbn [add mul div RArith] in *. rewrite !decimal_R.
    change (10 ^ Z.of_nat 1)%Z with 10%Z.
    assert (H1' := H1 ltac:(lia)). assert (H2' := H2 ltac:(lia)).
    lra.
Qed.
End ScorerClaims.

(** *** The scorer on sample inputs *)
Section ScorerSamples.
Import Exact.
Local Open Scope R_scope.

(** C2 fails as stated: with one accepted correspondence and keypoint
    counts 10 and 20, the primary path scores [sigmoid(8 * (0.1 - 0.15))],
    not the blended [sigmoid(8 * (0.085 - 0.15))]. *)
Lemma C2_primary_path_is_not_blended :
  compute_image_similarity (SamplesR.matcher 1)
    (SamplesR.keypoints 10) (Some (SamplesR.rows 10))
    (SamplesR.keypoints 20) (Some (SamplesR.rows 20)) <>
  spec_sigmoid (of_Z 8) (decimal 15 2) (spec_blended 1 10 20).
Proof.
  rewrite (compute_image_similarity_value (SamplesR.matcher 1)
             (SamplesR.keypoints 10) (SamplesR.keypoints 20)
             (SamplesR.rows 10) (SamplesR.rows 20)
             (repeat SamplesR.good_pair 1) eq_refl);
    [|cbn; lia|cbn; lia].
  rewrite SamplesR_ratio_test
    by (change (10 ^ Z.of_nat 1)%Z with 10%Z; lra).
  rewrite spec_sigmoid_R. intros H.
  apply sigmoid_score_injective in H. revert H.
  unfold spec_blended, SamplesR.keypoints. rewrite !repeat_length.
  rewrite !decimal_R. unfold of_nat.
  change (10 ^ Z.of_nat 1)%Z with 10%Z.
  cbn [Nat.min Z.of_nat Pos.of_succ_nat Pos.succ add mul div of_Z RArith].
  lra.
Qed.

Lemma C2_witness :
  compute_image_similarity (SamplesR.matcher 1)
    (SamplesR.keypoints 10) (Some (SamplesR.rows 10))
    (SamplesR.keypoints 20) (Some (SamplesR.rows 20)) =
    spec_sigmoid (of_Z 8) (decimal 15 2)
      (div (of_nat (length (ratio_test (decimal 8 1)
                              (repeat SamplesR.good_pair 1))))
           (of_nat (Nat.min (length (SamplesR.keypoints 10))
                            (length (SamplesR.keypoints 20))))) /\
  fst (compute_image_similarity_detailed (SamplesR.matcher 1)
         (SamplesR.keypoints 10) (Some (SamplesR.rows 10))
         (SamplesR.keypoints 20) (Some (SamplesR.rows 20))) =
    spec_sigmoid (of_Z 8) (decimal 15 2)
      (spec_blended
         (length (ratio_test (decimal 7 1) (repeat SamplesR.good_pair 1)))
         (Nat.min (length (SamplesR.keypoints 10))
                  (length (SamplesR.keypoints 20)))
         (Nat.max (length (SamplesR.keypoints 10))
                  (length (SamplesR.keypoints 20)))).
Proof.
  apply (C2_primary_path_unblended_detailed_path_blended
           (SamplesR.matcher 1)); [reflexivity|cbn; lia|cbn; lia].
Defined.

Lemma C5_witness :
  (forall matches,
     SamplesR.matcher 3 (SamplesR.rows 10) (SamplesR.rows 20) 2%nat =
       Ok matches ->
     0 < compute_image_similarity (SamplesR.matcher 3)
           (SamplesR.keypoints 10) (Some (SamplesR.rows 10))
           (SamplesR.keypoints 20) (Some (SamplesR.rows 20)) < 1) /\
  (forall e,
     SamplesR.matcher 3 (SamplesR.rows 10) (SamplesR.rows 20) 2%nat =
       Raise e ->
     compute_image_similarity (SamplesR.matcher 3)
       (SamplesR.keypoints 10) (Some (SamplesR.rows 10))
       (SamplesR.keypoints 20) (Some (SamplesR.rows 20)) = 0).
Proof.
  apply (C5_score_in_open_unit_interval_when_matcher_answers
           (SamplesR.matcher 3)); cbn; lia.
Defined.

Lemma C6_witness :
  compute_image_similarity (SamplesR.matcher 3)
    (SamplesR.keypoints 10) (Some (SamplesR.rows 10))
    (SamplesR.keypoints 20) (Some (SamplesR.rows 20)) <
  compute_image_similarity (SamplesR.matcher 4)
    (SamplesR.keypoints 10) (Some (SamplesR.rows 10))
    (SamplesR.keypoints 20) (Some (SamplesR.rows 20)) /\
  fst (compute_image_similarity_detailed (SamplesR.matcher 3)
         (SamplesR.keypoints 10) (Some (SamplesR.rows 10))
         (SamplesR.keypoints 20) (Some (SamplesR.rows 20))) <
  fst (compute_image_similarity_detailed (SamplesR.matcher 4)
         (SamplesR.keypoints 10) (Some (SamplesR.rows 10))
         (SamplesR.keypoints 20) (Some (SamplesR.rows 20))).
Proof.
  destruct (C6_score_strictly_increasing_in_good_matches
              (SamplesR.matcher 3) (SamplesR.matcher 4)
              (SamplesR.keypoints 10) (SamplesR.keypoints 20)
              (SamplesR.rows 10) (SamplesR.rows 20)
              (repeat SamplesR.good_pair 3) (repeat SamplesR.good_pair 4)
              eq_refl eq_refl ltac:(cbn; lia) ltac:(cbn; lia)) as [H8 H7].
  split; [apply H8|apply H7];
    rewrite !SamplesR_ratio_test
      by (change (10 ^ Z.of_nat 1)%Z with 10%Z; lra);
    reflexivity.
Defined.
End ScorerSamples.

(** C5 fails as stated, twice over.  A matcher call that raises gives the
    score 0; and in binary64, with 50 accepted correspondences and
    keypoint counts 1000 and 10, [np.exp(-38.8)] is absorbed by the
    addition to 1 and the score is exactly 1. *)
Lemma C5_score_reaches_0_and_1 :
  compute_image_similarity Samples.matcher_raises
    (Samples.keypoints 1) (Some (Samples.rows 1))
    (Samples.keypoints 1) (Some (Samples.rows 1)) = 0%float /\
  compute_image_similarity (Samples.matcher 50)
    (Samples.keypoints 1000) (Some (Samples.rows 1000))
    (Samples.keypoints 10) (Some (Samples.rows 10)) = 1%float.
Proof. split; vm_compute; reflexivity. Qed.

(** C6 fails as stated in binary64: with keypoint counts 1000 and 10 the
    scores for 50 and for 51 accepted correspondences are both exactly 1,
    so the second is not greater than the first. *)
Lemma C6_score_saturates_in_binary64 :
  compute_image_similarity (Samples.matcher 50)
    (Samples.keypoints 1000) (Some (Samples.rows 1000))
    (Samples.keypoints 10) (Some (Samples.rows 10)) = 1%float /\
  compute_image_similarity (Samples.matcher 51)
    (Samples.keypoints 1000) (Some (Samples.rows 1000))
    (Samples.keypoints 10) (Some (Samples.rows 10)) = 1%float /\
  ltb (compute_image_similarity (Samples.matcher 50)
         (Samples.keypoints 1000) (Some (Samples.rows 1000))
         (Samples.keypoints 10) (Some (Samples.rows 10)))
      (compute_image_similarity (Samples.matcher 51)
         (Samples.keypoints 1000) (Some (Samples.rows 1000))
         (Samples.keypoints 10) (Some (Samples.rows 10))) = false.
Proof. repeat split; vm_compute; reflexivity. Qed.

(** ** The embedding comparator *)

Lemma SFmul_comm (prec emax : Z) (x y : spec_float) :
  SFmul prec emax x y = SFmul prec emax y x.
Proof.
  destruct x as [sx|sx| |sx mx ex], y as [sy|sy| |sy my ey]; cbn;
    rewrite ?(xorb_comm sx sy); try reflexivity.
  now rewrite (Pos.mul_comm mx my), (Z.add_comm ex ey).
Qed.

#[export] Instance RArith_MulComm : MulComm Exact.RArith.
Proof. intros x y. apply Rmult_comm. Qed.

#[export] Instance F64_MulComm : MulComm Binary64.F64.
Proof.
  intros x y. cbn. apply Prim2SF_inj. rewrite !mul_spec.
  apply SFmul_comm.
Qed.

Section Comparator.
Context {A : Arith} {HA : MulComm A}.

Lemma dot_comm (x y : tensor) : dot x y = dot y x.
Proof.
  revert y. induction x as [|a x IH]; intros [|b y]; cbn [dot];
    try reflexivity.
  now rewrite (mul_comm a b), IH.
Qed.

Lemma cosine_similarity_comm (x y : tensor) :
  cosine_similarity x y = cosine_similarity y x.
Proof.
  unfold cosine_similarity, broadcast_tensors.
  rewrite (Nat.eqb_sym (length y) (length x)).
  destruct (length x =? length y) eqn:E; cbn [bind].
  - now rewrite dot_comm, mul_comm.
  - apply Nat.eqb_neq in E.
    destruct x as [|a [|a' x']], y as [|b [|b' y']]; cbn [bind length] in *;
      try reflexivity; try (now rewrite dot_comm, mul_comm);
      exfalso; apply E; reflexivity.
Qed.

(** C7. The embedding comparator is symmetric,
    [compute_clip_similarity(a, b) == compute_clip_similarity(b, a)], for
    all embeddings (of unit norm or not, of equal width or not, and for
    absent ones); and when the cosine similarity [cos] of the two rows is
    defined the result is [(cos + 1) / 2]. *)
Theorem C7_compute_clip_similarity_symmetric (a b : option tensor) :
  compute_clip_similarity a b = compute_clip_similarity b a /\
  (forall x y cos,
      a = Some x -> b = Some y -> cosine_similarity x y = Ok cos ->
      compute_clip_similarity a b = div (add cos (of_Z 1)) (of_Z 2)).
Proof.
  split.
  - destruct a as [x|], b as [y|]; try reflexivity.
    unfold compute_clip_similarity. now rewrite cosine_similarity_comm.
  - intros x y cos -> -> Hcos. unfold compute_clip_similarity.
    now rewrite Hcos.
Qed.
End Comparator.

Lemma C7_witness :
  compute_clip_similarity (Some Samples.unit_x) (Some Samples.row34) =
  compute_clip_similarity (Some Samples.row34) (Some Samples.unit_x) /\
  (forall x y cos,
      Some Samples.unit_x = Some x ->
      Some Samples.row34 = Some y ->
      cosine_similarity x y = Ok cos ->
      compute_clip_similarity (Some Samples.unit_x) (Some Samples.row34) =
      div (add cos (of_Z 1)) (of_Z 2)).
Proof.
  exact (@C7_compute_clip_similarity_symmetric Binary64.F64 F64_MulComm
           (Some Samples.unit_x) (Some Samples.row34)).
Defined.

(** ** Sample runs of the failure paths *)

Lemma C9_witness :
  get_image_features_from_bytes
    Samples.decode Samples.prepare Samples.detect Samples.describe [] =
    (None, None) /\
  get_image_features_from_bytes
    Samples.decode Samples.prepare Samples.detect Samples.describe
    [Byte.x07] = (None, None) /\
  get_image_features_from_bytes
    Samples.decode Samples.prepare Samples.detect Samples.describe [] =
  get_image_features_from_bytes
    Samples.decode Samples.prepare Samples.detect Samples.describe
    [Byte.x07].
Proof.
  apply (@C9_decode_failure_and_few_features_look_alike Binary64.F64
           (list Z) Samples.decode Samples.prepare Samples.detect
           Samples.describe [] [Byte.x07] [7%Z] [7%Z]
           [Samples.keypoint (Samples.fl 7)] (Some [[Samples.fl 7]]));
    try reflexivity.
  right. cbn. lia.
Defined.

Lemma C3_witness :
  analyze_image (Samples.encoder None) Binary64.format_3f
    Samples.corpus3 [Byte.x07] [] = Ok [] /\
  (forall np_load json_load,
      (exists e, np_load = Raise e) \/ (exists e, json_load = Raise e) ->
      is_model_available (_load_features np_load json_load) = false /\
      analyze_image (Samples.encoder None) Binary64.format_3f
        (_load_features np_load json_load) [Byte.x07] [] = Ok []).
Proof.
  apply (@C3_unavailable_or_no_embedding_gives_empty Binary64.F64
           (Samples.encoder None) Binary64.format_3f
           Samples.corpus3 [Byte.x07] []).
  right. right. reflexivity.
Defined.

(** ** Sorting by descending key, over the reals *)
Section SortReals.
Import Exact.
Local Open Scope R_scope.
Context {T : Type} (key : T -> R).

Lemma insert_desc_perm (x : T) (l : list T) :
  Permutation (insert_desc (A := RArith) key x l) (x :: l).
Proof.
  induction l as [|y l IH]; cbn [insert_desc]; [reflexivity|].
  destruct (@ltb RArith (key x) (key y)); [|reflexivity].
  rewrite IH. apply perm_swap.
Qed.

Lemma sort_reverse_perm (l : list T) :
  Permutation (sort_reverse (A := RArith) key l) l.
Proof.
  induction l as [|x l IH]; [reflexivity|].
  cbn [sort_reverse fold_right]. fold (sort_reverse (A := RArith) key l).
  rewrite insert_desc_perm. now constructor.
Qed.

Lemma sort_reverse_length (l : list T) :
  length (sort_reverse (A := RArith) key l) = length l.
Proof. apply Permutation_length, sort_reverse_perm. Qed.

Lemma insert_desc_sorted (x : T) (l : list T) :
  StronglySorted (desc key) l ->
  StronglySorted (desc key) (insert_desc (A := RArith) key x l).
Proof.
  induction 1 as [|y l Hs IH Hall]; cbn [insert_desc].
  - repeat constructor.
  - cbn [ltb RArith]. unfold Rltb.
    destruct (Rlt_dec (key x) (key y)) as [Hlt|Hge].
    + constructor; [exact IH|].
      apply (Permutation_Forall (x := x :: l)).
      * symmetry. apply insert_desc_perm.
      * constructor; [unfold desc; lra|exact Hall].
    + constructor; [now constructor|].
      constructor; [unfold desc; lra|].
      eapply Forall_impl; [|exact Hall].
      intros z Hz. unfold desc in *. lra.
Qed.

Lemma sort_reverse_sorted (l : list T) :
  StronglySorted (desc key) (sort_reverse (A := RArith) key l).
Proof.
  induction l as [|x l IH]; [constructor|].
  cbn [sort_reverse fold_right]. now apply insert_desc_sorted.
Qed.

Lemma insert_desc_stable (c : R) (x : T) (l : list T) :
  with_key key c (insert_desc (A := RArith) key x l) = with_key key c (x :: l).
Proof.
  unfold with_key.
  induction l as [|y l IH]; cbn [insert_desc]; [reflexivity|].
  cbn [ltb RArith]. unfold Rltb.
  destruct (Rlt_dec (key x) (key y)) as [Hlt|Hge]; [|reflexivity].
  cbn [filter] in *. rewrite IH. unfold Reqb.
  destruct (Req_dec_T (key y) c), (Req_dec_T (key x) c);
    try reflexivity.
  lra.
Qed.

(** Stability: the elements of equal key keep the order they had. *)
Lemma sort_reverse_stable (c : R) (l : list T) :
  with_key key c (sort_reverse (A := RArith) key l) = with_key key c l.
Proof.
  induction l as [|x l IH]; [reflexivity|].
  cbn [sort_reverse fold_right]. rewrite insert_desc_stable.
  unfold with_key in *. cbn [filter].
  fold (sort_reverse (A := RArith) key l). now rewrite IH.
Qed.

(** The first element of the sorted list has the greatest key. *)
Lemma sort_reverse_head (l : list T) (best : T) (rest : list T) :
  sort_reverse (A := RArith) key l = best :: rest ->
  In best l /\ forall x, In x l -> key x <= key best.
Proof.
  intros H.
  pose proof (sort_reverse_perm l) as Hp.
  pose proof (sort_reverse_sorted l) as Hs.
  rewrite H in Hp, Hs. split.
  - apply (Permutation_in _ Hp). now left.
  - intros x Hx.
    apply (Permutation_in _ (Permutation_sym Hp)) in Hx.
    destruct Hx as [->|Hx]; [lra|].
    apply StronglySorted_inv in Hs. destruct Hs as [_ Hall].
    rewrite Forall_forall in Hall. now apply Hall.
Qed.
End SortReals.

(** ** The orchestrator: scan and ranking *)
Section Orchestrator.
Context {A : Arith}.
Variable format_3f : num -> string.

Lemma detailed_score (a b : option tensor) :
  fst (compute_clip_similarity_detailed a b) = compute_clip_similarity a b.
Proof.
  unfold compute_clip_similarity_detailed, compute_clip_similarity.
  destruct a as [x|], b as [y|]; try reflexivity.
  destruct (cosine_similarity x y); reflexivity.
Qed.

(** What a scan that ran to its end has recorded. *)
Lemma scan_Ok (mp : list (pydict pyval)) (q : tensor)
    (stored : list (pydict tensor)) :
  forall i sims,
    scan mp q i stored = Ok sims ->
    length sims = length stored /\
    forall k sf,
      nth_error stored k = Some sf ->
      exists s part v,
        lookup "clip_features" sf = Some s /\
        nth_error mp (i + k) = Some part /\
        lookup "material_number" part = Some v /\
        nth_error sims k =
          Some (compute_clip_similarity_detailed (Some q) (Some s)).
Proof.
  induction stored as [|hd rest IH]; intros i sims H.
  - cbn in H. inversion H; subst. split; [reflexivity|].
    intros [|k] sf Hk; discriminate.
  - cbn [scan] in H. revert H.
    case_bind; [|discriminate].
    case_bind; [|discriminate].
    case_bind; [|discriminate].
    match goal with
    | |- context [compute_clip_similarity_detailed ?x ?y] =>
        destruct (compute_clip_similarity_detailed x y) as [sim det] eqn:Ed
    end.
    case_bind; [|discriminate].
    case_bind; [|discriminate].
    intros H. inversion H; subst. clear H.
    destruct (IH (S i) a3 E3) as [Hlen Hrest].
    split; [cbn; now rewrite Hlen|].
    intros [|k] sf Hk.
    + cbn in Hk. inversion Hk; subst.
      exists a, a0, a1. rewrite Nat.add_0_r.
      repeat split.
      * now apply getitem_Ok.
      * now apply index_Ok.
      * now apply getitem_Ok.
      * cbn [nth_error]. now rewrite Ed.
    + cbn in Hk. destruct (Hrest k sf Hk) as (s & part & v & H1 & H2 & H3 & H4).
      exists s, part, v. rewrite Nat.add_succ_r. now repeat split.
Qed.

(** A comparable corpus is scanned to the end. *)
Lemma scan_comparable (mp : list (pydict pyval)) (q : tensor)
    (stored : list (pydict tensor)) :
  forall i,
    (forall k sf,
        nth_error stored k = Some sf ->
        exists s part v,
          lookup "clip_features" sf = Some s /\
          length s = length q /\
          nth_error mp (i + k) = Some part /\
          lookup "material_number" part = Some v) ->
    exists sims, scan mp q i stored = Ok sims.
Proof.
  induction stored as [|hd rest IH]; intros i H.
  - exists []. reflexivity.
  - destruct (H 0%nat hd eq_refl) as (s & part & v & H1 & H2 & H3 & H4).
    rewrite Nat.add_0_r in H3.
    destruct (IH (S i)) as [sims Hs].
    { intros k sf Hk. destruct (H (S k) sf Hk) as (s' & p' & v' & K).
      exists s', p', v'. now rewrite Nat.add_succ_r in K. }
    cbn [scan]. rewrite (lookup_getitem _ _ _ H1). cbn [bind].
    unfold index. rewrite H3. cbn [bind].
    rewrite (lookup_getitem _ _ _ H4). cbn [bind].
    unfold compute_clip_similarity_detailed.
    rewrite (cosine_similarity_same_width q s (eq_sym H2)).
    cbn [bind getitem lookup String.eqb].
    rewrite Hs. cbn [bind].
    eexists. cbn. reflexivity.
Qed.

(** What the collected matches are. *)
Lemma collect_Ok (mp : list (pydict pyval))
    (sims : list (num * pydict pyval)) :
  forall idx ms,
    collect format_3f mp idx sims = Ok ms ->
    (forall m, In m ms ->
       exists k part,
         nth_error sims k = Some (confidence_score m, details m) /\
         geb (confidence_score m) (decimal 9 1) = true /\
         nth_error mp (idx + k) = Some part /\
         lookup "material_number" part = Some (material_number m) /\
         match_reason m =
           ("CLIP semantic matching: " ++ format_3f (confidence_score m))%string)
    /\
    (forall k sim det,
       nth_error sims k = Some (sim, det) ->
       geb sim (decimal 9 1) = true ->
       exists m, In m ms /\ confidence_score m = sim).
Proof.
  induction sims as [|[sim0 det0] rest IH]; intros idx ms H.
  - cbn in H. inversion H; subst. split.
    + intros m [].
    + intros [|k] sim det Hk; discriminate.
  - cbn [collect] in H.
    destruct (geb sim0 (decimal 9 1)) eqn:Eg.
    + revert H.
      case_bind; [|discriminate].
      case_bind; [|discriminate].
      case_bind; [|discriminate].
      intros H. inversion H; subst. clear H.
      destruct (IH (S idx) a1 E1) as [Hin Hall]. split.
      * intros m [<-|Hm].
        -- exists 0%nat, a. cbn. rewrite Nat.add_0_r.
           repeat split; auto using index_Ok, getitem_Ok.
        -- destruct (Hin m Hm) as (k & part & K1 & K2 & K3 & K4 & K5).
           exists (S k), part. rewrite Nat.add_succ_r. now repeat split.
      * intros [|k] sim det Hk Hg.
        -- cbn in Hk. inversion Hk; subst.
           eexists. split; [left; reflexivity|reflexivity].
        -- cbn in Hk. destruct (Hall k sim det Hk Hg) as (m & Hm & Hc).
           exists m. split; [now right|exact Hc].
    + destruct (IH (S idx) ms H) as [Hin Hall]. split.
      * intros m Hm.
        destruct (Hin m Hm) as (k & part & K1 & K2 & K3 & K4 & K5).
        exists (S k), part. rewrite Nat.add_succ_r. now repeat split.
      * intros [|k] sim det Hk Hg.
        -- cbn in Hk. inversion Hk; subst. congruence.
        -- cbn in Hk. exact (Hall k sim det Hk Hg).
Qed.

(** With every position of the metadata in place, the collection ends. *)
Lemma collect_total (mp : list (pydict pyval))
    (sims : list (num * pydict pyval)) :
  forall idx,
    (forall k, k < length sims ->
       exists part v,
         nth_error mp (idx + k) = Some part /\
         lookup "material_number" part = Some v) ->
    exists ms, collect format_3f mp idx sims = Ok ms.
Proof.
  induction sims as [|[sim0 det0] rest IH]; intros idx H.
  - exists []. reflexivity.
  - destruct (IH (S idx)) as [ms Hms].
    { intros k Hk. destruct (H (S k)) as (part & v & K); [cbn; lia|].
      exists part, v. now rewrite Nat.add_succ_r in K. }
    cbn [collect]. destruct (geb sim0 (decimal 9 1)).
    + destruct (H 0%nat) as (part & v & H1 & H2); [cbn; lia|].
      rewrite Nat.add_0_r in H1.
      unfold index. rewrite H1. cbn [bind].
      rewrite (lookup_getitem _ _ _ H2). cbn [bind].
      rewrite Hms. cbn [bind]. eexists. reflexivity.
    + exists ms. exact Hms.
Qed.
End Orchestrator.

(** ** The orchestrator: the reporting policy *)
Section ReportingPolicy.
Import Exact.
Local Open Scope R_scope.
Variable get_clip_features_from_bytes : image_bytes -> option (@tensor RArith).
Variable format_3f : R -> string.

Lemma geb_R (x y : R) : geb (A := RArith) x y = true <-> y <= x.
Proof. unfold geb. cbn [leb RArith]. apply Rleb_true_iff. Qed.

(** A comparable corpus is scanned and ranked without an exception. *)
Lemma analyze_image_returns self image_data spare_parts_data features mp q :
  stored_features self = Some features ->
  mapping self = Some mp ->
  get_clip_features_from_bytes image_data = Some q ->
  comparable features mp q ->
  exists l,
    analyze_image get_clip_features_from_bytes format_3f
      self image_data spare_parts_data = Ok l.
Proof.
  intros Hf Hm Hq Hc. unfold analyze_image. rewrite Hf, Hm, Hq.
  destruct (scan_comparable mp q features 0%nat) as [sims Hs].
  { intros k sf Hk. destruct (Hc k sf Hk) as (s & part & v & K).
    exists s, part, v. exact K. }
  rewrite Hs. cbn [bind].
  destruct (scan_Ok mp q features 0%nat sims Hs) as [Hlen _].
  destruct (@collect_total RArith format_3f mp sims 0%nat) as [ms Hms].
  { intros k Hk. rewrite Hlen in Hk.
    destruct (nth_error features k) as [sf|] eqn:Ek.
    - destruct (Hc k sf Ek) as (s & part & v & _ & _ & K1 & K2).
      exists part, v. now split.
    - apply nth_error_None in Ek. lia. }
  rewrite Hms. cbn [bind].
  destruct (sort_reverse confidence_score ms); eexists; reflexivity.
Qed.

(** C1. Every list that [analyze_image] returns has at most one element;
    its element, when there is one, is an entry of the corpus whose
    rescaled similarity to the query is at least 0.9 and is the greatest
    over all entries of the corpus; its [confidence_score] is that
    similarity and its [match_reason] carries the score, formatted.  And
    the call does return a list whenever the store is not loaded, the
    query has no embedding, or the corpus is comparable with the query. *)
Theorem C1_at_most_one_match_the_best_above_threshold
    self image_data spare_parts_data :
  (forall l,
     analyze_image get_clip_features_from_bytes format_3f
       self image_data spare_parts_data = Ok l ->
     (length l <= 1)%nat /\
     forall m, In m l ->
       exists features mp q idx sf s part,
         stored_features self = Some features /\
         mapping self = Some mp /\
         get_clip_features_from_bytes image_data = Some q /\
         nth_error features idx = Some sf /\
         lookup "clip_features" sf = Some s /\
         nth_error mp idx = Some part /\
         lookup "material_number" part = Some (material_number m) /\
         confidence_score m = compute_clip_similarity (Some q) (Some s) /\
         decimal 9 1 <= confidence_score m /\
         (forall j sfj sj,
             nth_error features j = Some sfj ->
             lookup "clip_features" sfj = Some sj ->
             compute_clip_similarity (Some q) (Some sj) <=
             confidence_score m) /\
         match_reason m =
           ("CLIP semantic matching: " ++
            format_3f (confidence_score m))%string) /\
  ((stored_features self = None \/ mapping self = None \/
    get_clip_features_from_bytes image_data = None \/
    exists features mp q,
      stored_features self = Some features /\ mapping self = Some mp /\
      get_clip_features_from_bytes image_data = Some q /\
      comparable features mp q) ->
   exists l,
     analyze_image get_clip_features_from_bytes format_3f
       self image_data spare_parts_data = Ok l).
Proof.
  split.
  - intros l H. unfold analyze_image, _fallback_analysis in H.
    destruct (stored_features self) as [features|] eqn:Hf;
      [|inversion H; subst; split; [cbn; lia|intros m []]].
    destruct (mapping self) as [mp|] eqn:Hm;
      [|inversion H; subst; split; [cbn; lia|intros m []]].
    destruct (get_clip_features_from_bytes image_data) as [q|] eqn:Hq;
      [|inversion H; subst; split; [cbn; lia|intros m []]].
    revert H. case_bind; [|discriminate]. case_bind; [|discriminate].
    rename a into sims, a0 into valid, E into Hscan, E0 into Hcollect.
    destruct (sort_reverse confidence_score valid) as [|best rest] eqn:Hsort;
      intros H; inversion H; subst; clear H.
    { split; [cbn; lia|intros m []]. }
    split; [cbn; lia|].
    intros m [<-|[]].
    destruct (sort_reverse_head (@confidence_score RArith) valid best rest
                Hsort)
      as [Hbest Hmax].
    destruct (scan_Ok mp q features 0%nat sims Hscan) as [Hlen Hscanned].
    destruct (@collect_Ok RArith format_3f mp sims 0%nat valid Hcollect)
      as [Hvalid Hcomplete].
    destruct (Hvalid best Hbest) as (k & part & K1 & K2 & K3 & K4 & K5).
    cbn [Nat.add] in K3.
    assert (Hk : (k < length features)%nat).
    { rewrite <- Hlen. apply nth_error_Some. now rewrite K1. }
    destruct (nth_error features k) as [sf|] eqn:Ek;
      [|apply nth_error_None in Ek; lia].
    destruct (Hscanned k sf Ek) as (s & part' & v & S1 & S2 & S3 & S4).
    exists features, mp, q, k, sf, s, part.
    repeat split; auto.
    + assert (Hpair : (confidence_score best, details best) =
                      compute_clip_similarity_detailed (Some q) (Some s))
        by congruence.
      rewrite <- (detailed_score (Some q) (Some s)), <- Hpair. reflexivity.
    + now apply geb_R.
    + intros j sfj sj Hj Hsj.
      destruct (Hscanned j sfj Hj) as (s' & pj & vj & J1 & J2 & J3 & J4).
      rewrite Hsj in J1. inversion J1; subst s'. clear J1.
      rewrite <- (detailed_score (Some q) (Some sj)).
      destruct (compute_clip_similarity_detailed (Some q) (Some sj))
        as [simj detj] eqn:Ed.
      cbn [fst].
      destruct (Rle_dec (@decimal RArith 9 1) simj) as [Hge|Hlt].
      * apply geb_R in Hge.
        destruct (Hcomplete j simj detj J4 Hge) as (m' & Hm' & <-).
        now apply Hmax.
      * apply geb_R in K2. cbn [num RArith] in *. lra.
  - intros [H|[H|[H|H]]].
    + exists []. now apply analyze_unavailable; left.
    + exists []. now apply analyze_unavailable; right.
    + exists []. now apply analyze_no_embedding.
    + destruct H as (features & mp & q & Hf & Hm & Hq & Hc).
      now apply (analyze_image_returns self image_data spare_parts_data
                   features mp q).
Qed.
End ReportingPolicy.

(** ** The keypoint extractor: successful results *)
Section Decorate.
Context {A : Arith} {T : Type} (r : T -> num).

Lemma insert_desc_decorated (x : T) (l : list T) :
  insert_desc snd (x, r x) (map (fun t => (t, r t)) l) =
  map (fun t => (t, r t)) (insert_desc r x l).
Proof.
  induction l as [|y l IH]; cbn [insert_desc map snd]; [reflexivity|].
  destruct (ltb (r x) (r y)); cbn [map]; [now rewrite IH|reflexivity].
Qed.

(** Sorting the pairs [(t, r t)] by their second component sorts the
    [t] by [r]. *)
Lemma sort_reverse_decorated (l : list T) :
  map fst (sort_reverse snd (map (fun t => (t, r t)) l)) = sort_reverse r l.
Proof.
  assert (H : sort_reverse snd (map (fun t => (t, r t)) l) =
              map (fun t => (t, r t)) (sort_reverse r l)).
  { induction l as [|x l IH]; [reflexivity|].
    cbn [map sort_reverse fold_right].
    fold (sort_reverse snd (map (fun t => (t, r t)) l)).
    fold (sort_reverse r l).
    now rewrite IH, insert_desc_decorated. }
  rewrite H, map_map. cbn [fst]. apply map_id.
Qed.
End Decorate.

Section ExtractorSuccess.
Import Exact.
Variable image : Type.
Variable imdecode : image_bytes -> result (option image).
Variable preprocess : image -> result image.
Variable detectAndCompute :
  image -> result (list (@KeyPoint RArith) * option (@descriptors RArith)).
Variable compute :
  image -> list (@KeyPoint RArith) ->
  result (list (@KeyPoint RArith) * option (@descriptors RArith)).

Lemma filter_strongest_keypoints gray detected kps rows :
  filter_strongest compute gray detected = Ok (kps, rows) ->
  kps = firstn 1000 (sort_reverse response detected) /\
  exists kps', compute gray kps = Ok (kps', rows).
Proof.
  unfold filter_strongest.
  rewrite <- firstn_map, sort_reverse_decorated.
  case_bind; [|discriminate].
  destruct a as [kps' rows']. intros H. inversion H; subst.
  split; [reflexivity|]. now exists kps'.
Qed.

(** C8. A successful result of the extractor carries non-null descriptors
    with exactly one row per returned keypoint, given that SIFT computes
    one row per keypoint.  It holds between 10 and 1000 keypoints: all the
    detected ones when there are at most 1000, and otherwise the first
    1000 of the detected keypoints in descending order of response, those
    of equal response in their order of detection, with the descriptors
    recomputed for these 1000. *)
Theorem C8_one_descriptor_per_returned_keypoint bytes kps descs :
  one_row_per_keypoint detectAndCompute compute ->
  get_image_features_from_bytes
    imdecode preprocess detectAndCompute compute bytes = (Some kps, descs) ->
  exists rows img gray detected rows0,
    descs = Some rows /\
    length rows = length kps /\
    10 <= length kps <= 1000 /\
    imdecode bytes = Ok (Some img) /\
    preprocess img = Ok gray /\
    detectAndCompute gray = Ok (detected, Some rows0) /\
    ((length detected <= 1000 /\ kps = detected /\ rows = rows0) \/
     (1000 < length detected /\
      length kps = 1000 /\
      (exists kps', compute gray kps = Ok (kps', Some rows)) /\
      exists dropped,
        Permutation (kps ++ dropped) detected /\
        StronglySorted (desc response) (kps ++ dropped) /\
        forall c,
          with_key response c (kps ++ dropped) =
          with_key response c detected)).
Proof.
  intros [Hdetect Hcompute] H.
  unfold get_image_features_from_bytes in H.
  destruct (extract imdecode preprocess detectAndCompute compute bytes)
    as [r|e] eqn:Hx; [subst r|discriminate].
  unfold extract in Hx. revert Hx.
  case_bind; [|discriminate].
  destruct a as [img|]; [|discriminate].
  case_bind; [|discriminate]. rename a into gray.
  case_bind; [|discriminate]. destruct a as [detected [rows0|]];
    [|discriminate].
  destruct (Nat.ltb_spec (length detected) 10) as [Hfew|Hten];
    [discriminate|].
  destruct (Nat.ltb_spec 1000 (length detected)) as [Hmany|Hle].
  - case_bind; [|discriminate]. destruct a as [kps0 rows].
    destruct (filter_strongest_keypoints gray detected kps0 rows E2)
      as [Hk [kps' Hc]].
    destruct rows as [rows|]; [|discriminate].
    cbn [shape bind]. intros Hx. inversion Hx; subst kps descs. clear Hx.
    assert (Hlen : length kps0 = 1000).
    { rewrite Hk, length_firstn, sort_reverse_length. lia. }
    exists rows, img, gray, detected, rows0.
    repeat split; try assumption; try lia.
    + rewrite (Hcompute gray kps0 kps' rows Hc). reflexivity.
    + right. repeat split; try assumption.
      * now exists kps'.
      * exists (skipn 1000 (sort_reverse response detected)).
        rewrite Hk, firstn_skipn. repeat split.
        -- apply sort_reverse_perm.
        -- apply sort_reverse_sorted.
        -- intros c. apply sort_reverse_stable.
  - cbn [bind shape]. intros Hx. inversion Hx; subst kps descs. clear Hx.
    exists rows0, img, gray, detected, rows0.
    repeat split; try assumption; try lia.
    + exact (Hdetect gray detected rows0 E1).
    + left. repeat split; [lia].
Qed.
End ExtractorSuccess.

Lemma SamplesR_one_row_per_keypoint :
  one_row_per_keypoint SamplesR.detect SamplesR.describe.
Proof.
  split.
  - intros gray kps rows H. unfold SamplesR.detect in H.
    destruct gray; inversion H; subst.
    unfold SamplesR.rows, SamplesR.keypoints. now rewrite !repeat_length.
  - intros gray kps kps' rows H. unfold SamplesR.describe in H.
    inversion H; subst. unfold SamplesR.rows. now rewrite repeat_length.
Qed.

Lemma SamplesR_extract_1001 :
  get_image_features_from_bytes
    SamplesR.decode SamplesR.prepare SamplesR.detect SamplesR.describe
    (repeat Byte.x07 1001) =
  (Some (firstn 1000 (sort_reverse response (SamplesR.keypoints 1001))),
   Some (SamplesR.rows 1000)).
Proof.
  unfold get_image_features_from_bytes, extract.
  change (SamplesR.decode (repeat Byte.x07 1001)) with (Ok (Some 1001)).
  cbn [bind]. unfold SamplesR.prepare. cbn [bind].
  unfold SamplesR.detect. cbn [bind].
  change (length (SamplesR.keypoints 1001) <? 10) with false.
  change (1000 <? length (SamplesR.keypoints 1001)) with true.
  cbv iota. unfold filter_strongest.
  rewrite <- firstn_map, sort_reverse_decorated.
  unfold SamplesR.describe. cbn [bind shape].
  rewrite length_firstn, sort_reverse_length.
  change (Nat.min 1000 (length (SamplesR.keypoints 1001))) with 1000.
  reflexivity.
Qed.

Lemma C8_witness :
  exists rows img gray detected rows0,
    Some (SamplesR.rows 1000) = Some rows /\
    length rows =
      length (firstn 1000 (sort_reverse response (SamplesR.keypoints 1001))) /\
    10 <=
      length (firstn 1000 (sort_reverse response (SamplesR.keypoints 1001)))
      <= 1000 /\
    SamplesR.decode (repeat Byte.x07 1001) = Ok (Some img) /\
    SamplesR.prepare img = Ok gray /\
    SamplesR.detect gray = Ok (detected, Some rows0) /\
    ((length detected <= 1000 /\
      firstn 1000 (sort_reverse response (SamplesR.keypoints 1001)) =
        detected /\
      rows = rows0) \/
     (1000 < length detected /\
      length (firstn 1000 (sort_reverse response (SamplesR.keypoints 1001))) =
        1000 /\
      (exists kps',
          SamplesR.describe gray
            (firstn 1000 (sort_reverse response (SamplesR.keypoints 1001))) =
          Ok (kps', Some rows)) /\
      exists dropped,
        Permutation
          (firstn 1000 (sort_reverse response (SamplesR.keypoints 1001)) ++
           dropped) detected /\
        StronglySorted (desc (@response Exact.RArith))
          (firstn 1000 (sort_reverse response (SamplesR.keypoints 1001)) ++
           dropped) /\
        forall c,
          with_key (@response Exact.RArith) c
            (firstn 1000 (sort_reverse response (SamplesR.keypoints 1001)) ++
             dropped) =
          with_key (@response Exact.RArith) c detected)).
Proof.
  exact (C8_one_descriptor_per_returned_keypoint nat
           SamplesR.decode SamplesR.prepare SamplesR.detect SamplesR.describe
           (repeat Byte.x07 1001)
           (firstn 1000 (sort_reverse response (SamplesR.keypoints 1001)))
           (Some (SamplesR.rows 1000))
           SamplesR_one_row_per_keypoint SamplesR_extract_1001).
Defined.

(** ** Sample runs of the orchestrator, in binary64 *)

(** The query [[1, 0]] against three stored embeddings: similarities 0.5,
    1.0 and 0.974; two clear the threshold and only the best is reported. *)
Example analyze_image_reports_the_best :
  analyze_image (Samples.encoder (Some Samples.unit_x)) Binary64.format_3f
    Samples.corpus3 [] [] = Ok [Samples.match_SP002].
Proof. reflexivity. Qed.

(** The query [[-1, 0]] is far from every stored embedding. *)
Example analyze_image_below_threshold :
  analyze_image (Samples.encoder (Some Samples.minus_x))
    Binary64.format_3f Samples.corpus3 [] [] = Ok [].
Proof. reflexivity. Qed.

Example format_3f_samples :
  Binary64.format_3f 0x1p-4%float = "0.062"%string /\
  Binary64.format_3f 0x1.f3b645a1cac08p-1%float = "0.976"%string /\
  Binary64.format_3f (-0x1.a36e2eb1c432dp-12)%float = "-0.000"%string.
Proof. repeat split; reflexivity. Qed.

(** ** The embedding comparator in exact arithmetic *)
Section ComparatorReals.
Import Exact.
Local Open Scope R_scope.

Lemma dot_self_nonneg (x : @tensor RArith) : 0 <= dot x x.
Proof.
  induction x as [|a x IH]; cbn [dot add mul of_Z RArith]; [lra|].
  nra.
Qed.

Lemma fmax_R (x y : R) : fmax (A := RArith) x y = Rmax x y.
Proof.
  unfold fmax. cbn [ltb RArith]. unfold Rltb, Rmax.
  destruct (Rlt_dec x y), (Rle_dec x y); try reflexivity; lra.
Qed.

Lemma norm_R (x : @tensor RArith) : norm x = R_sqrt.sqrt (dot x x).
Proof. reflexivity. Qed.




(** Read in exact arithmetic, an embedding of unit norm has similarity 1
    to itself. *)
Theorem compute_clip_similarity_self (x : @tensor RArith) :
  norm x = 1 -> compute_clip_similarity (Some x) (Some x) = 1.
Proof.
  intros Hn. unfold compute_clip_similarity.
  rewrite (cosine_similarity_same_width x x eq_refl).
  cbn [bind div mul add of_Z RArith].
  assert (Hd : dot x x = 1).
  { pose proof Hn as Hs. rewrite norm_R in Hs.
    rewrite <- (sqrt_sqrt _ (dot_self_nonneg x)), Hs. lra. }
  rewrite Hn, fmax_R, Hd, decimal_R.
  change (10 ^ Z.of_nat 8)%Z with 100000000%Z.
  rewrite Rmax_left by lra. lra.
Qed.
End ComparatorReals.

Lemma SamplesR_unit_x_norm : norm SamplesR.unit_x = 1%R.
Proof.
  unfold norm, SamplesR.unit_x. cbn [dot add mul of_Z sqrt Exact.RArith].
  replace (1 * 1 + (0 * 0 + 0))%R with 1%R by lra. apply sqrt_1.
Qed.

Lemma compute_clip_similarity_self_witness :
  compute_clip_similarity (Some SamplesR.unit_x) (Some SamplesR.unit_x) = 1%R.
Proof.
  exact (compute_clip_similarity_self SamplesR.unit_x SamplesR_unit_x_norm).
Defined.

(** ** The orchestrator on an empty corpus, and on a corpus it cannot scan *)
Section OrchestratorCorners.
Context {A : Arith}.
Variable get_clip_features_from_bytes : image_bytes -> option tensor.
Variable format_3f : num -> string.

(** A loaded corpus with no entries gives the empty list for every image. *)
Theorem analyze_image_empty_corpus self image_data spare_parts_data mp :
  stored_features self = Some [] ->
  mapping self = Some mp ->
  analyze_image get_clip_features_from_bytes format_3f
    self image_data spare_parts_data = Ok [].
Proof.
  intros Hf Hm. unfold analyze_image, _fallback_analysis. rewrite Hf, Hm.
  destruct (get_clip_features_from_bytes image_data); reflexivity.
Qed.

(** Whenever the comparison with some stored embedding fails (its width
    differs from the query's and neither width is 1), [analyze_image]
    raises. *)
Theorem analyze_image_raises_when_a_comparison_fails
    self image_data spare_parts_data features mp
    (q : tensor) (sf : pydict tensor) (s : tensor) :
  stored_features self = Some features ->
  mapping self = Some mp ->
  get_clip_features_from_bytes image_data = Some q ->
  In sf features ->
  lookup "clip_features" sf = Some s ->
  length q <> length s -> length q <> 1 -> length s <> 1 ->
  compute_clip_similarity_detailed (Some q) (Some s) = (of_Z 0, []) /\
  exists e,
    analyze_image get_clip_features_from_bytes format_3f
      self image_data spare_parts_data = Raise e.
Proof.
  intros Hf Hm Hq Hin Hl Hne Hq1 Hs1. split.
  - now apply comparator_catches_width_mismatch.
  - now apply (analyze_raises_on_failed_comparison
                 get_clip_features_from_bytes format_3f
                 self image_data spare_parts_data features mp q sf s).
Qed.
End OrchestratorCorners.

Lemma analyze_image_empty_corpus_witness :
  analyze_image (Samples.encoder (Some Samples.unit_x)) Binary64.format_3f
    (Samples.service [] []) [Byte.x07] [] = Ok [].
Proof.
  exact (@analyze_image_empty_corpus Binary64.F64
           (Samples.encoder (Some Samples.unit_x)) Binary64.format_3f
           (Samples.service [] []) [Byte.x07] [] [] eq_refl eq_refl).
Defined.

Lemma analyze_image_raises_witness :
  compute_clip_similarity_detailed
    (Some Samples.unit_x) (Some Samples.wide) = (of_Z 0, []) /\
  exists e,
    analyze_image (Samples.encoder (Some Samples.unit_x)) Binary64.format_3f
      Samples.corpus_bad_width [Byte.x07] [] = Raise e.
Proof.
  apply (@analyze_image_raises_when_a_comparison_fails Binary64.F64
           (Samples.encoder (Some Samples.unit_x)) Binary64.format_3f
           Samples.corpus_bad_width [Byte.x07] []
           (map Samples.entry [Samples.unit_x; Samples.wide])
           (map Samples.part ["SP001"; "SP002"]%string)
           Samples.unit_x (Samples.entry Samples.wide) Samples.wide);
    try reflexivity; try (cbn; lia).
  right. left. reflexivity.
Defined.

(** ** Keypoint serialization: round trip and failures *)
Section SerializationFacts.
Context {A : Arith}.

Lemma deserialize_serialize_one (kp : KeyPoint) :
  deserialize_keypoint (serialize_keypoint kp) = Rebuilt kp.
Proof. destruct kp as [[x y] s a r o c]. reflexivity. Qed.

(** Rebuilding serialized keypoints gives back the keypoints, field by
    field and in order. *)
Theorem deserialize_serialize_keypoints (keypoints : list KeyPoint) :
  deserialize_keypoints (serialize_keypoints keypoints) = Rebuilt keypoints.
Proof.
  induction keypoints as [|kp rest IH]; [reflexivity|].
  cbn [serialize_keypoints map deserialize_keypoints].
  rewrite deserialize_serialize_one. cbn [and_then].
  fold (serialize_keypoints rest). now rewrite IH.
Qed.

Lemma deserialize_keypoint_reads_the_six_keys
    (kp_dict : pydict kpval) (kp : KeyPoint) :
  (forall key, In key keypoint_keys ->
     lookup key kp_dict = lookup key (serialize_keypoint kp)) ->
  deserialize_keypoint kp_dict = Rebuilt kp.
Proof.
  intros H. unfold deserialize_keypoint, field.
  rewrite (H "pt"%string), (H "size"%string), (H "angle"%string),
    (H "response"%string), (H "octave"%string), (H "class_id"%string)
    by (cbn; tauto).
  destruct kp as [[x y] s a r o c]. reflexivity.
Qed.

(** [deserialize_keypoints] reads the six keys and nothing else: dicts
    that hold under the six keys what [serialize_keypoints] writes for
    some keypoints are rebuilt to these keypoints, whatever other keys the
    dicts hold and in whatever order. *)
Theorem deserialize_keypoints_reads_the_six_keys
    (serialized : list (pydict kpval)) (keypoints : list KeyPoint) :
  Forall2
    (fun kp_dict kp =>
       forall key, In key keypoint_keys ->
         lookup key kp_dict = lookup key (serialize_keypoint kp))
    serialized keypoints ->
  deserialize_keypoints serialized = Rebuilt keypoints.
Proof.
  induction 1 as [|kp_dict kp serialized keypoints Hd _ IH];
    [reflexivity|].
  cbn [deserialize_keypoints].
  rewrite (deserialize_keypoint_reads_the_six_keys kp_dict kp Hd).
  cbn [and_then]. now rewrite IH.
Qed.

Lemma deserialize_keypoint_needs_the_key
    (kp_dict : pydict kpval) (key : string) :
  In key keypoint_keys ->
  lookup key kp_dict = None ->
  forall kp, deserialize_keypoint kp_dict <> Rebuilt kp.
Proof.
  intros Hkey Hnone kp. unfold deserialize_keypoint, field.
  destruct (lookup "pt" kp_dict) as [p|] eqn:Ep; cbn [and_then];
    [|discriminate].
  destruct p as [x y| |]; cbn [coordinates and_then]; try discriminate.
  destruct (lookup "size" kp_dict) as [s|] eqn:Es; cbn [and_then];
    [|discriminate].
  destruct (lookup "angle" kp_dict) as [a|] eqn:Ea; cbn [and_then];
    [|discriminate].
  destruct (lookup "response" kp_dict) as [r|] eqn:Er; cbn [and_then];
    [|discriminate].
  destruct (lookup "octave" kp_dict) as [o|] eqn:Eo; cbn [and_then];
    [|discriminate].
  destruct (lookup "class_id" kp_dict) as [c|] eqn:Ec; cbn [and_then];
    [|discriminate].
  exfalso. cbn in Hkey.
  destruct Hkey as [<-|[<-|[<-|[<-|[<-|[<-|[]]]]]]]; congruence.
Qed.

(** A dict that lacks one of the six keys makes the whole rebuilding
    fail: no list is returned, not even of the keypoints before it. *)
Theorem deserialize_keypoints_missing_key
    (serialized : list (pydict kpval)) (d : pydict kpval) (key : string) :
  In d serialized ->
  In key keypoint_keys ->
  lookup key d = None ->
  forall keypoints, deserialize_keypoints serialized <> Rebuilt keypoints.
Proof.
  intros Hin Hkey Hnone.
  induction serialized as [|d0 rest IH]; [destruct Hin|].
  intros keypoints. cbn [deserialize_keypoints].
  destruct (deserialize_keypoint d0) as [kp| |] eqn:Ed; cbn [and_then];
    try discriminate.
  destruct Hin as [->|Hin].
  - now elim (deserialize_keypoint_needs_the_key d key Hkey Hnone kp).
  - destruct (deserialize_keypoints rest) as [ks| |] eqn:Er; cbn [and_then];
      try discriminate.
    now elim (IH Hin ks).
Qed.

Lemma deserialize_keypoint_error_is_sound (d : pydict kpval) (key : string) :
  deserialize_keypoint d = MissingKey key ->
  In key keypoint_keys /\ lookup key d = None.
Proof.
  unfold deserialize_keypoint, field, keypoint_keys.
  destruct (lookup "pt" d) as [p|] eqn:Ep; cbn [and_then];
    [|intros H; inversion H; subst; cbn; tauto].
  destruct p as [x y| |]; cbn [coordinates and_then]; try discriminate.
  destruct (lookup "size" d) as [s|] eqn:Es; cbn [and_then];
    [|intros H; inversion H; subst; cbn; tauto].
  destruct (lookup "angle" d) as [a|] eqn:Ea; cbn [and_then];
    [|intros H; inversion H; subst; cbn; tauto].
  destruct (lookup "response" d) as [r|] eqn:Er; cbn [and_then];
    [|intros H; inversion H; subst; cbn; tauto].
  destruct (lookup "octave" d) as [o|] eqn:Eo; cbn [and_then];
    [|intros H; inversion H; subst; cbn; tauto].
  destruct (lookup "class_id" d) as [c|] eqn:Ec; cbn [and_then];
    [|intros H; inversion H; subst; cbn; tauto].
  destruct s, a, r, o, c; cbn [float_argument int_argument and_then];
    discriminate.
Qed.

(** A [KeyError] of the rebuilding is sound: the key it names is one of
    the six, and some dict of the input lacks it. *)
Theorem deserialize_keypoints_error_is_sound
    (serialized : list (pydict kpval)) (key : string) :
  deserialize_keypoints serialized = MissingKey key ->
  In key keypoint_keys /\
  exists d, In d serialized /\ lookup key d = None.
Proof.
  induction serialized as [|d rest IH]; intros H; [discriminate|].
  cbn [deserialize_keypoints] in H.
  destruct (deserialize_keypoint d) as [kp|k|] eqn:Ed; cbn [and_then] in H.
  - destruct (deserialize_keypoints rest) as [ks|k|]; cbn [and_then] in H;
      try discriminate.
    inversion H; subst k. destruct (IH eq_refl) as [Hk [d' [Hin Hl]]].
    split; [exact Hk|]. exists d'. split; [now right|exact Hl].
  - inversion H; subst k.
    destruct (deserialize_keypoint_error_is_sound d key Ed) as [Hk Hl].
    split; [exact Hk|]. exists d. split; [now left|exact Hl].
  - discriminate.
Qed.
End SerializationFacts.

(** ** The orchestrator: a corpus it cannot read *)
Section UnreadableCorpus.
Context {A : Arith}.
Variable get_clip_features_from_bytes : image_bytes -> option tensor.
Variable format_3f : num -> string.

Lemma scan_missing_clip_features mapping (q : tensor) stored :
  forall i (sf : pydict tensor),
    In sf stored ->
    lookup "clip_features" sf = None ->
    exists e, scan mapping q i stored = Raise e.
Proof.
  induction stored as [|hd rest IH]; intros i sf Hin Hl; [destruct Hin|].
  cbn [scan].
  case_bind; [|eexists; reflexivity].
  case_bind; [|eexists; reflexivity].
  case_bind; [|eexists; reflexivity].
  destruct Hin as [->|Hin].
  - apply getitem_Ok in E. congruence.
  - match goal with
    | |- context [compute_clip_similarity_detailed ?x ?y] =>
        destruct (compute_clip_similarity_detailed x y) as [sim det]
    end.
    case_bind; [|eexists; reflexivity].
    destruct (IH (S i) sf Hin Hl) as [e ->]. eexists; reflexivity.
Qed.

(** A stored entry without the key [clip_features] makes [analyze_image]
    raise once the query has an embedding; when it is the first entry the
    exception is [KeyError('clip_features')]. *)
Theorem analyze_image_entry_without_clip_features
    self image_data spare_parts_data features mp
    (q : tensor) (sf : pydict tensor) :
  stored_features self = Some features ->
  mapping self = Some mp ->
  get_clip_features_from_bytes image_data = Some q ->
  In sf features ->
  lookup "clip_features" sf = None ->
  (exists e,
     analyze_image get_clip_features_from_bytes format_3f
       self image_data spare_parts_data = Raise e) /\
  (nth_error features 0 = Some sf ->
   analyze_image get_clip_features_from_bytes format_3f
     self image_data spare_parts_data = Raise (KeyError "clip_features")).
Proof.
  intros Hf Hm Hq Hin Hl. unfold analyze_image. rewrite Hf, Hm, Hq. split.
  - destruct (scan_missing_clip_features mp q features 0%nat sf Hin Hl)
      as [e ->].
    eexists; reflexivity.
  - intros H0. destruct features as [|hd rest]; [discriminate|].
    cbn in H0. inversion H0; subst hd.
    cbn [scan]. unfold getitem at 1. rewrite Hl. reflexivity.
Qed.

Lemma scan_short_mapping mapping (q : tensor) (stored : list (pydict tensor)) :
  (forall sf : pydict tensor, In sf stored ->
     exists s : tensor,
       lookup "clip_features" sf = Some s /\ length s = length q) ->
  (forall part, In part mapping ->
     exists v, lookup "material_number" part = Some v) ->
  forall i,
    i <= length mapping ->
    length mapping < i + length stored ->
    scan mapping q i stored = Raise IndexError.
Proof.
  intros Hstored Hmap. induction stored as [|hd rest IH]; intros i Hi Hlen.
  - cbn in Hlen. lia.
  - destruct (Hstored hd (or_introl eq_refl)) as (s & Hs & Hw).
    cbn [scan]. case_bind.
    2:{ unfold getitem in E. rewrite Hs in E. discriminate. }
    apply getitem_Ok in E. rewrite Hs in E. symmetry in E.
    inversion E; subst. clear E.
    unfold index.
    destruct (nth_error mapping i) as [part|] eqn:Ei; [|reflexivity].
    cbn [bind].
    destruct (Hmap part (nth_error_In _ _ Ei)) as [v Hv].
    rewrite (lookup_getitem _ _ _ Hv). cbn [bind].
    unfold compute_clip_similarity_detailed.
    rewrite (cosine_similarity_same_width q s (eq_sym Hw)).
    cbn [bind getitem lookup String.eqb].
    assert (Hi' : i < length mapping)
      by (apply nth_error_Some; now rewrite Ei).
    rewrite (IH (fun sf H => Hstored sf (or_intror H)) (S i));
      [reflexivity| |]; cbn [length] in Hlen; lia.
Qed.

(** When the metadata has fewer positions than the archive has entries
    (all of them well formed), [analyze_image] raises [IndexError] for
    every query that has an embedding of the stored width. *)
Theorem analyze_image_short_mapping
    self image_data spare_parts_data features mp (q : tensor) :
  stored_features self = Some features ->
  mapping self = Some mp ->
  get_clip_features_from_bytes image_data = Some q ->
  (forall sf : pydict tensor, In sf features ->
     exists s : tensor,
       lookup "clip_features" sf = Some s /\ length s = length q) ->
  (forall part, In part mp ->
     exists v, lookup "material_number" part = Some v) ->
  length mp < length features ->
  analyze_image get_clip_features_from_bytes format_3f
    self image_data spare_parts_data = Raise IndexError.
Proof.
  intros Hf Hm Hq Hstored Hmap Hlen. unfold analyze_image.
  rewrite Hf, Hm, Hq.
  rewrite (scan_short_mapping mp q features Hstored Hmap 0%nat);
    [reflexivity| |]; lia.
Qed.

End UnreadableCorpus.

(** ** The embedding comparator: score and details *)
Section ComparatorDetails.
Context {A : Arith}.

(** The two comparators agree on the score, and the details of the
    second either are empty (the comparison failed and the score is 0) or
    hold the cosine, the score and the width of the query. *)
Theorem compute_clip_similarity_detailed_agrees (a b : option tensor) :
  fst (compute_clip_similarity_detailed a b) = compute_clip_similarity a b /\
  ((snd (compute_clip_similarity_detailed a b) = [] /\
    compute_clip_similarity a b = of_Z 0) \/
   (exists x y cos,
       a = Some x /\ b = Some y /\ cosine_similarity x y = Ok cos /\
       snd (compute_clip_similarity_detailed a b) =
         [ ("cosine_similarity"%string, PyFloat cos);
           ("normalized_similarity"%string,
             PyFloat (compute_clip_similarity a b));
           ("feature_dimensions"%string,
             PyInt (Z.of_nat (length x))) ])).
Proof.
  split; [apply detailed_score|].
  unfold compute_clip_similarity_detailed, compute_clip_similarity.
  destruct a as [x|], b as [y|]; try (left; split; reflexivity).
  destruct (cosine_similarity x y) as [cos|e] eqn:Hc.
  - right. exists x, y, cos. repeat split; assumption.
  - left. split; reflexivity.
Qed.
End ComparatorDetails.

(** ** The local similarity scorers: what the details record *)
Section ScorerDetails.
Context {A : Arith}.
Variable knnMatch :
  descriptors -> descriptors -> nat -> result (list (list DMatch)).

Lemma ratio_test_length (ratio : num) (matches : list (list DMatch)) :
  length (ratio_test ratio matches) <= length matches.
Proof.
  induction matches as [|pair rest IH]; [cbn; lia|].
  cbn [ratio_test flat_map]. fold (ratio_test ratio rest).
  rewrite length_app. cbn [length].
  destruct pair as [|m [|n [|x tl]]]; cbn [length]; try lia.
  destruct (ltb (distance m) (mul ratio (distance n))); cbn [length]; lia.
Qed.

(** The details of the detailed scorer are empty only together with the
    score 0.  Otherwise the matcher has answered for the two descriptor
    sets, both keypoint lists are non-empty, and the details record the
    number of pairs in the matcher's answer, the number of those that
    pass the ratio test at 0.7 (at most the number of pairs), the two
    keypoint counts as given, their minimum, and the ratio of the
    accepted correspondences to that minimum. *)
Theorem compute_image_similarity_detailed_counts
    (qk : list KeyPoint) (qd : option descriptors)
    (sk : list KeyPoint) (sd : option descriptors) :
  (snd (compute_image_similarity_detailed knnMatch qk qd sk sd) = [] /\
   fst (compute_image_similarity_detailed knnMatch qk qd sk sd) = of_Z 0) \/
  (exists qd' sd' matches,
     qd = Some qd' /\ sd = Some sd' /\
     knnMatch qd' sd' 2 = Ok matches /\
     0 < Nat.min (length qk) (length sk) /\
     length (ratio_test (decimal 7 1) matches) <= length matches /\
     let details :=
       snd (compute_image_similarity_detailed knnMatch qk qd sk sd) in
     lookup "total_matches" details =
       Some (PyInt (Z.of_nat (length matches))) /\
     lookup "good_matches" details =
       Some (PyInt (Z.of_nat (length (ratio_test (decimal 7 1) matches)))) /\
     lookup "query_keypoints" details =
       Some (PyInt (Z.of_nat (length qk))) /\
     lookup "stored_keypoints" details =
       Some (PyInt (Z.of_nat (length sk))) /\
     lookup "min_keypoints" details =
       Some (PyInt (Z.of_nat (Nat.min (length qk) (length sk)))) /\
     lookup "match_ratio" details =
       Some (PyFloat
               (div (of_nat (length (ratio_test (decimal 7 1) matches)))
                    (of_nat (Nat.min (length qk) (length sk)))))).
Proof.
  unfold compute_image_similarity_detailed.
  destruct qd as [qd|], sd as [sd|]; try (left; split; reflexivity).
  destruct (knnMatch qd sd 2) as [matches|e] eqn:Hm; cbn [bind];
    [|left; split; reflexivity].
  destruct (Nat.eqb_spec (Nat.min (length qk) (length sk)) 0) as [E|E];
    [left; split; reflexivity|].
  right. exists qd, sd, matches.
  split; [reflexivity|]. split; [reflexivity|]. split; [exact Hm|].
  split; [lia|]. split; [apply ratio_test_length|].
  cbn. repeat split; reflexivity.
Qed.
End ScorerDetails.

(** ** The local similarity scorers in exact arithmetic *)
Section ScorerOrder.
Import Exact.
Local Open Scope R_scope.
Variable knnMatch :
  descriptors -> descriptors -> nat -> result (list (list (@DMatch RArith))).

(** The score 0 means that no comparison took place: a descriptor set is
    missing, a keypoint list is empty, or the matcher call raised.  This
    holds for both scorers, read in exact arithmetic. *)
Theorem compute_image_similarity_zero_iff
    (qk : list (@KeyPoint RArith)) (qd : option descriptors)
    (sk : list (@KeyPoint RArith)) (sd : option descriptors) :
  let no_comparison :=
    qd = None \/ sd = None \/ qk = [] \/ sk = [] \/
    exists qd' sd' e,
      qd = Some qd' /\ sd = Some sd' /\ knnMatch qd' sd' 2%nat = Raise e in
  (compute_image_similarity knnMatch qk qd sk sd = 0 <-> no_comparison) /\
  (fst (compute_image_similarity_detailed knnMatch qk qd sk sd) = 0 <->
   no_comparison).
Proof.
  cbv zeta.
  destruct qd as [qd|];
    [|split; (split; [intros _; now left|intros _; reflexivity])].
  destruct sd as [sd|];
    [|split; (split; [intros _; right; now left|intros _; reflexivity])].
  destruct (knnMatch qd sd 2%nat) as [matches|e] eqn:Hm.
  - destruct qk as [|kq qk'].
    { split; (split; [intros _; right; right; now left|intros _]).
      - unfold compute_image_similarity. now rewrite Hm.
      - unfold compute_image_similarity_detailed. now rewrite Hm. }
    destruct sk as [|ks sk'].
    { split; (split; [intros _; right; right; right; now left|intros _]).
      - unfold compute_image_similarity. rewrite Hm. cbn [bind].
        now rewrite Nat.min_0_r.
      - unfold compute_image_similarity_detailed. rewrite Hm. cbn [bind].
        now rewrite Nat.min_0_r. }
    assert (Hq : (0 < length (kq :: qk'))%nat) by (cbn; lia).
    assert (Hs : (0 < length (ks :: sk'))%nat) by (cbn; lia).
    rewrite (compute_image_similarity_value knnMatch _ _ qd sd matches Hm Hq Hs).
    rewrite (compute_image_similarity_detailed_value
               knnMatch _ _ qd sd matches Hm Hq Hs).
    split; (split; [intros H|intros [H|[H|[H|[H|H]]]]; try discriminate]).
    + match type of H with
      | sigmoid_score ?x = _ => pose proof (sigmoid_score_bounds x)
      end. lra.
    + destruct H as (qd' & sd' & e & H1 & H2 & H3).
      inversion H1; inversion H2; subst. congruence.
    + match type of H with
      | sigmoid_score ?x = _ => pose proof (sigmoid_score_bounds x)
      end. lra.
    + destruct H as (qd' & sd' & e & H1 & H2 & H3).
      inversion H1; inversion H2; subst. congruence.
  - split; (split; [intros _; do 4 right; now exists qd, sd, e|intros _]).
    + now rewrite (compute_image_similarity_raise knnMatch qk sk qd sd e Hm).
    + unfold compute_image_similarity_detailed. now rewrite Hm.
Qed.

Lemma ratio_test_stricter (matches : list (list (@DMatch RArith))) :
  (forall pair m, In pair matches -> In m pair -> 0 <= distance m) ->
  (length (ratio_test (decimal 7 1) matches) <=
   length (ratio_test (decimal 8 1) matches))%nat.
Proof.
  induction matches as [|pair rest IH]; intros Hd; [cbn; lia|].
  cbn [ratio_test flat_map].
  fold (ratio_test (A := RArith) (decimal 7 1) rest).
  fold (ratio_test (A := RArith) (decimal 8 1) rest).
  rewrite !length_app.
  assert (IH' := IH (fun p m Hp => Hd p m (or_intror Hp))).
  destruct pair as [|m [|n [|x tl]]]; cbn [length]; try lia.
  assert (Hn : 0 <= distance n)
    by (apply (Hd [m; n]); [now left|right; now left]).
  cbn [ltb mul RArith]. rewrite !decimal_R. rewrite !decimal_R in IH'.
  change (10 ^ Z.of_nat 1)%Z with 10%Z in *. unfold Rltb.
  destruct (Rlt_dec (distance m) (7 / 10 * distance n)) as [H7|H7],
           (Rlt_dec (distance m) (8 / 10 * distance n)) as [H8|H8];
    cbn [length]; try lia.
  exfalso. apply H8. lra.
Qed.

Lemma sigmoid_score_monotone (x y : R) :
  x <= y -> sigmoid_score (A := RArith) x <= sigmoid_score (A := RArith) y.
Proof.
  intros [H| ->]; [left; now apply sigmoid_score_increasing|right; reflexivity].
Qed.

(** The detailed scorer never scores a pair higher than the primary one,
    read in exact arithmetic, as long as the distances the matcher reports
    are not negative: its ratio test accepts fewer correspondences and its
    blend is at most the ratio to the smaller count. *)
Theorem detailed_score_at_most_primary
    (qk : list (@KeyPoint RArith)) (qd : option descriptors)
    (sk : list (@KeyPoint RArith)) (sd : option descriptors) :
  (forall qd' sd' matches pair m,
      knnMatch qd' sd' 2%nat = Ok matches ->
      In pair matches -> In m pair -> 0 <= distance m) ->
  fst (compute_image_similarity_detailed knnMatch qk qd sk sd) <=
  compute_image_similarity knnMatch qk qd sk sd.
Proof.
  intros Hd.
  destruct qd as [qd|]; [|right; reflexivity].
  destruct sd as [sd|]; [|right; reflexivity].
  destruct (knnMatch qd sd 2%nat) as [matches|e] eqn:Hm.
  2:{ unfold compute_image_similarity_detailed, compute_image_similarity.
      rewrite Hm. right. reflexivity. }
  destruct (Nat.eq_dec (Nat.min (length qk) (length sk)) 0) as [E|E].
  { unfold compute_image_similarity_detailed, compute_image_similarity.
    rewrite Hm. cbn [bind]. rewrite E. right. reflexivity. }
  assert (Hq : (0 < length qk)%nat) by lia.
  assert (Hs : (0 < length sk)%nat) by lia.
  rewrite (compute_image_similarity_value knnMatch qk sk qd sd matches Hm Hq Hs).
  rewrite (compute_image_similarity_detailed_value
             knnMatch qk sk qd sd matches Hm Hq Hs).
  apply sigmoid_score_monotone.
  pose proof (ratio_test_stricter matches
                (fun pair m => Hd qd sd matches pair m Hm)) as Hle.
  set (g7 := length (ratio_test (decimal 7 1) matches)) in *.
  set (g8 := length (ratio_test (decimal 8 1) matches)) in *.
  set (s := Nat.min (length qk) (length sk)) in *.
  set (l := Nat.max (length qk) (length sk)).
  assert (Hsl : (s <= l)%nat) by (subst s l; lia).
  assert (Hs0 : (0 < s)%nat) by (subst s; lia).
  cbn [add mul div RArith]. rewrite !decimal_R, !of_nat_R.
  change (10 ^ Z.of_nat 1)%Z with 10%Z.
  assert (Hs' : 0 < INR s) by (now apply (lt_INR 0)).
  assert (Hl' : INR s <= INR l) by (now apply le_INR).
  assert (Hg7 : 0 <= INR g7) by apply pos_INR.
  assert (Hg : INR g7 <= INR g8) by (now apply le_INR).
  assert (H1 : INR g7 / INR l <= INR g7 / INR s).
  { unfold Rdiv. apply Rmult_le_compat_l; [exact Hg7|].
    apply Rinv_le_contravar; assumption. }
  assert (H2 : INR g7 / INR s <= INR g8 / INR s).
  { unfold Rdiv. apply Rmult_le_compat_r; [|exact Hg].
    left. now apply Rinv_0_lt_compat. }
  lra.
Qed.
End ScorerOrder.

(** ** Sorting by descending key, in any arithmetic *)
Section SortAny.
Context {A : Arith} {T : Type} (key : T -> num).

Lemma insert_desc_rearranges (x : T) (l : list T) :
  Permutation (insert_desc key x l) (x :: l).
Proof.
  induction l as [|y l IH]; cbn [insert_desc]; [reflexivity|].
  destruct (ltb (key x) (key y)); [|reflexivity].
  rewrite IH. apply perm_swap.
Qed.

(** Whatever the comparison answers (on NaN, say), sorting only
    rearranges. *)
Lemma sort_reverse_rearranges (l : list T) :
  Permutation (sort_reverse key l) l.
Proof.
  induction l as [|x l IH]; [reflexivity|].
  cbn [sort_reverse fold_right]. fold (sort_reverse key l).
  rewrite insert_desc_rearranges. now constructor.
Qed.
End SortAny.

(** ** The keypoint extractor: the shape of every result *)
Section ExtractorShape.
Context {A : Arith}.
Variable image : Type.
Variable imdecode : image_bytes -> result (option image).
Variable preprocess : image -> result image.
Variable detectAndCompute :
  image -> result (list KeyPoint * option descriptors).
Variable compute :
  image -> list KeyPoint -> result (list KeyPoint * option descriptors).

(** Whatever OpenCV does, the extractor returns both parts or neither:
    [(None, None)], or keypoints together with non-null descriptors.  The
    keypoints it returns are detected ones, at least 10 and at most 1000
    of them: all when at most 1000 were detected, and 1000 otherwise. *)
Theorem get_image_features_both_or_neither (bytes : image_bytes) :
  get_image_features_from_bytes
    imdecode preprocess detectAndCompute compute bytes = (None, None) \/
  exists kps rows img gray detected rows0,
    get_image_features_from_bytes
      imdecode preprocess detectAndCompute compute bytes =
      (Some kps, Some rows) /\
    imdecode bytes = Ok (Some img) /\
    preprocess img = Ok gray /\
    detectAndCompute gray = Ok (detected, Some rows0) /\
    10 <= length detected /\
    length kps = Nat.min 1000 (length detected) /\
    (forall kp, In kp kps -> In kp detected) /\
    (length detected <= 1000 -> kps = detected /\ rows = rows0).
Proof.
  unfold get_image_features_from_bytes, extract.
  destruct (imdecode bytes) as [[img|]|e] eqn:Hi; cbn [bind];
    try (left; reflexivity).
  destruct (preprocess img) as [gray|e] eqn:Hp; cbn [bind];
    try (left; reflexivity).
  destruct (detectAndCompute gray) as [[detected [rows0|]]|e] eqn:Hd;
    cbn [bind]; try (left; reflexivity).
  destruct (Nat.ltb_spec (length detected) 10) as [Hfew|Hten];
    [left; reflexivity|].
  destruct (Nat.ltb_spec 1000 (length detected)) as [Hmany|Hle].
  - unfold filter_strongest.
    rewrite <- firstn_map, sort_reverse_decorated.
    destruct (compute gray (firstn 1000 (sort_reverse response detected)))
      as [[kps' [rows|]]|e] eqn:Hc; cbn [bind shape];
      try (left; reflexivity).
    right.
    exists (firstn 1000 (sort_reverse response detected)), rows, img, gray,
      detected, rows0.
    repeat split; try assumption; try lia.
    + rewrite length_firstn.
      rewrite (Permutation_length (sort_reverse_rearranges response detected)).
      reflexivity.
    + intros kp Hkp.
      apply (Permutation_in kp (sort_reverse_rearranges response detected)).
      rewrite <- (firstn_skipn 1000 (sort_reverse response detected)).
      apply in_or_app. now left.
  - cbn [bind shape]. right.
    exists detected, rows0, img, gray, detected, rows0.
    repeat split; try assumption; try lia. auto.
Qed.
End ExtractorShape.

(** ** Sample runs: serialized keypoints and unreadable corpora *)

Lemma Cases_kp_dict_agrees :
  forall key, In key keypoint_keys ->
    lookup key Cases.kp_dict = lookup key (serialize_keypoint Cases.kp).
Proof.
  intros key [<-|[<-|[<-|[<-|[<-|[<-|[]]]]]]]; reflexivity.
Qed.

Lemma deserialize_keypoints_reads_the_six_keys_witness :
  deserialize_keypoints [Cases.kp_dict] = Rebuilt [Cases.kp].
Proof.
  exact (@deserialize_keypoints_reads_the_six_keys Binary64.F64
           [Cases.kp_dict] [Cases.kp]
           (Forall2_cons _ _ Cases_kp_dict_agrees (Forall2_nil _))).
Defined.

Lemma deserialize_keypoints_missing_key_witness :
  lookup "size" Cases.kp_dict_without_size = None /\
  forall keypoints,
    deserialize_keypoints [Cases.kp_dict; Cases.kp_dict_without_size] <>
    Rebuilt keypoints.
Proof.
  split; [reflexivity|].
  apply (@deserialize_keypoints_missing_key Binary64.F64
           [Cases.kp_dict; Cases.kp_dict_without_size]
           Cases.kp_dict_without_size "size").
  - right. left. reflexivity.
  - right. left. reflexivity.
  - reflexivity.
Defined.

Lemma deserialize_keypoints_error_is_sound_witness :
  In "size"%string keypoint_keys /\
  exists d,
    In d [Cases.kp_dict; Cases.kp_dict_without_size] /\
    lookup "size" d = None.
Proof.
  exact (@deserialize_keypoints_error_is_sound Binary64.F64
           [Cases.kp_dict; Cases.kp_dict_without_size] "size" eq_refl).
Defined.

Lemma analyze_image_entry_without_clip_features_witness :
  (exists e,
     analyze_image (Samples.encoder (Some Samples.unit_x)) Binary64.format_3f
       Cases.corpus_of_descriptors [Byte.x07] [] = Raise e) /\
  (nth_error [ [ ("descriptors"%string, Samples.unit_x) ] ] 0 =
     Some [ ("descriptors"%string, Samples.unit_x) ] ->
   analyze_image (Samples.encoder (Some Samples.unit_x)) Binary64.format_3f
     Cases.corpus_of_descriptors [Byte.x07] [] =
   Raise (KeyError "clip_features")).
Proof.
  apply (@analyze_image_entry_without_clip_features Binary64.F64
           (Samples.encoder (Some Samples.unit_x)) Binary64.format_3f
           Cases.corpus_of_descriptors [Byte.x07] []
           [ [ ("descriptors"%string, Samples.unit_x) ] ]
           [ Samples.part "SP001" ] Samples.unit_x
           [ ("descriptors"%string, Samples.unit_x) ]);
    try reflexivity.
  left. reflexivity.
Defined.

Lemma analyze_image_short_mapping_witness :
  analyze_image (Samples.encoder (Some Samples.unit_x)) Binary64.format_3f
    Cases.corpus_short_mapping [Byte.x07] [] = Raise IndexError.
Proof.
  apply (@analyze_image_short_mapping Binary64.F64
           (Samples.encoder (Some Samples.unit_x)) Binary64.format_3f
           Cases.corpus_short_mapping [Byte.x07] []
           (map Samples.entry [Samples.unit_x; Samples.unit_x])
           (map Samples.part ["SP001"%string]) Samples.unit_x);
    try reflexivity.
  - intros sf [<-|[<-|[]]]; exists Samples.unit_x; split; reflexivity.
  - intros part [<-|[]]. eexists. reflexivity.
  - cbn. lia.
Defined.

Lemma SamplesR_distances (good : nat) :
  forall (qd sd : @descriptors Exact.RArith) matches pair m,
    SamplesR.matcher good qd sd 2 = Ok matches ->
    In pair matches -> In m pair -> (0 <= distance m)%R.
Proof.
  intros qd sd matches pair m H Hp Hm. unfold SamplesR.matcher in H.
  inversion H; subst matches. apply repeat_spec in Hp. subst pair.
  destruct Hm as [<-|[<-|[]]]; cbn; lra.
Qed.

Lemma detailed_score_at_most_primary_witness :
  (fst (compute_image_similarity_detailed (SamplesR.matcher 3)
          (SamplesR.keypoints 10) (Some (SamplesR.rows 10))
          (SamplesR.keypoints 20) (Some (SamplesR.rows 20))) <=
   compute_image_similarity (SamplesR.matcher 3)
     (SamplesR.keypoints 10) (Some (SamplesR.rows 10))
     (SamplesR.keypoints 20) (Some (SamplesR.rows 20)))%R.
Proof.
  exact (detailed_score_at_most_primary (SamplesR.matcher 3)
           (SamplesR.keypoints 10) (Some (SamplesR.rows 10))
           (SamplesR.keypoints 20) (Some (SamplesR.rows 20))
           (SamplesR_distances 3)).
Defined.

(** ** The corpus builder *)
Section BuilderFacts.
Context {A : Arith}.
Variable encode : string -> result tensor.
Variable stem : string -> string.

(** The metadata that the builder writes for the file at position [k]
    (from 0) among the encoded ones. *)
Local Abbreviation metadata k rel_path :=
  [ ("part_id"%string, PyInt (Z.of_nat k + 1));
    ("material_number"%string, PyStr (stem rel_path));
    ("description"%string, PyStr ("Part " ++ stem rel_path));
    ("image_path"%string, PyStr ("images/" ++ rel_path));
    ("feature_index"%string, PyInt (Z.of_nat k)) ].

Lemma process_images_appends (image_files : list string) :
  forall (features_list : list (pydict tensor))
         (mapping : list (pydict pyval)),
    length mapping = length features_list ->
    exists features' mapping',
      process_images encode stem image_files features_list mapping =
        (features_list ++ features', mapping ++ mapping') /\
      length features' = length (encoded encode image_files) /\
      length mapping' = length (encoded encode image_files) /\
      forall k rel_path t,
        nth_error (encoded encode image_files) k = Some (rel_path, t) ->
        nth_error features' k = Some (features_dict t) /\
        nth_error mapping' k =
          Some (metadata (length features_list + k) rel_path).
Proof.
  induction image_files as [|rel_path rest IH]; intros fl mp Hlen.
  - exists [], []. cbn. rewrite !app_nil_r.
    split; [reflexivity|]. split; [reflexivity|]. split; [reflexivity|].
    intros [|k] p t H; discriminate.
  - cbn [process_images encoded flat_map].
    fold (encoded encode rest).
    destruct (encode rel_path) as [t|e] eqn:He.
    + destruct (IH (fl ++ [features_dict t])
                   (mp ++ [mapping_entry stem (fl ++ [features_dict t])
                                         rel_path]))
        as (f' & m' & Hp & Hf & Hm & Hk).
      { rewrite !length_app. cbn. lia. }
      exists (features_dict t :: f'),
             (mapping_entry stem (fl ++ [features_dict t]) rel_path :: m').
      rewrite Hp, <- !app_assoc. cbn [app length].
      split; [reflexivity|]. split; [lia|]. split; [lia|].
      intros [|k] p t0 H; cbn [nth_error] in *.
      * inversion H; subst. split; [reflexivity|].
        unfold mapping_entry. rewrite length_app. cbn [length].
        rewrite Nat.add_0_r.
        replace (Z.of_nat (length fl + 1) - 1)%Z
          with (Z.of_nat (length fl)) by lia.
        replace (Z.of_nat (length fl + 1))
          with (Z.of_nat (length fl) + 1)%Z by lia.
        reflexivity.
      * destruct (Hk k p t0 H) as [Hf' Hm']. split; [exact Hf'|].
        rewrite Hm', length_app. cbn [length].
        replace (length fl + 1 + k) with (length fl + S k) by lia.
        reflexivity.
    + cbn [app]. exact (IH fl mp Hlen).
Qed.

(** What the builder saves is aligned: the archive and the metadata have
    one entry per file that could be encoded, in the order of the files;
    entry [k] of the archive holds the embedding of the file and entry [k]
    of the metadata names it, with [feature_index] [k] and [part_id]
    [k + 1].  A file whose encoding raised leaves no entry in either. *)
Theorem compute_clip_embeddings_aligned
    (from_pretrained : result unit) (images_root : option (list string))
    (features : list (pydict tensor)) (mp : list (pydict pyval)) :
  compute_clip_embeddings encode stem from_pretrained images_root =
    Some (features, mp) ->
  exists image_files,
    images_root = Some image_files /\
    0 < length features /\
    length features = length (encoded encode image_files) /\
    length mp = length (encoded encode image_files) /\
    forall k rel_path t,
      nth_error (encoded encode image_files) k = Some (rel_path, t) ->
      nth_error features k = Some [ ("clip_features"%string, t) ] /\
      nth_error mp k = Some (metadata k rel_path).
Proof.
  unfold compute_clip_embeddings.
  destruct from_pretrained as [[]|e]; [|discriminate].
  destruct images_root as [image_files|]; [|discriminate].
  destruct image_files as [|f0 rest] eqn:Ef; [discriminate|].
  rewrite <- Ef.
  destruct (process_images_appends image_files [] [] eq_refl)
    as (f' & m' & Hp & Hf & Hm & Hk).
  rewrite Hp. cbn [app].
  destruct f' as [|d f']; [discriminate|].
  intros H. inversion H; subst features mp. clear H.
  exists image_files.
  split; [reflexivity|]. split; [cbn; lia|]. split; [exact Hf|].
  split; [exact Hm|]. intros k rel_path t Hkt.
  exact (Hk k rel_path t Hkt).
Qed.

(** The builder saves exactly when the model loaded, the image directory
    exists and at least one of its image files could be encoded. *)
Theorem compute_clip_embeddings_saves_iff
    (from_pretrained : result unit) (images_root : option (list string)) :
  compute_clip_embeddings encode stem from_pretrained images_root <> None <->
  exists image_files rel_path t,
    from_pretrained = Ok tt /\
    images_root = Some image_files /\
    In rel_path image_files /\ encode rel_path = Ok t.
Proof.
  unfold compute_clip_embeddings. split.
  - destruct from_pretrained as [[]|e]; [|intros H; now elim H].
    destruct images_root as [image_files|]; [|intros H; now elim H].
    destruct image_files as [|f0 rest] eqn:Ef; [intros H; now elim H|].
    rewrite <- Ef.
    destruct (process_images_appends image_files [] [] eq_refl)
      as (f' & m' & Hp & Hf & Hm & Hk).
    rewrite Hp. cbn [app].
    destruct f' as [|d f']; [intros H; now elim H|]. intros _.
    destruct (encoded encode image_files) as [|[rel_path t] l] eqn:El;
      [discriminate|].
    exists image_files, rel_path, t.
    split; [reflexivity|]. split; [reflexivity|].
    assert (Hin : In (rel_path, t) (encoded encode image_files))
      by (rewrite El; now left).
    unfold encoded in Hin. apply in_flat_map in Hin.
    destruct Hin as (p & Hp1 & Hp2).
    destruct (encode p) as [t'|e'] eqn:Hp3; [|destruct Hp2].
    destruct Hp2 as [Hp2|[]]. inversion Hp2; subst. now split.
  - intros (image_files & rel_path & t & -> & -> & Hin & He).
    destruct image_files as [|f0 rest] eqn:Ef; [destruct Hin|].
    rewrite <- Ef in *.
    destruct (process_images_appends image_files [] [] eq_refl)
      as (f' & m' & Hp & Hf & Hm & Hk).
    rewrite Hp. cbn [app].
    destruct f' as [|d f']; [|discriminate].
    exfalso.
    assert (Hin' : In (rel_path, t) (encoded encode image_files)).
    { unfold encoded. apply in_flat_map. exists rel_path.
      split; [exact Hin|]. rewrite He. now left. }
    destruct (encoded encode image_files); [destruct Hin'|discriminate].
Qed.
End BuilderFacts.

(** ** The orchestrator in any arithmetic *)
Section OrchestratorAny.
Context {A : Arith}.
Variable get_clip_features_from_bytes : image_bytes -> option tensor.
Variable format_3f : num -> string.

(** An entry is recorded only after its cosine was read from the
    details. *)
Lemma scan_records_the_cosine (mp : list (pydict pyval)) (q : tensor)
    (stored : list (pydict tensor)) :
  forall i sims,
    scan mp q i stored = Ok sims ->
    forall k sim det,
      nth_error sims k = Some (sim, det) ->
      exists v, lookup "cosine_similarity" det = Some v.
Proof.
  induction stored as [|hd rest IH]; intros i sims H.
  - cbn in H. inversion H; subst. intros [|k] sim det Hk; discriminate.
  - cbn [scan] in H. revert H.
    case_bind; [|discriminate].
    case_bind; [|discriminate].
    case_bind; [|discriminate].
    match goal with
    | |- context [compute_clip_similarity_detailed ?x ?y] =>
        destruct (compute_clip_similarity_detailed x y) as [sim0 det0]
    end.
    case_bind; [|discriminate].
    case_bind; [|discriminate].
    intros H. inversion H; subst. clear H.
    intros [|k] sim det Hk; cbn [nth_error] in Hk.
    + inversion Hk; subst. apply getitem_Ok in E2. now exists a2.
    + exact (IH (S i) a3 E3 k sim det Hk).
Qed.

Lemma analyze_image_at_most_one self image_data spare_parts_data l :
  analyze_image get_clip_features_from_bytes format_3f
    self image_data spare_parts_data = Ok l ->
  length l <= 1.
Proof.
  unfold analyze_image, _fallback_analysis.
  destruct (stored_features self) as [features|];
    [|intros H; inversion H; cbn; lia].
  destruct (mapping self) as [mp|]; [|intros H; inversion H; cbn; lia].
  destruct (get_clip_features_from_bytes image_data) as [q|];
    [|intros H; inversion H; cbn; lia].
  case_bind; [|discriminate]. case_bind; [|discriminate].
  destruct (sort_reverse confidence_score a0);
    intros H; inversion H; cbn; lia.
Qed.

(** What a reported match is. *)
Lemma analyze_image_reports self image_data spare_parts_data
    (features : list (pydict tensor)) mp (q : tensor) l :
  stored_features self = Some features ->
  mapping self = Some mp ->
  get_clip_features_from_bytes image_data = Some q ->
  analyze_image get_clip_features_from_bytes format_3f
    self image_data spare_parts_data = Ok l ->
  forall m, In m l ->
    exists k (sf : pydict tensor) (s : tensor) part,
      nth_error features k = Some sf /\
      lookup "clip_features" sf = Some s /\
      nth_error mp k = Some part /\
      lookup "material_number" part = Some (material_number m) /\
      confidence_score m = compute_clip_similarity (Some q) (Some s) /\
      geb (confidence_score m) (decimal 9 1) = true /\
      match_reason m =
        ("CLIP semantic matching: " ++ format_3f (confidence_score m))%string
      /\
      details m = snd (compute_clip_similarity_detailed (Some q) (Some s)) /\
      exists v, lookup "cosine_similarity" (details m) = Some v.
Proof.
  intros Hf Hm Hq H. unfold analyze_image in H. rewrite Hf, Hm, Hq in H.
  revert H. case_bind; [|discriminate]. case_bind; [|discriminate].
  rename a into sims, a0 into valid, E into Hscan, E0 into Hcollect.
  destruct (sort_reverse confidence_score valid) as [|best rest] eqn:Hsort;
    intros H; inversion H; subst; clear H; intros m Hin; [destruct Hin|].
  destruct Hin as [<-|[]].
  assert (Hbest : In best valid).
  { apply (Permutation_in best
             (sort_reverse_rearranges confidence_score valid)).
    rewrite Hsort. now left. }
  destruct (scan_Ok mp q features 0%nat sims Hscan) as [Hlen Hscanned].
  destruct (collect_Ok format_3f mp sims 0%nat valid Hcollect)
    as [Hvalid _].
  destruct (Hvalid best Hbest) as (k & part & K1 & K2 & K3 & K4 & K5).
  cbn [Nat.add] in K3.
  assert (Hk : k < length features).
  { rewrite <- Hlen. apply nth_error_Some. now rewrite K1. }
  destruct (nth_error features k) as [sf|] eqn:Ek;
    [|apply nth_error_None in Ek; lia].
  destruct (Hscanned k sf Ek) as (s & part' & v & S1 & S2 & S3 & S4).
  exists k, sf, s, part.
  split; [exact Ek|]. split; [exact S1|]. split; [exact K3|].
  assert (Hpair : (confidence_score best, details best) =
                  compute_clip_similarity_detailed (Some q) (Some s))
    by congruence.
  split; [exact K4|]. split; [|split; [exact K2|split; [exact K5|split]]].
  - rewrite <- (detailed_score (Some q) (Some s)), <- Hpair. reflexivity.
  - now rewrite <- Hpair.
  - exact (scan_records_the_cosine mp q features 0%nat sims Hscan k
             (confidence_score best) (details best) K1).
Qed.

(** A comparable corpus is scanned and ranked without an exception. *)
Lemma analyze_image_runs self image_data spare_parts_data
    (features : list (pydict tensor)) mp (q : tensor) :
  stored_features self = Some features ->
  mapping self = Some mp ->
  get_clip_features_from_bytes image_data = Some q ->
  comparable features mp q ->
  exists l,
    analyze_image get_clip_features_from_bytes format_3f
      self image_data spare_parts_data = Ok l.
Proof.
  intros Hf Hm Hq Hc. unfold analyze_image. rewrite Hf, Hm, Hq.
  destruct (scan_comparable mp q features 0%nat) as [sims Hs].
  { intros k sf Hk. destruct (Hc k sf Hk) as (s & part & v & K).
    exists s, part, v. exact K. }
  rewrite Hs. cbn [bind].
  destruct (scan_Ok mp q features 0%nat sims Hs) as [Hlen _].
  destruct (collect_total format_3f mp sims 0%nat) as [ms Hms].
  { intros k Hk. rewrite Hlen in Hk.
    destruct (nth_error features k) as [sf|] eqn:Ek.
    - destruct (Hc k sf Ek) as (s & part & v & _ & _ & K1 & K2).
      exists part, v. now split.
    - apply nth_error_None in Ek. lia. }
  rewrite Hms. cbn [bind].
  destruct (sort_reverse confidence_score ms); eexists; reflexivity.
Qed.
End OrchestratorAny.

(** ** The builder and the orchestrator together *)
Section BuiltCorpus.
Context {A : Arith}.
Variable get_clip_features_from_bytes : image_bytes -> option tensor.
Variable format_3f : num -> string.
Variable encode : string -> result tensor.
Variable stem : string -> string.

Lemma encoded_In (image_files : list string) rel_path (t : tensor) :
  In (rel_path, t) (encoded encode image_files) ->
  In rel_path image_files /\ encode rel_path = Ok t.
Proof.
  unfold encoded. intros H. apply in_flat_map in H.
  destruct H as (p & Hp & H).
  destruct (encode p) as [t'|e] eqn:He; [|destruct H].
  destruct H as [H|[]]. inversion H; subst. now split.
Qed.

(** On the archive and the metadata that the builder saved, loaded as
    they are, the orchestrator never raises for a query whose embedding
    has the width of the stored ones: it returns at most one match, and a
    match it returns names (by the stem of its path) an image file of the
    directory that could be encoded, with the similarity of the query to
    that file's embedding as its score, which passes the threshold. *)
Theorem analyze_image_on_built_corpus
    (from_pretrained : result unit) (images_root : option (list string))
    (features : list (pydict tensor)) (mp : list (pydict pyval))
    (image_data : image_bytes) (spare_parts_data : list (pydict pyval))
    (q : tensor) :
  compute_clip_embeddings encode stem from_pretrained images_root =
    Some (features, mp) ->
  get_clip_features_from_bytes image_data = Some q ->
  (forall rel_path (t : tensor),
      encode rel_path = Ok t -> length t = length q) ->
  exists l,
    analyze_image get_clip_features_from_bytes format_3f
      (_load_features (Ok features) (Ok mp)) image_data spare_parts_data =
      Ok l /\
    length l <= 1 /\
    forall m, In m l ->
      exists image_files rel_path (t : tensor),
        images_root = Some image_files /\
        In rel_path image_files /\
        encode rel_path = Ok t /\
        material_number m = PyStr (stem rel_path) /\
        confidence_score m = compute_clip_similarity (Some q) (Some t) /\
        geb (confidence_score m) (decimal 9 1) = true.
Proof.
  intros Hb Hq Hw.
  assert (Hal : exists image_files,
             images_root = Some image_files /\
             length features = length (encoded encode image_files) /\
             forall k rel_path (t : tensor),
               nth_error (encoded encode image_files) k =
                 Some (rel_path, t) ->
               nth_error features k = Some (features_dict t) /\
               exists part,
                 nth_error mp k = Some part /\
                 lookup "material_number" part =
                   Some (PyStr (stem rel_path))).
  { unfold compute_clip_embeddings in Hb.
    destruct from_pretrained as [[]|e]; [|discriminate].
    destruct images_root as [image_files|]; [|discriminate].
    destruct image_files as [|f0 rest] eqn:Ef; [discriminate|].
    rewrite <- Ef in *.
    destruct (process_images_appends encode stem image_files [] [] eq_refl)
      as (f' & m' & Hp & Hf & Hm & Hk).
    rewrite Hp in Hb. cbn [app] in Hb.
    destruct f' as [|d f']; [discriminate|].
    inversion Hb; subst features mp. clear Hb.
    exists image_files. split; [reflexivity|]. split; [exact Hf|].
    intros k rel_path t Hkt. destruct (Hk k rel_path t Hkt) as [H1 H2].
    split; [exact H1|]. eexists. split; [exact H2|reflexivity]. }
  destruct Hal as (image_files & Hroot & Hlen & Hk).
  assert (Hnth : forall k (sf : pydict tensor),
             nth_error features k = Some sf ->
             exists rel_path (t : tensor),
               nth_error (encoded encode image_files) k =
                 Some (rel_path, t) /\
               sf = features_dict t).
  { intros k sf Hsf.
    assert (Hlt : k < length (encoded encode image_files)).
    { rewrite <- Hlen. apply nth_error_Some. now rewrite Hsf. }
    destruct (nth_error (encoded encode image_files) k) as [[p t]|] eqn:Ek;
      [|apply nth_error_None in Ek; lia].
    exists p, t. split; [reflexivity|].
    destruct (Hk k p t Ek) as [H1 _]. congruence. }
  assert (Hc : comparable features mp q).
  { intros k sf Hsf. destruct (Hnth k sf Hsf) as (p & t & Ek & ->).
    destruct (Hk k p t Ek) as [_ (part & Hp1 & Hp2)].
    destruct (encoded_In image_files p t (nth_error_In _ _ Ek)) as [_ He].
    exists t, part, (PyStr (stem p)).
    split; [reflexivity|]. split; [exact (Hw p t He)|]. now split. }
  destruct (analyze_image_runs get_clip_features_from_bytes format_3f
              (_load_features (Ok features) (Ok mp)) image_data
              spare_parts_data features mp q eq_refl eq_refl Hq Hc)
    as [l Hl].
  exists l. split; [exact Hl|].
  split; [exact (analyze_image_at_most_one _ _ _ _ _ _ Hl)|].
  intros m Hm.
  destruct (analyze_image_reports get_clip_features_from_bytes format_3f
              (_load_features (Ok features) (Ok mp)) image_data
              spare_parts_data features mp q l eq_refl eq_refl Hq Hl m Hm)
    as (k & sf & s & part & R1 & R2 & R3 & R4 & R5 & R6 & _).
  destruct (Hnth k sf R1) as (p & t & Ek & ->).
  destruct (Hk k p t Ek) as [_ (part' & Hp1 & Hp2)].
  destruct (encoded_In image_files p t (nth_error_In _ _ Ek)) as [Hin He].
  exists image_files, p, t.
  split; [exact Hroot|]. split; [exact Hin|]. split; [exact He|].
  cbn in R2. inversion R2; subst s.
  rewrite R3 in Hp1. inversion Hp1; subst part'.
  rewrite R4 in Hp2. inversion Hp2.
  split; [reflexivity|]. split; [exact R5|exact R6].
Qed.
End BuiltCorpus.

(** ** The web API *)
Section ApiFacts.
Context {A : Arith}.
Variable get_clip_features_from_bytes : image_bytes -> option tensor.
Variable format_3f : num -> string.
Variable CLIP_AVAILABLE : bool.
Variable query_all : list SparePart.t.
Variable query_first : pyval -> option SparePart.t.
Variable spare_parts_data_of : list SparePart.t -> list (pydict pyval).
Variable str : failure -> string.
Variable can_write : string -> bool.

Local Abbreviation upload :=
  (upload_image get_clip_features_from_bytes format_3f
     query_all query_first spare_parts_data_of str can_write).

Lemma lookup_remove (path : string) (uploads : pydict image_bytes) :
  lookup path (remove path uploads) = None.
Proof.
  unfold remove. induction uploads as [|[p c] rest IH]; [reflexivity|].
  cbn [filter fst]. destruct (String.eqb_spec p path) as [E|E]; cbn [negb].
  - exact IH.
  - cbn [lookup]. destruct (String.eqb_spec p path); [contradiction|exact IH].
Qed.

Lemma lookup_remove_other (path other : string)
    (uploads : pydict image_bytes) :
  other <> path -> lookup other (remove path uploads) = lookup other uploads.
Proof.
  intros Hne. unfold remove.
  induction uploads as [|[p c] rest IH]; [reflexivity|].
  cbn [filter fst lookup].
  destruct (String.eqb_spec p path) as [E|E]; cbn [negb].
  - subst p. destruct (String.eqb_spec path other); [congruence|exact IH].
  - cbn [lookup]. now rewrite IH.
Qed.

(** The upload directory after a request.  Files at other paths are as
    they were.  At the path of the request the file holds the uploaded
    bytes after a response; it does not exist after a 500; and after a 400
    or an uncaught exception nothing was written at all. *)
Theorem upload_image_storage
    (app : App) (uploads : pydict image_bytes) (content_type : option string)
    (filename : string) (content : image_bytes) (now : string) :
  (forall other,
      other <> upload_path now filename ->
      lookup other
        (snd (upload app uploads content_type filename content now)) =
      lookup other uploads) /\
  match fst (upload app uploads content_type filename content now) with
  | Response _ =>
      lookup (upload_path now filename)
        (snd (upload app uploads content_type filename content now)) =
      Some content
  | HTTPException status_code _ =>
      (status_code = 400%Z /\
       snd (upload app uploads content_type filename content now) = uploads)
      \/
      (status_code = 500%Z /\
       lookup (upload_path now filename)
         (snd (upload app uploads content_type filename content now)) = None)
  | Uncaught _ =>
      snd (upload app uploads content_type filename content now) = uploads
  end.
Proof.
  unfold upload_image.
  destruct content_type as [ct|]; [|split; reflexivity].
  destruct (String.prefix "image/" ct); cbn [negb];
    [|split; [reflexivity|left; split; reflexivity]].
  destruct (can_write (upload_path now filename)); cbn [negb];
    [|split; reflexivity].
  destruct (find_matches _ _ _ _ _ _ _) as [results|e]; cbn [fst snd].
  - split.
    + intros other Hne. cbn [lookup].
      destruct (String.eqb_spec (upload_path now filename) other);
        [congruence|reflexivity].
    + cbn [lookup]. now rewrite String.eqb_refl.
  - split.
    + intros other Hne. rewrite (lookup_remove_other _ _ _ Hne).
      cbn [lookup].
      destruct (String.eqb_spec (upload_path now filename) other);
        [congruence|reflexivity].
    + right. split; [reflexivity|apply lookup_remove].
Qed.

(** With the service in place and flagged available, a response carries
    at most one search result, and a result it carries is the one match
    that the analysis of the uploaded bytes reported: the row that the
    database gave for the reported material number, validated, with the
    score and the reason of the match. *)
Theorem upload_image_with_service
    (app : App) (uploads : pydict image_bytes) (content_type : option string)
    (filename : string) (content : image_bytes) (now : string)
    (service : AIService) (body : ImageUploadResponse.t)
    (uploads' : pydict image_bytes) :
  ai_service app = Some service ->
  ai_available app = true ->
  upload app uploads content_type filename content now =
    (Response body, uploads') ->
  length (ImageUploadResponse.search_results body) <= 1 /\
  forall r, In r (ImageUploadResponse.search_results body) ->
    exists m part,
      analyze_image get_clip_features_from_bytes format_3f
        service content (spare_parts_data_of query_all) = Ok [m] /\
      truthy (material_number m) = true /\
      query_first (material_number m) = Some part /\
      model_validate part = Returned (SearchResult.spare_part r) /\
      SearchResult.confidence_score r = confidence_score m /\
      SearchResult.match_reason r = match_reason m.
Proof.
  intros Hs Ha. unfold upload_image.
  destruct content_type as [ct|]; [|discriminate].
  destruct (String.prefix "image/" ct); cbn [negb]; [|discriminate].
  destruct (can_write (upload_path now filename)); cbn [negb];
    [|discriminate].
  unfold find_matches. rewrite Hs, Ha.
  destruct (analyze_image get_clip_features_from_bytes format_3f
              service content (spare_parts_data_of query_all))
    as [l|e] eqn:Hl; cbn [and_also]; [|discriminate].
  pose proof (analyze_image_at_most_one _ _ _ _ _ _ Hl) as Hone.
  destruct l as [|m [|m' l']]; [| |cbn in Hone; lia].
  { cbn. intros H. inversion H; subst. cbn. split; [lia|intros r []]. }
  cbn [map convert read_match].
  destruct (truthy (material_number m)) eqn:Ht.
  2:{ cbn. intros H. inversion H; subst. cbn. split; [lia|intros r []]. }
  destruct (query_first (material_number m)) as [part|] eqn:Hqf.
  2:{ cbn. intros H. inversion H; subst. cbn. split; [lia|intros r []]. }
  destruct (model_validate part) as [response|e] eqn:Hv; cbn [and_also];
    [|discriminate].
  cbn [sort_reverse fold_right insert_desc].
  intros H. inversion H; subst. cbn [ImageUploadResponse.search_results].
  split; [cbn; lia|].
  intros r [<-|[]]. exists m, part. cbn. now repeat split.
Qed.

(** When the file of an image upload could be written and the analysis
    then raises, the endpoint answers 500 with the text of the exception
    and removes the file it had stored. *)
Theorem upload_image_analysis_failure
    (app : App) (uploads : pydict image_bytes) (content_type : string)
    (filename : string) (content : image_bytes) (now : string)
    (service : AIService) (e : exn) :
  ai_service app = Some service ->
  ai_available app = true ->
  String.prefix "image/" content_type = true ->
  can_write (upload_path now filename) = true ->
  analyze_image get_clip_features_from_bytes format_3f
    service content (spare_parts_data_of query_all) = Raise e ->
  upload app uploads (Some content_type) filename content now =
    (HTTPException 500%Z ("Error processing image: " ++ str (Analysis e)),
     remove (upload_path now filename) uploads).
Proof.
  intros Hs Ha Hp Hw He. unfold upload_image, find_matches.
  rewrite Hp, Hw, Hs, Ha, He. cbn [negb and_also].
  unfold remove at 1. cbn [filter fst].
  now rewrite String.eqb_refl.
Qed.

(** A service whose store did not load answers an image upload whose
    file could be written with no result until the first health check,
    and with the parts of the fallback from then on, exactly as if there
    were no service.  A service whose store is loaded is not affected by
    the health check. *)
Theorem health_check_decides_the_path
    (service : AIService) (uploads : pydict image_bytes)
    (content_type : string) (filename : string) (content : image_bytes)
    (now t : string) (e : exn) :
  String.prefix "image/" content_type = true ->
  can_write (upload_path now filename) = true ->
  (is_model_available service = true ->
   fst (health_check CLIP_AVAILABLE (startup (Ok service)) t) =
   startup (Ok service)) /\
  (is_model_available service = false ->
   (exists message,
      upload (startup (Ok service)) uploads (Some content_type)
        filename content now =
      (Response {| ImageUploadResponse.message := message;
                   ImageUploadResponse.search_results := [] |},
       (upload_path now filename, content) :: uploads)) /\
   upload (fst (health_check CLIP_AVAILABLE (startup (Ok service)) t))
     uploads (Some content_type) filename content now =
   upload (startup (Raise e)) uploads (Some content_type)
     filename content now).
Proof.
  intros Hp Hw. split; intros Hav.
  - unfold health_check, startup. cbn. now rewrite Hav.
  - split.
    + unfold upload_image, find_matches, startup. rewrite Hp, Hw.
      cbn [negb ai_service ai_available].
      assert (Hempty : analyze_image get_clip_features_from_bytes format_3f
                         service content (spare_parts_data_of query_all) =
                       Ok []).
      { unfold is_model_available in Hav.
        unfold analyze_image, _fallback_analysis.
        destruct (stored_features service); [|reflexivity].
        destruct (mapping service); [discriminate|reflexivity]. }
      rewrite Hempty. cbn. eexists. reflexivity.
    + unfold upload_image, find_matches, health_check, startup.
      cbn [fst ai_service ai_available]. now rewrite Hav.
Qed.
End ApiFacts.

(** ** The web API without the service, in exact arithmetic *)
Section ApiFallback.
Import Exact.
Local Open Scope R_scope.
Variable get_clip_features_from_bytes :
  image_bytes -> option (@tensor RArith).
Variable format_3f : R -> string.
Variable query_all : list SparePart.t.
Variable query_first : @pyval RArith -> option SparePart.t.
Variable spare_parts_data_of :
  list SparePart.t -> list (pydict (@pyval RArith)).
Variable str : failure -> string.
Variable can_write : string -> bool.

Lemma sort_reverse_of_sorted {T : Type} (key : T -> R) (l : list T) :
  StronglySorted (desc key) l -> sort_reverse (A := RArith) key l = l.
Proof.
  induction 1 as [|x l Hs IH Hall]; [reflexivity|].
  cbn [sort_reverse fold_right]. fold (sort_reverse (A := RArith) key l).
  rewrite IH. destruct l as [|y l']; [reflexivity|].
  cbn [insert_desc ltb RArith].
  apply Forall_inv in Hall. unfold desc in Hall.
  rewrite Rltb_false; [reflexivity|lra].
Qed.

Lemma convert_fallback (parts : list SparePart.t) :
  (forall part, In part parts ->
     SparePart.material_number part <> ""%string /\
     query_first (PyStr (SparePart.material_number part)) = Some part /\
     SparePart.created_at part <> None) ->
  forall i,
  exists results,
    convert query_first (fallback_matches i parts) = Returned results /\
    map (fun r =>
           (SparePartResponse.material_number (SearchResult.spare_part r),
            SearchResult.confidence_score r, SearchResult.match_reason r))
        results =
    map (fun m : @ai_match RArith =>
           match fst (fst m) with
           | PyStr s => (s, snd (fst m), snd m)
           | _ => (""%string, snd (fst m), snd m)
           end)
        (fallback_matches i parts).
Proof.
  induction parts as [|part rest IH]; intros Hdb i.
  - exists []. split; reflexivity.
  - destruct (Hdb part (or_introl eq_refl)) as (Hne & Hq & Hc).
    destruct (IH (fun p Hp => Hdb p (or_intror Hp)) (S i))
      as (results & Hr & Hmap).
    cbn [fallback_matches convert truthy].
    destruct (String.eqb_spec (SparePart.material_number part) "")
      as [E|_]; [contradiction|]. cbn [negb].
    rewrite Hq. unfold model_validate.
    destruct (SparePart.created_at part) as [created|]; [|contradiction].
    cbn [and_also]. rewrite Hr. cbn [and_also].
    eexists. split; [reflexivity|].
    cbn [map fst snd SearchResult.spare_part SearchResult.confidence_score
         SearchResult.match_reason SparePartResponse.material_number].
    now rewrite Hmap.
Qed.

(** Without the service, or with the flag off, the endpoint answers an
    image upload whose file could be written with the first three rows of
    the table, at confidence 0.3, 0.2 and 0.1 in this order (fewer when
    the table is shorter), each for manual verification, and keeps the
    file; this for a table whose rows have a material number that the
    database finds them by, and a creation time. *)
Theorem upload_image_without_service
    (app : @App RArith) (uploads : pydict image_bytes)
    (content_type : string) (filename : string) (content : image_bytes)
    (now : string) :
  ai_service app = None \/ ai_available app = false ->
  String.prefix "image/" content_type = true ->
  can_write (upload_path now filename) = true ->
  (forall part, In part (firstn 3 query_all) ->
     SparePart.material_number part <> ""%string /\
     query_first (PyStr (SparePart.material_number part)) = Some part /\
     SparePart.created_at part <> None) ->
  exists body,
    upload_image get_clip_features_from_bytes format_3f
      query_all query_first spare_parts_data_of str can_write
      app uploads (Some content_type) filename content now =
      (Response body, (upload_path now filename, content) :: uploads) /\
    map (fun r =>
           (SparePartResponse.material_number (SearchResult.spare_part r),
            SearchResult.confidence_score r, SearchResult.match_reason r))
        (ImageUploadResponse.search_results body) =
    map (fun pc =>
           (SparePart.material_number (fst pc), snd pc,
            "AI service not available - please verify manually"%string))
        (combine (firstn 3 query_all) [3 / 10; 2 / 10; 1 / 10]).
Proof.
  intros Hoff Hp Hw Hdb. unfold upload_image, find_matches.
  rewrite Hp, Hw. cbn [negb].
  assert (Hbranch :
    match ai_service app, ai_available app with
    | Some service, true =>
        match analyze_image get_clip_features_from_bytes format_3f
                service content (spare_parts_data_of query_all) with
        | Ok ai_matches => Returned (map (@read_match RArith) ai_matches)
        | Raise e => Failed (Analysis e)
        end
    | _, _ => Returned (fallback_matches 0 (firstn 3 query_all))
    end = Returned (fallback_matches 0 (firstn 3 query_all))).
  { destruct Hoff as [-> | ->]; [reflexivity|].
    destruct (ai_service app); reflexivity. }
  rewrite Hbranch. cbn [and_also].
  destruct (convert_fallback (firstn 3 query_all) Hdb 0%nat)
    as (results & Hr & Hmap).
  rewrite Hr. cbn [and_also].
  assert (Hthree : (length (firstn 3 query_all) <= 3)%nat)
    by (rewrite length_firstn; lia).
  assert (Hvalues :
    map (fun m : @ai_match RArith =>
           match fst (fst m) with
           | PyStr s => (s, snd (fst m), snd m)
           | _ => (""%string, snd (fst m), snd m)
           end)
        (fallback_matches 0 (firstn 3 query_all)) =
    map (fun pc =>
           (SparePart.material_number (fst pc), snd pc,
            "AI service not available - please verify manually"%string))
        (combine (firstn 3 query_all) [3 / 10; 2 / 10; 1 / 10])).
  { destruct (firstn 3 query_all) as [|a [|b [|c [|d l]]]];
      cbn [length] in Hthree; try lia;
      cbn [fallback_matches map combine fst snd];
      rewrite ?decimal_R, ?of_nat_R;
      change (10 ^ Z.of_nat 1)%Z with 10%Z;
      cbn [sub mul RArith INR];
      repeat (f_equal; try lra). }
  rewrite Hvalues in Hmap.
  assert (Hsorted :
    StronglySorted (desc (@SearchResult.confidence_score RArith)) results).
  { assert (Hc : map (@SearchResult.confidence_score RArith) results =
                 map snd (combine (firstn 3 query_all)
                            [3 / 10; 2 / 10; 1 / 10])).
    { apply (f_equal (map (fun x : string * R * string => snd (fst x))))
        in Hmap.
      rewrite !map_map in Hmap. cbn [fst snd] in Hmap. exact Hmap. }
    destruct (firstn 3 query_all) as [|a [|b [|c [|d l]]]];
      cbn [length] in Hthree; try lia;
      cbn [combine map snd] in Hc;
      repeat (destruct results as [|? results]; try discriminate);
      cbn [map] in Hc; inversion Hc;
      repeat (constructor; unfold desc; try lra). }
  rewrite (sort_reverse_of_sorted _ results Hsorted).
  eexists. split; [reflexivity|]. exact Hmap.
Qed.
End ApiFallback.

(** ** Sample runs: the builder and the web API, in binary64 *)

Example stem_samples :
  Cases.stem "1/SP001.jpg" = "SP001"%string /\
  Cases.stem "a.b/archive.tar.gz" = "archive.tar"%string /\
  Cases.stem "x/.hidden" = ".hidden"%string.
Proof. repeat split; reflexivity. Qed.

Lemma compute_clip_embeddings_aligned_witness :
  exists image_files,
    Some Cases.image_files = Some image_files /\
    0 < length Cases.saved_features /\
    length Cases.saved_features =
      length (encoded Cases.encode image_files) /\
    length Cases.saved_mapping =
      length (encoded Cases.encode image_files) /\
    forall k rel_path t,
      nth_error (encoded Cases.encode image_files) k = Some (rel_path, t) ->
      nth_error Cases.saved_features k =
        Some [ ("clip_features"%string, t) ] /\
      nth_error Cases.saved_mapping k =
        Some [ ("part_id"%string, PyInt (Z.of_nat k + 1));
               ("material_number"%string, PyStr (Cases.stem rel_path));
               ("description"%string,
                 PyStr ("Part " ++ Cases.stem rel_path));
               ("image_path"%string, PyStr ("images/" ++ rel_path));
               ("feature_index"%string, PyInt (Z.of_nat k)) ].
Proof.
  exact (@compute_clip_embeddings_aligned Binary64.F64
           Cases.encode Cases.stem (Ok tt) (Some Cases.image_files)
           Cases.saved_features Cases.saved_mapping eq_refl).
Defined.

Lemma Cases_encode_width rel_path (t : @tensor Binary64.F64) :
  Cases.encode rel_path = Ok t -> length t = length Samples.unit_x.
Proof.
  unfold Cases.encode.
  destruct (rel_path =? "1/SP001.jpg")%string;
    [intros H; inversion H; reflexivity|].
  destruct (rel_path =? "2/SP002.jpg")%string;
    [intros H; inversion H; reflexivity|discriminate].
Qed.

Lemma analyze_image_on_built_corpus_witness :
  exists l,
    analyze_image (Samples.encoder (Some Samples.unit_x)) Binary64.format_3f
      (_load_features (Ok Cases.saved_features) (Ok Cases.saved_mapping))
      [Byte.x07] [] = Ok l /\
    length l <= 1 /\
    forall m, In m l ->
      exists image_files rel_path (t : @tensor Binary64.F64),
        Some Cases.image_files = Some image_files /\
        In rel_path image_files /\
        Cases.encode rel_path = Ok t /\
        material_number m = PyStr (Cases.stem rel_path) /\
        confidence_score m =
          compute_clip_similarity (Some Samples.unit_x) (Some t) /\
        geb (confidence_score m) (decimal 9 1) = true.
Proof.
  exact (@analyze_image_on_built_corpus Binary64.F64
           (Samples.encoder (Some Samples.unit_x)) Binary64.format_3f
           Cases.encode Cases.stem (Ok tt) (Some Cases.image_files)
           Cases.saved_features Cases.saved_mapping [Byte.x07] []
           Samples.unit_x eq_refl eq_refl Cases_encode_width).
Defined.

(** The upload that finds [SP002] in [Samples.corpus3]. *)
Example upload_image_finds_SP002 :
  upload_image (Samples.encoder (Some Samples.unit_x)) Binary64.format_3f
    Cases.table Cases.first_by_material_number (map Cases.as_dict) Cases.str Cases.can_write
    (Cases.app Samples.corpus3) [] Cases.jpeg "part.jpg" [Byte.x07]
    Cases.now =
  (Response Cases.response_SP002, [ (Cases.stored_at, [Byte.x07]) ]).
Proof. reflexivity. Qed.

(** A file name with a slash: the file cannot be opened for writing,
    the exception leaves the endpoint and nothing is stored. *)
Example upload_image_file_name_with_slash :
  upload_image (Samples.encoder (Some Samples.unit_x)) Binary64.format_3f
    Cases.table Cases.first_by_material_number (map Cases.as_dict)
    Cases.str Cases.can_write
    (Cases.app Samples.corpus3) [] Cases.jpeg "a/b.jpg" [Byte.x07]
    Cases.now =
  (Uncaught OSError, []).
Proof. reflexivity. Qed.

Lemma upload_image_with_service_witness :
  length (ImageUploadResponse.search_results Cases.response_SP002) <= 1 /\
  forall r, In r (ImageUploadResponse.search_results Cases.response_SP002) ->
    exists m part,
      analyze_image (Samples.encoder (Some Samples.unit_x))
        Binary64.format_3f Samples.corpus3 [Byte.x07]
        (map Cases.as_dict Cases.table) = Ok [m] /\
      truthy (material_number m) = true /\
      Cases.first_by_material_number (material_number m) = Some part /\
      model_validate part = Returned (SearchResult.spare_part r) /\
      SearchResult.confidence_score r = confidence_score m /\
      SearchResult.match_reason r = match_reason m.
Proof.
  exact (@upload_image_with_service Binary64.F64
           (Samples.encoder (Some Samples.unit_x)) Binary64.format_3f
           Cases.table Cases.first_by_material_number (map Cases.as_dict)
           Cases.str Cases.can_write (Cases.app Samples.corpus3) [] Cases.jpeg "part.jpg"
           [Byte.x07] Cases.now Samples.corpus3 Cases.response_SP002
           [ (Cases.stored_at, [Byte.x07]) ] eq_refl eq_refl eq_refl).
Defined.

Lemma upload_image_analysis_failure_witness :
  upload_image (Samples.encoder (Some Samples.unit_x)) Binary64.format_3f
    Cases.table Cases.first_by_material_number (map Cases.as_dict) Cases.str Cases.can_write
    (Cases.app Samples.corpus_bad_width)
    [ ("uploads/earlier.jpg"%string, [Byte.x01]) ]
    Cases.jpeg "part.jpg" [Byte.x07] Cases.now =
  (HTTPException 500%Z "Error processing image: 'cosine_similarity'",
   remove Cases.stored_at [ ("uploads/earlier.jpg"%string, [Byte.x01]) ]).
Proof.
  exact (@upload_image_analysis_failure Binary64.F64
           (Samples.encoder (Some Samples.unit_x)) Binary64.format_3f
           Cases.table Cases.first_by_material_number (map Cases.as_dict)
           Cases.str Cases.can_write (Cases.app Samples.corpus_bad_width)
           [ ("uploads/earlier.jpg"%string, [Byte.x01]) ]
           "image/jpeg" "part.jpg" [Byte.x07] Cases.now
           Samples.corpus_bad_width (KeyError "cosine_similarity")
           eq_refl eq_refl eq_refl eq_refl eq_refl).
Defined.

Lemma health_check_decides_the_path_witness :
  (exists message,
     upload_image (Samples.encoder (Some Samples.unit_x))
       Binary64.format_3f Cases.table Cases.first_by_material_number
       (map Cases.as_dict) Cases.str Cases.can_write (Cases.app Cases.unloaded)
       [] Cases.jpeg "part.jpg" [Byte.x07] Cases.now =
     (Response {| ImageUploadResponse.message := message;
                  ImageUploadResponse.search_results := [] |},
      [ (upload_path Cases.now "part.jpg", [Byte.x07]) ])) /\
  upload_image (Samples.encoder (Some Samples.unit_x))
    Binary64.format_3f Cases.table Cases.first_by_material_number
    (map Cases.as_dict) Cases.str Cases.can_write
    (fst (health_check true (Cases.app Cases.unloaded)
            "2025-01-01T12:00:00"))
    [] Cases.jpeg "part.jpg" [Byte.x07] Cases.now =
  upload_image (Samples.encoder (Some Samples.unit_x))
    Binary64.format_3f Cases.table Cases.first_by_material_number
    (map Cases.as_dict) Cases.str Cases.can_write Cases.without_service
    [] Cases.jpeg "part.jpg" [Byte.x07] Cases.now.
Proof.
  exact (proj2
           (@health_check_decides_the_path Binary64.F64
              (Samples.encoder (Some Samples.unit_x)) Binary64.format_3f
              true Cases.table Cases.first_by_material_number
              (map Cases.as_dict) Cases.str Cases.can_write Cases.unloaded
              [] "image/jpeg" "part.jpg" [Byte.x07] Cases.now
              "2025-01-01T12:00:00" RuntimeError eq_refl eq_refl)
           eq_refl).
Defined.

(** Without the service, in binary64: the three confidences are
    [0.3], [0.3 - 0.1] and [0.3 - 0.2] as binary64 computes them, the last
    two just below 0.2 and 0.1. *)
Example upload_image_fallback_binary64 :
  exists body,
    upload_image (Samples.encoder (Some Samples.unit_x)) Binary64.format_3f
      Cases.table Cases.first_by_material_number (map Cases.as_dict)
      Cases.str Cases.can_write Cases.without_service [] Cases.jpeg "part.jpg"
      [Byte.x07] Cases.now =
    (Response body, [ (Cases.stored_at, [Byte.x07]) ]) /\
    map (fun r =>
           (SparePartResponse.material_number (SearchResult.spare_part r),
            SearchResult.confidence_score r))
      (ImageUploadResponse.search_results body) =
    [ ("SP001"%string, 0x1.3333333333333p-2%float);
      ("SP002"%string, 0x1.9999999999999p-3%float);
      ("SP003"%string, 0x1.9999999999998p-4%float) ].
Proof. eexists. split; reflexivity. Qed.

Lemma Cases_table_is_consistent :
  forall part, In part (firstn 3 Cases.table) ->
    SparePart.material_number part <> ""%string /\
    Cases.first_by_material_number (A := Exact.RArith)
      (PyStr (SparePart.material_number part)) = Some part /\
    SparePart.created_at part <> None.
Proof.
  intros part [<-|[<-|[<-|[]]]]; repeat split; discriminate.
Qed.

Lemma upload_image_without_service_witness :
  exists body,
    upload_image (fun _ => Some SamplesR.unit_x) (fun _ => ""%string)
      Cases.table Cases.first_by_material_number (map Cases.as_dict)
      Cases.str Cases.can_write (startup (A := Exact.RArith) (Raise RuntimeError)) []
      Cases.jpeg "part.jpg" [Byte.x07] Cases.now =
      (Response body,
       [ (upload_path Cases.now "part.jpg", [Byte.x07]) ]) /\
    map (fun r =>
           (SparePartResponse.material_number (SearchResult.spare_part r),
            SearchResult.confidence_score r, SearchResult.match_reason r))
        (ImageUploadResponse.search_results body) =
    map (fun pc =>
           (SparePart.material_number (fst pc), snd pc,
            "AI service not available - please verify manually"%string))
        (combine (firstn 3 Cases.table) [3 / 10; 2 / 10; 1 / 10]%R).
Proof.
  exact (upload_image_without_service
           (fun _ => Some SamplesR.unit_x) (fun _ => ""%string)
           Cases.table Cases.first_by_material_number (map Cases.as_dict)
           Cases.str Cases.can_write (startup (A := Exact.RArith) (Raise RuntimeError)) []
           "image/jpeg" "part.jpg" [Byte.x07] Cases.now
           (or_introl eq_refl) eq_refl eq_refl Cases_table_is_consistent).
Defined.

(** ** The orchestrator: what a reported match holds *)
Section ReportedMatch.
Context {A : Arith}.
Variable get_clip_features_from_bytes : image_bytes -> option tensor.
Variable format_3f : num -> string.

End ReportedMatch.


(** ** The orchestrator: ties *)
Section Ties.
Import Exact.
Local Open Scope R_scope.
Variable get_clip_features_from_bytes :
  image_bytes -> option (@tensor RArith).
Variable format_3f : R -> string.

(** The first of the ranked matches comes from the first position that
    reaches its score. *)
Lemma collect_first_best (mp : list (pydict pyval))
    (sims : list (R * pydict (@pyval RArith))) :
  forall idx valid best rest,
    collect format_3f mp idx sims = Ok valid ->
    sort_reverse (A := RArith) confidence_score valid = best :: rest ->
    exists k part,
      nth_error sims k = Some (confidence_score best, details best) /\
      nth_error mp (idx + k) = Some part /\
      lookup "material_number" part = Some (material_number best) /\
      forall j sim det,
        (j < k)%nat -> nth_error sims j = Some (sim, det) ->
        sim < confidence_score best.
Proof.
  induction sims as [|[sim0 det0] sims' IH]; intros idx valid best rest Hc Hs.
  - cbn in Hc. inversion Hc; subst. discriminate.
  - cbn [collect] in Hc.
    destruct (geb (A := RArith) sim0 (decimal 9 1)) eqn:Hg.
    + revert Hc.
      case_bind; [|discriminate]. case_bind; [|discriminate].
      case_bind; [|discriminate].
      rename a into part0, a0 into material0, a1 into valid'.
      intros Hc. inversion Hc; subst valid. clear Hc.
      cbn [sort_reverse fold_right] in Hs.
      fold (sort_reverse (A := RArith) confidence_score valid') in Hs.
      destruct (sort_reverse (A := RArith) confidence_score valid')
        as [|b' r'] eqn:Hs'.
      * cbn in Hs. inversion Hs; subst. exists 0%nat, part0.
        rewrite Nat.add_0_r. cbn.
        repeat split; auto using index_Ok, getitem_Ok. intros; lia.
      * cbn [insert_desc confidence_score ltb RArith] in Hs.
        unfold Rltb in Hs.
        destruct (Rlt_dec sim0 (confidence_score b')) as [Hlt|Hge].
        -- inversion Hs; subst b'. clear Hs.
           destruct (IH (S idx) valid' best r' E1 Hs')
             as (k & part & K1 & K2 & K3 & K4).
           exists (S k), part. rewrite Nat.add_succ_r.
           split; [exact K1|]. split; [exact K2|]. split; [exact K3|].
           intros [|j] sim det Hj Hn; cbn [nth_error] in Hn.
           ++ inversion Hn; subst. exact Hlt.
           ++ apply (K4 j sim det); [lia|exact Hn].
        -- inversion Hs; subst. exists 0%nat, part0.
           rewrite Nat.add_0_r. cbn.
           repeat split; auto using index_Ok, getitem_Ok. intros; lia.
    + destruct (IH (S idx) valid best rest Hc Hs)
        as (k & part & K1 & K2 & K3 & K4).
      exists (S k), part. rewrite Nat.add_succ_r.
      split; [exact K1|]. split; [exact K2|]. split; [exact K3|].
      intros [|j] sim det Hj Hn; cbn [nth_error] in Hn.
      * inversion Hn; subst.
        assert (Hbest : In best valid).
        { apply (Permutation_in best
                   (sort_reverse_perm (@confidence_score RArith) valid)).
          rewrite Hs. now left. }
        destruct (@collect_Ok RArith format_3f mp sims' (S idx) valid Hc)
          as [Hvalid _].
        destruct (Hvalid best Hbest) as (k' & part' & _ & G & _).
        apply geb_R in G.
        assert (Hlow : ~ decimal (A := RArith) 9 1 <= sim).
        { intros Hle. apply geb_R in Hle. congruence. }
        cbn [num RArith] in *. lra.
      * apply (K4 j sim det); [lia|exact Hn].
Qed.

(** Ties go to the earlier image.  The match that [analyze_image] reports
    belongs to the first entry of the corpus that reaches the reported
    score: every entry before it is strictly less similar to the query. *)
Theorem analyze_image_reports_the_first_of_the_best
    self image_data spare_parts_data m :
  analyze_image get_clip_features_from_bytes format_3f
    self image_data spare_parts_data = Ok [m] ->
  exists features mp (q : @tensor RArith) k
         (sf : pydict (@tensor RArith)) (s : @tensor RArith) part,
    stored_features self = Some features /\
    mapping self = Some mp /\
    get_clip_features_from_bytes image_data = Some q /\
    nth_error features k = Some sf /\
    lookup "clip_features" sf = Some s /\
    nth_error mp k = Some part /\
    lookup "material_number" part = Some (material_number m) /\
    confidence_score m = compute_clip_similarity (Some q) (Some s) /\
    forall j (sfj : pydict (@tensor RArith)) (sj : @tensor RArith),
      (j < k)%nat ->
      nth_error features j = Some sfj ->
      lookup "clip_features" sfj = Some sj ->
      compute_clip_similarity (Some q) (Some sj) < confidence_score m.
Proof.
  intros H. unfold analyze_image, _fallback_analysis in H.
  destruct (stored_features self) as [features|] eqn:Hf; [|discriminate].
  destruct (mapping self) as [mp|] eqn:Hm; [|discriminate].
  destruct (get_clip_features_from_bytes image_data) as [q|] eqn:Hq;
    [|discriminate].
  revert H. case_bind; [|discriminate]. case_bind; [|discriminate].
  rename a into sims, a0 into valid, E into Hscan, E0 into Hcollect.
  destruct (sort_reverse confidence_score valid) as [|best rest] eqn:Hsort;
    intros H; inversion H; subst best; clear H.
  destruct (collect_first_best mp sims 0%nat valid m rest Hcollect Hsort)
    as (k & part & K1 & K2 & K3 & K4).
  cbn [Nat.add] in K2.
  destruct (scan_Ok mp q features 0%nat sims Hscan) as [Hlen Hscanned].
  assert (Hk : (k < length features)%nat).
  { rewrite <- Hlen. apply nth_error_Some. intros Hn.
    cbn [num RArith] in *. congruence. }
  destruct (nth_error features k) as [sf|] eqn:Ek;
    [|apply nth_error_None in Ek; lia].
  destruct (Hscanned k sf Ek) as (s & part' & v & S1 & S2 & S3 & S4).
  exists features, mp, q, k, sf, s, part.
  split; [reflexivity|]. split; [reflexivity|]. split; [reflexivity|].
  split; [exact Ek|]. split; [exact S1|]. split; [exact K2|].
  split; [exact K3|]. split.
  - assert (Hpair : (confidence_score m, details m) =
                    compute_clip_similarity_detailed (Some q) (Some s)).
    { change (R * pydict (@pyval RArith))%type
        with (@num RArith * pydict (@pyval RArith))%type in K1.
      congruence. }
    rewrite <- (detailed_score (Some q) (Some s)), <- Hpair. reflexivity.
  - intros j sfj sj Hj Hnj Hsj.
    destruct (Hscanned j sfj Hnj) as (s' & pj & vj & J1 & J2 & J3 & J4).
    rewrite Hsj in J1. inversion J1; subst s'. clear J1.
    rewrite <- (detailed_score (Some q) (Some sj)).
    destruct (compute_clip_similarity_detailed (Some q) (Some sj))
      as [simj detj] eqn:Ed.
    cbn [fst]. exact (K4 j simj detj Hj J4).
Qed.
End Ties.

Lemma CasesR_twins_similarity :
  @compute_clip_similarity_detailed Exact.RArith
    (Some SamplesR.unit_x) (Some SamplesR.unit_x) =
  (1%R, details CasesR.match_SP001).
Proof.
  unfold compute_clip_similarity_detailed.
  rewrite (cosine_similarity_same_width SamplesR.unit_x SamplesR.unit_x
             eq_refl).
  cbn [bind]. rewrite SamplesR_unit_x_norm.
  assert (Hc : @div Exact.RArith (dot SamplesR.unit_x SamplesR.unit_x)
                 (@mul Exact.RArith
                    (@fmax Exact.RArith 1%R (decimal 1 8))
                    (@fmax Exact.RArith 1%R (decimal 1 8))) =
               1%R).
  { rewrite fmax_R, decimal_R.
    change (10 ^ Z.of_nat 8)%Z with 100000000%Z.
    rewrite Rmax_left by lra.
    unfold SamplesR.unit_x. cbn [dot add mul div of_Z Exact.RArith]. lra. }
  cbn [num Exact.RArith] in *. rewrite Hc.
  cbn [add div of_Z Exact.RArith CasesR.match_SP001 details].
  replace ((1 + 1) / 2)%R with 1%R by lra. reflexivity.
Qed.

Lemma CasesR_twins_run :
  analyze_image (fun _ => Some SamplesR.unit_x) CasesR.format_3f
    CasesR.twins [Byte.x07] [] = Ok [CasesR.match_SP001].
Proof.
  unfold analyze_image, CasesR.twins.
  cbn [stored_features mapping scan CasesR.entry CasesR.part getitem lookup
       String.eqb Ascii.eqb Bool.eqb bind index nth_error].
  rewrite CasesR_twins_similarity.
  cbn [CasesR.match_SP001 details getitem lookup String.eqb Ascii.eqb
       Bool.eqb bind collect].
  assert (Hg : geb (A := Exact.RArith) 1%R (decimal 9 1) = true).
  { apply geb_R. rewrite decimal_R.
    change (10 ^ Z.of_nat 1)%Z with 10%Z. lra. }
  rewrite Hg.
  cbn [index nth_error bind getitem lookup String.eqb Ascii.eqb Bool.eqb
       CasesR.part sort_reverse fold_right insert_desc confidence_score ltb
       Exact.RArith].
  rewrite Rltb_false by lra. reflexivity.
Qed.

Lemma analyze_image_reports_the_first_of_the_best_witness :
  exists features mp (q : @tensor Exact.RArith) k
         (sf : pydict (@tensor Exact.RArith)) (s : @tensor Exact.RArith) part,
    stored_features CasesR.twins = Some features /\
    mapping CasesR.twins = Some mp /\
    Some SamplesR.unit_x = Some q /\
    nth_error features k = Some sf /\
    lookup "clip_features" sf = Some s /\
    nth_error mp k = Some part /\
    lookup "material_number" part =
      Some (material_number CasesR.match_SP001) /\
    confidence_score CasesR.match_SP001 =
      compute_clip_similarity (Some q) (Some s) /\
    forall j (sfj : pydict (@tensor Exact.RArith))
           (sj : @tensor Exact.RArith),
      j < k ->
      nth_error features j = Some sfj ->
      lookup "clip_features" sfj = Some sj ->
      (compute_clip_similarity (Some q) (Some sj) <
       confidence_score CasesR.match_SP001)%R.
Proof.
  exact (analyze_image_reports_the_first_of_the_best
           (fun _ => Some SamplesR.unit_x) CasesR.format_3f
           CasesR.twins [Byte.x07] [] CasesR.match_SP001 CasesR_twins_run).
Defined.
